(** * Restaurant merger analysis: the cleaning, merging and loading scripts

    A shallow embedding of [Script/01_clean_and_merge.py] and of the
    dimension tables of [Script/02_load_database.py], and the properties of
    the merged data set that the later scripts rely on.

    A pandas data frame is a list of column names and a list of rows; a row
    maps column names to cells.  Every statement of the scripts is a step in
    a small monad that carries the log lines written so far and the
    exception, if one was raised. *)

From Stdlib Require Import ZArith QArith Ascii String DecimalString.
From stdpp Require Import gmap strings list fin_maps.

Local Open Scope Z_scope.
Local Open Scope string_scope.

(** ** Cells *)

Module Pandas.

(** The month of a time stamp; [strftime('%B')] prints its English name. *)
Inductive month_t :=
| January | February | March | April | May | June
| July | August | September | October | November | December.

(** A parsed date ([pd.Timestamp]); only the calendar part is looked at. *)
Record timestamp := Timestamp { ts_year : Z; ts_month : month_t; ts_day : Z }.

(** A parsed time of day. *)
Record clock := Clock { hour : nat; minute : nat; second : nat }.

(** One cell of a data frame. [NA] is the missing value in all its pandas
    spellings (NaN, NaT, None, <NA>). A number with an integral value is
    [VInt], whatever its dtype (Python equates [1] and [1.0]); [VFloat] holds
    the other finite floats. *)
Inductive value :=
| NA
| VStr (s : string)
| VInt (z : Z)
| VFloat (q : Q)
| VDate (t : timestamp).

#[global] Instance month_eq_dec : EqDecision month_t.
Proof. solve_decision. Defined.
#[global] Instance timestamp_eq_dec : EqDecision timestamp.
Proof. solve_decision. Defined.
#[global] Instance Q_eq_dec : EqDecision Q.
Proof. solve_decision. Defined.
#[global] Instance value_eq_dec : EqDecision value.
Proof. solve_decision. Defined.

(** [pd.isna] / [pd.notna] *)
Definition isna (v : value) : bool :=
  match v with NA => true | _ => false end.

Definition month_number (m : month_t) : Z :=
  match m with
  | January => 1 | February => 2 | March => 3 | April => 4
  | May => 5 | June => 6 | July => 7 | August => 8
  | September => 9 | October => 10 | November => 11 | December => 12
  end.

Definition month_name (m : month_t) : string :=
  match m with
  | January => "January" | February => "February" | March => "March"
  | April => "April" | May => "May" | June => "June" | July => "July"
  | August => "August" | September => "September" | October => "October"
  | November => "November" | December => "December"
  end.

(** ** Exceptions, the log and the monad of a script *)

Inductive exn :=
| KeyError (missing : list string)
| TypeError
| ValueError
| AttributeError
| IntegrityError (column : string)
| DatatypeMismatch.

(** The log lines that report a count or a set of values taken from the
    data. The other lines (fixed text, shapes, date ranges) are left out. *)
Inductive event :=
| LogCorruptDates (n_bad : nat) (n_rows : nat)
| LogCategories (chain : string) (categories : list value)
| LogDropped (column : string)
| LogSuspiciousDates (bad_xyz : nat)
| LogMerged (n_rows n_cols n_abc n_xyz : nat)
| LogNulls (column : string) (n : nat).

Definition M (A : Type) : Type := (list event * (exn + A))%type.

#[global] Instance M_ret : MRet M := λ A a, ([], inr a).
#[global] Instance M_bind : MBind M := λ A B f m,
  match m with
  | (l, inl e) => (l, inl e)
  | (l, inr a) => let r := f a in ((l ++ r.1)%list, r.2)
  end.

Definition raise {A} (e : exn) : M A := ([], inl e).
Definition log (ev : event) : M unit := ([ev], inr tt).

(** A function of one cell that may raise, as [M] without log lines. *)
Definition lift {A} (r : exn + A) : M A := ([], r).

(** ** Data frames *)

Record frame := Frame { columns : list string; rows : list (gmap string value) }.

(** A cell of a row; a column the row does not have reads as missing. *)
Definition cell (c : string) (r : gmap string value) : value :=
  default NA (r !! c).

Definition add_column (c : string) (cols : list string) : list string :=
  if decide (c ∈ cols) then cols else (cols ++ [c])%list.

(** [df[c]] *)
Definition getitem (df : frame) (c : string) : M (list value) :=
  if decide (c ∈ columns df) then mret (cell c <$> rows df)
  else raise (KeyError [c]).

(** [df[c] = series] *)
Definition setitem (df : frame) (c : string) (s : list value) : M frame :=
  if decide (length s = length (rows df)) then
    mret (Frame (add_column c (columns df))
                (zip_with (λ r v, <[c:=v]> r) (rows df) s))
  else raise ValueError.

(** [df[c] = scalar] *)
Definition setitem_scalar (df : frame) (c : string) (v : value) : frame :=
  Frame (add_column c (columns df)) ((λ r, <[c:=v]> r) <$> rows df).

(** [df.loc[mask, c] = v] *)
Definition loc_setitem (df : frame) (mask : list bool) (c : string) (v : value)
  : M frame :=
  if decide (c ∈ columns df) then
    if decide (length mask = length (rows df)) then
      mret (Frame (columns df)
                  (zip_with (λ r (b : bool), if b then <[c:=v]> r else r)
                            (rows df) mask))
    else raise ValueError
  else raise (KeyError [c]).

(** [df.drop(columns=[c])] *)
Definition drop (df : frame) (c : string) : M frame :=
  if decide (c ∈ columns df) then
    mret (Frame (filter (λ c', c' ≠ c) (columns df)) (delete c <$> rows df))
  else raise (KeyError [c]).

(** [df[cols]]: the columns of [cols], in that order; the names that are not
    columns of [df] are reported in the [KeyError]. *)
Definition restrict (cols : list string) (r : gmap string value)
  : gmap string value :=
  filter (λ kv, kv.1 ∈ cols) r.

Definition select (df : frame) (cols : list string) : M frame :=
  let missing := filter (λ c, c ∉ columns df) cols in
  match missing with
  | [] => mret (Frame cols (restrict cols <$> rows df))
  | _ => raise (KeyError missing)
  end.

(** [pd.concat([a, b], ignore_index=True)] *)
Definition concat (a b : frame) : frame :=
  Frame (columns a ++ filter (λ c, c ∉ columns a) (columns b))
        (rows a ++ rows b).

(** [df.rename(columns={old: new})] *)
Definition rename_key (old new : string) (r : gmap string value)
  : gmap string value :=
  match r !! old with
  | Some v => <[new:=v]> (delete old r)
  | None => r
  end.

Definition rename (df : frame) (old new : string) : frame :=
  Frame ((λ c, if decide (c = old) then new else c) <$> columns df)
        (rename_key old new <$> rows df).

(** [df.drop_duplicates(subset=keys)]: the first row of every key is kept *)
Definition key_of (keys : list string) (r : gmap string value) : list value :=
  (λ c, cell c r) <$> keys.

Fixpoint first_of_each (keys : list string) (seen : list (list value))
    (rs : list (gmap string value)) : list (gmap string value) :=
  match rs with
  | [] => []
  | r :: rs' =>
      if decide (key_of keys r ∈ seen) then first_of_each keys seen rs'
      else r :: first_of_each keys (key_of keys r :: seen) rs'
  end.

Definition drop_duplicates (df : frame) (keys : list string) : M frame :=
  match filter (λ c, c ∉ columns df) keys with
  | [] => mret (Frame (columns df) (first_of_each keys [] (rows df)))
  | missing => raise (KeyError missing)
  end.

(** [df[dst] = f(df[src])] for a cell-wise [f]; the forms below are the
    ones the scripts use: a total function of the cell, a function of the
    cell that may look at the whole series, [.apply] of a Python function,
    and a function of the [.dt] accessor. *)
Definition apply (f : value → exn + value) (s : list value) : M (list value) :=
  mapM (λ v, lift (f v)) s.

Definition dt_cell (v : value) : exn + option timestamp :=
  match v with
  | NA => inr None
  | VDate t => inr (Some t)
  | _ => inl AttributeError
  end.

(** [series.dt]: the series has to hold time stamps *)
Definition dt (s : list value) : M (list (option timestamp)) :=
  mapM (λ v, lift (dt_cell v)) s.

Definition assign (df : frame) (dst src : string) (f : value → value)
  : M frame :=
  s ← getitem df src; setitem df dst (f <$> s).

Definition assign_series (df : frame) (dst src : string)
    (f : list value → value → value) : M frame :=
  s ← getitem df src; setitem df dst (f s <$> s).

Definition assign_apply (df : frame) (dst src : string)
    (f : value → exn + value) : M frame :=
  s ← getitem df src; s' ← apply f s; setitem df dst s'.

Definition assign_dt (df : frame) (dst src : string)
    (f : option timestamp → value) : M frame :=
  s ← getitem df src; ts ← dt s; setitem df dst (f <$> ts).

(** ** Series *)

(** [series.map(d)] for a dict with text keys, and for one with integer keys
    (a float cell matches the key of the same value) *)
Definition map_dict (d : gmap string string) (v : value) : value :=
  match v with
  | VStr k => match d !! k with Some c => VStr c | None => NA end
  | _ => NA
  end.

Definition number_key (v : value) : option Z :=
  match v with
  | VInt z => Some z
  | VFloat q =>
      if decide (Z.rem (Qnum q) (Z.pos (Qden q)) = 0)
      then Some (Z.quot (Qnum q) (Z.pos (Qden q))) else None
  | _ => None
  end.

Definition map_int_dict (d : gmap Z string) (v : value) : value :=
  match number_key v with
  | Some k => match d !! k with Some c => VStr c | None => NA end
  | None => NA
  end.

(** [series.fillna(other)], cell by cell *)
Definition fillna (v other : value) : value :=
  if isna v then other else v.

Definition of_timestamp (o : option timestamp) : value :=
  match o with Some t => VDate t | None => NA end.

Definition dt_year (o : option timestamp) : value :=
  match o with Some t => VInt (ts_year t) | None => NA end.

Definition dt_month (o : option timestamp) : value :=
  match o with Some t => VInt (month_number (ts_month t)) | None => NA end.

(** [.dt.strftime('%B')] *)
Definition dt_strftime_B (o : option timestamp) : value :=
  match o with Some t => VStr (month_name (ts_month t)) | None => NA end.

(** [mask.sum()] *)
Definition mask_sum (mask : list bool) : nat :=
  length (filter (λ b : bool, b = true) mask).

(** [sorted(series.unique())]: the distinct cells, in the order of their
    first appearance. The log line prints them sorted: the order of the
    printed list is not part of the model, only that [sorted] raises a
    [TypeError] when it has to compare text with a number or a date. *)
Fixpoint unique (seen : list value) (s : list value) : list value :=
  match s with
  | [] => []
  | v :: s' =>
      if decide (v ∈ seen) then unique seen s' else v :: unique (v :: seen) s'
  end.

Definition comparable (v w : value) : bool :=
  match v, w with
  | VStr _, VStr _ => true
  | VDate _, VDate _ => true
  | (NA | VInt _ | VFloat _), (NA | VInt _ | VFloat _) => true
  | _, _ => false
  end.

Definition sorted_unique (s : list value) : M (list value) :=
  match unique [] s with
  | [] => mret []
  | v :: u => if forallb (comparable v) u then mret (v :: u) else raise TypeError
  end.

End Pandas.

(** ** Python text helpers *)

Module Python.
Import Pandas.

(** [s.split(':')[0]]: the text before the first colon *)
Fixpoint split_colon_head (s : string) : string :=
  match s with
  | EmptyString => EmptyString
  | String a s' =>
      if Ascii.eqb a ":" then EmptyString else String a (split_colon_head s')
  end.

Definition digit_of (a : ascii) : option Z :=
  let n := Z.of_nat (nat_of_ascii a) in
  if ((48 <=? n) && (n <=? 57))%Z then Some (n - 48) else None.

(** ASCII white space, as [str.strip] sees it *)
Definition is_space (a : ascii) : bool :=
  let n := nat_of_ascii a in
  ((9 <=? n) && (n <=? 13) || (28 <=? n) && (n <=? 32))%nat.

Fixpoint lstrip (l : list ascii) : list ascii :=
  match l with
  | a :: l' => if is_space a then lstrip l' else l
  | [] => []
  end.

Definition strip (l : list ascii) : list ascii :=
  reverse (lstrip (reverse (lstrip l))).

(** The digits after the first one: a single underscore may sit between two
    digits. *)
Fixpoint int_digits (acc : Z) (l : list ascii) : option Z :=
  match l with
  | [] => Some acc
  | a :: l' =>
      match digit_of a with
      | Some d => int_digits (10 * acc + d) l'
      | None =>
          if Ascii.eqb a "_" then
            match l' with
            | b :: l'' =>
                match digit_of b with
                | Some d => int_digits (10 * acc + d) l''
                | None => None
                end
            | [] => None
            end
          else None
      end
  end.

Definition int_unsigned (l : list ascii) : option Z :=
  match l with
  | a :: l' =>
      match digit_of a with Some d => int_digits d l' | None => None end
  | [] => None
  end.

(** [int(s)] for ASCII text: white space around, an optional sign, decimal
    digits; [ValueError] otherwise. *)
Definition int_of_string (s : string) : exn + Z :=
  let l := strip (list_ascii_of_string s) in
  let r :=
    match l with
    | a :: l' =>
        if Ascii.eqb a "-" then Z.opp <$> int_unsigned l'
        else if Ascii.eqb a "+" then int_unsigned l'
        else int_unsigned l
    | [] => None
    end in
  match r with Some z => inr z | None => inl ValueError end.

(** [int(v)] of a cell *)
Definition int_of_value (v : value) : exn + Z :=
  match v with
  | VInt z => inr z
  | VFloat q => inr (Z.quot (Qnum q) (Z.pos (Qden q)))
  | VStr s => int_of_string s
  | NA => inl ValueError
  | VDate _ => inl TypeError
  end.

(** [%H] and [%M] of [strftime]: two digits, zero padded *)
Definition decimal (n : nat) : string :=
  NilEmpty.string_of_uint (Nat.to_uint n).

Definition pad2 (n : nat) : string :=
  if (n <? 10)%nat then String "0" (decimal n) else decimal n.

End Python.

(** ** Script 01: cleaning and merging *)

Module CleanAndMerge.
Import Pandas Python.

(** The parsers of pandas that the script calls with [errors='coerce']; a
    cell they cannot read becomes missing.
    - [to_datetime s v] is what [pd.to_datetime(s, errors='coerce')] holds
      for a cell [v] of the series [s]: pandas may read a text cell in the
      date format that it has guessed from the other cells of the series;
    - [parse_time v] is
      [pd.to_datetime(str(v), format='%H:%M:%S', errors='coerce')], whose
      hour is below 24;
    - [to_numeric v] is [pd.to_numeric(v, errors='coerce')]. *)
Class Parsers := {
  to_datetime : list value → value → option timestamp;
  parse_time : value → option clock;
  to_numeric : value → value;
  parse_time_hour : ∀ v t, parse_time v = Some t → (hour t < 24)%nat;
}.

(** [.astype('Int64')] of a numeric series: a missing cell and an integer
    of 64 bits go through; a number with a fraction and an integer that does
    not fit in 64 bits cannot be cast safely, which is a [TypeError]. (A
    [value] is a finite number: an infinite float has no cell here.) *)
Definition astype_Int64 (v : value) : exn + value :=
  match v with
  | NA => inr NA
  | VInt z =>
      if decide (- 2 ^ 63 ≤ z < 2 ^ 63)%Z then inr (VInt z) else inl TypeError
  | _ => inl TypeError
  end.

(** [.dt.strftime('%H:%M')] of a parsed time *)
Definition strftime_HM (o : option clock) : value :=
  match o with
  | Some t => VStr (pad2 (hour t) ++ ":" ++ pad2 (minute t))
  | None => NA
  end.

(** [lambda t: 'AM' if pd.notna(t) and int(t.split(':')[0]) < 12 else 'PM'] *)
Definition time_of_day (t : value) : exn + value :=
  match t with
  | NA => inr (VStr "PM")
  | VStr s =>
      match int_of_string (split_colon_head s) with
      | inr h => inr (VStr (if (h <? 12)%Z then "AM" else "PM"))
      | inl e => inl e
      end
  | _ => inl AttributeError
  end.

Definition get_season (month : value) : exn + value :=
  if isna month then inr NA else
  match int_of_value month with
  | inl e => inl e
  | inr m =>
      inr (VStr (if decide (m ∈ [12; 1; 2]) then "Winter"
                 else if decide (m ∈ [3; 4; 5]) then "Spring"
                 else if decide (m ∈ [6; 7; 8]) then "Summer"
                 else "Fall"))
  end.

Definition category_map_abc : gmap string string :=
  list_to_map
    [ ("salad", "Salads"); ("Pasta", "Pasta"); ("Pizza", "Pizza");
      ("Sandwich", "Sandwiches"); ("Appetizers", "Appetizers");
      ("Beverages", "Beverages") ].

Definition category_map_xyz : gmap string string :=
  list_to_map
    [ ("Pizza", "Pizza"); ("Dessert", "Dessert");
      ("Appetizers", "Appetizers"); ("Salads", "Salads"); ("Pasta", "Pasta");
      ("Sandwiches", "Sandwiches"); ("Beverage", "Beverages") ].

Definition yes_no_letters : gmap string string :=
  list_to_map [ ("Y", "Yes"); ("N", "No") ].

Definition yes_no_codes : gmap Z string :=
  list_to_map [ (1, "Yes"); (0, "No") ].

(** [series.map(category_map).fillna(series)], cell by cell *)
Definition normalize_category (m : gmap string string) (v : value) : value :=
  fillna (map_dict m v) v.

(** [df['item_category'] = df['item_category'].map(m).fillna(df['item_category'])] *)
Definition normalize_vocabulary (df : frame) (m : gmap string string)
  : M frame :=
  assign df "item_category" "item_category" (normalize_category m).

Definition log_categories (chain : string) (df : frame) : M unit :=
  c ← getitem df "item_category";
  u ← sorted_unique c;
  log (LogCategories chain u).

(** The derived columns, steps 3e to 3g and 4e *)
Definition derive_auxiliary (df : frame) : M frame :=
  df ← assign_apply df "time_of_day" "order_purchase_time" time_of_day;
  df ← assign_dt df "order_month" "order_purchase_date" dt_month;
  df ← assign_dt df "order_month_name" "order_purchase_date" dt_strftime_B;
  df ← assign_dt df "order_year" "order_purchase_date" dt_year;
  df ← assign_apply df "season" "order_month" get_season;
  df ← assign df "coupon_used" "coupon_y_n" (map_dict yes_no_letters);
  df ← assign df "alcohol_purchased" "order_alcohol_purchased"
         (map_int_dict yes_no_codes);
  df ← assign df "has_children" "customer_with_children"
         (map_int_dict yes_no_codes);
  assign df "gender" "gender_customer_payee" id.

Definition year_is (p : Z → bool) (o : option timestamp) : bool :=
  match o with Some t => p (ts_year t) | None => false end.

Section Clean.
Context `{Parsers}.

(** Step 3a: dates that parse to 1970 are corrupt and become missing *)
Definition repair_dates_abc (abc : frame) : M frame :=
  abc ← assign_series abc "order_purchase_date" "order_purchase_date"
          (λ s, of_timestamp ∘ to_datetime s);
  d ← getitem abc "order_purchase_date";
  ts ← dt d;
  let bad_date_mask := year_is (Z.eqb 1970) <$> ts in
  abc ← loc_setitem abc bad_date_mask "order_purchase_date" NA;
  let n_bad := mask_sum bad_date_mask in
  _ ← log (LogCorruptDates n_bad (length (rows abc)));
  mret abc.

(** Step 4b: dates are parsed, the ones before 2015 are counted *)
Definition parse_dates_xyz (xyz : frame) : M frame :=
  xyz ← assign_series xyz "order_purchase_date" "order_purchase_date"
          (λ s, of_timestamp ∘ to_datetime s);
  d ← getitem xyz "order_purchase_date";
  ts ← dt d;
  let bad_xyz := mask_sum (year_is (λ y, y <? 2015)%Z <$> ts) in
  _ ← log (LogSuspiciousDates bad_xyz);
  mret xyz.

(** Steps 3d and 4d *)
Definition normalize_time (df : frame) : M frame :=
  assign df "order_purchase_time" "order_purchase_time"
         (strftime_HM ∘ parse_time).

(** Step 3 *)
Definition clean_abc (abc : frame) : M frame :=
  abc ← repair_dates_abc abc;
  abc ← assign_apply abc "order_number" "order_number"
          (astype_Int64 ∘ to_numeric);
  abc ← normalize_vocabulary abc category_map_abc;
  _ ← log_categories "ABC" abc;
  abc ← normalize_time abc;
  derive_auxiliary abc.

(** Step 4 *)
Definition clean_xyz (xyz : frame) : M frame :=
  xyz ← drop xyz "item_product_cost";
  _ ← log (LogDropped "item_product_cost");
  xyz ← parse_dates_xyz xyz;
  xyz ← normalize_vocabulary xyz category_map_xyz;
  _ ← log_categories "XYZ" xyz;
  xyz ← normalize_time xyz;
  derive_auxiliary xyz.

End Clean.

Definition shared_cols : list string :=
  [ "chain"; "customer_id"; "order_number"; "restaurant_id";
    "restaurant_city"; "restaurant_state"; "restaurant_zip_code";
    "order_purchase_date"; "order_purchase_time"; "time_of_day";
    "order_month"; "order_month_name"; "order_year"; "season";
    "order_purchase_method"; "coupon_used"; "alcohol_purchased";
    "gender"; "has_children";
    "item_number"; "item_description"; "item_code"; "item_category";
    "quantity"; "menu_price"; "item_total_cost"; "Profit";
    "order_total_cost" ].

(** Steps 5 and 6 *)
Record merge_result := MergeResult {
  abc_clean : frame; xyz_clean : frame; merged : frame }.

Definition count_chain (chain : string) (df : frame) : nat :=
  length (filter (λ r, cell "chain" r = VStr chain) (rows df)).

Definition unify (abc xyz : frame) : M merge_result :=
  abc_clean ← select abc shared_cols;
  xyz_clean ← select xyz shared_cols;
  let merged := concat abc_clean xyz_clean in
  _ ← getitem merged "chain";
  _ ← log (LogMerged (length (rows merged)) (length (columns merged))
                     (count_chain "ABC" merged) (count_chain "XYZ" merged));
  mret (MergeResult abc_clean xyz_clean merged).

(** Step 7: the nulls of every column that has some, and the categories.
    The lines that print the chain values, the first and last date and the
    totals of the merged data set are not part of the model. *)
Definition count_nulls (c : string) (df : frame) : nat :=
  length (filter (λ r, cell c r = NA) (rows df)).

Definition validate (merged : frame) : M unit :=
  _ ← mapM (λ c, log (LogNulls c (count_nulls c merged)))
        (filter (λ c, (0 < count_nulls c merged)%nat) (columns merged));
  log_categories "merged" merged.

Section Pipeline.
Context `{Parsers}.

(** The script, from the two raw frames to the three it saves *)
Definition pipeline (abc_raw xyz_raw : frame) : M merge_result :=
  let abc := setitem_scalar abc_raw "chain" (VStr "ABC") in
  let xyz := setitem_scalar xyz_raw "chain" (VStr "XYZ") in
  abc ← clean_abc abc;
  xyz ← clean_xyz xyz;
  r ← unify abc xyz;
  _ ← validate (merged r);
  mret r.

End Pipeline.

End CleanAndMerge.

(** ** Script 02: the tables of the database *)

Module LoadDatabase.
Import Pandas.

(** A table is the list of its rows. The script drops and recreates the four
    tables, so every [to_sql] appends to an empty table.

    The key cells come from [pd.read_csv], which gives one dtype to a column:
    all numbers (or missing), or all text. Two cells of a column are then the
    same key for SQLite exactly when they are the same cell. Text in an
    [INTEGER PRIMARY KEY] column is rejected as a datatype mismatch.

    The model follows the primary keys. What SQLite does to the other cells
    is not part of it: the affinity of a column (a number stored in a [TEXT]
    column becomes text) and the range of its integers (an integer outside
    64 bits is refused), so a table is compared with a frame on its keys
    only. *)
Inductive key_affinity := IntegerKey | TextKey.

Definition int_key (pk : string) (r : gmap string value) : option Z :=
  match cell pk r with VInt z => Some z | _ => None end.

(** The rowid SQLite gives to a row inserted with a NULL integer key *)
Definition next_rowid (pk : string) (tbl : list (gmap string value)) : Z :=
  match omap (int_key pk) tbl with
  | [] => 1
  | k :: ks => foldr Z.max k ks + 1
  end.

(** One [INSERT] into a table whose primary key is the column [pk] *)
Definition insert_row (pk : string) (a : key_affinity)
    (tbl : list (gmap string value)) (r : gmap string value)
  : exn + list (gmap string value) :=
  match a, cell pk r with
  | IntegerKey, NA => inr (tbl ++ [<[pk := VInt (next_rowid pk tbl)]> r])%list
  | IntegerKey, VInt z =>
      if decide (VInt z ∈ cell pk <$> tbl) then inl (IntegrityError pk)
      else inr (tbl ++ [r])%list
  | IntegerKey, _ => inl DatatypeMismatch
  | TextKey, NA => inr (tbl ++ [r])%list
  | TextKey, v =>
      if decide (v ∈ cell pk <$> tbl) then inl (IntegrityError pk)
      else inr (tbl ++ [r])%list
  end.

Fixpoint insert_rows (pk : string) (a : key_affinity)
    (tbl rs : list (gmap string value)) : exn + list (gmap string value) :=
  match rs with
  | [] => inr tbl
  | r :: rs' =>
      match insert_row pk a tbl r with
      | inl e => inl e
      | inr tbl' => insert_rows pk a tbl' rs'
      end
  end.

(** [df.to_sql(table, conn, if_exists='append', index=False)] into the empty
    table whose primary key is [pk] *)
Definition to_sql (pk : string) (a : key_affinity) (df : frame)
  : M (list (gmap string value)) :=
  lift (insert_rows pk a [] (rows df)).

(** The [orders] table numbers its rows itself ([AUTOINCREMENT]). *)
Definition to_sql_orders (df : frame) : list (gmap string value) :=
  imap (λ i r, <["id" := VInt (Z.of_nat i + 1)]> r) (rows df).

Definition orders_cols : list string :=
  [ "chain"; "customer_id"; "order_number"; "restaurant_id";
    "order_purchase_date"; "order_purchase_time"; "time_of_day";
    "order_month"; "order_month_name"; "order_year"; "season";
    "order_purchase_method"; "coupon_used"; "alcohol_purchased";
    "gender"; "has_children"; "item_number"; "item_description";
    "item_code"; "item_category"; "quantity"; "menu_price";
    "item_total_cost"; "Profit"; "order_total_cost" ].

Record database := Database {
  orders : list (gmap string value);
  restaurants : list (gmap string value);
  products : list (gmap string value);
  customers : list (gmap string value) }.

Definition restaurants_frame (df : frame) : M frame :=
  d ← select df [ "restaurant_id"; "restaurant_city"; "restaurant_state";
                  "restaurant_zip_code"; "chain" ];
  d ← drop_duplicates d ["restaurant_id"];
  mret (rename d "restaurant_zip_code" "restaurant_zip").

Definition products_frame (df : frame) : M frame :=
  d ← select df [ "item_number"; "item_description"; "item_code";
                  "item_category"; "menu_price"; "chain" ];
  drop_duplicates d ["item_number"; "chain"].

Definition customers_frame (df : frame) : M frame :=
  d ← select df [ "customer_id"; "gender"; "has_children"; "chain" ];
  drop_duplicates d ["customer_id"].

(** Step 4 of the script: the fact table, then the three dimensions *)
Definition load_database (df : frame) : M database :=
  o ← select df orders_cols;
  let orders := to_sql_orders (rename o "Profit" "profit") in
  r ← restaurants_frame df;
  restaurants ← to_sql "restaurant_id" IntegerKey r;
  p ← products_frame df;
  products ← to_sql "item_number" IntegerKey p;
  c ← customers_frame df;
  customers ← to_sql "customer_id" TextKey c;
  mret (Database orders restaurants products customers).

End LoadDatabase.

(** ** Parsers for the worked examples *)

Module Examples.
Import Pandas Python CleanAndMerge.

Definition two_digits (a b : ascii) : option nat :=
  match digit_of a, digit_of b with
  | Some x, Some y => Some (Z.to_nat (10 * x + y))
  | _, _ => None
  end.

(** Text of the shape [HH:MM:SS] *)
Definition example_parse_time (v : value) : option clock :=
  match v with
  | VStr (String h1 (String h2 (String c1 (String m1 (String m2
           (String c2 (String s1 (String s2 EmptyString)))))))) =>
      match two_digits h1 h2, two_digits m1 m2, two_digits s1 s2 with
      | Some h, Some m, Some s =>
          if Ascii.eqb c1 ":" && Ascii.eqb c2 ":" &&
             (h <? 24)%nat && (m <? 60)%nat && (s <? 60)%nat
          then Some (Clock h m s) else None
      | _, _, _ => None
      end
  | _ => None
  end.

(** The three parsers below read the cells of the worked examples as pandas
    reads them; they are not pandas on other cells.

    A time stamp reads as itself. A date that was stored as an Excel serial
    number reads as that many nanoseconds after the epoch, which is the first
    day of 1970 for every serial number there is. *)
Definition example_to_datetime (v : value) : option timestamp :=
  match v with
  | VDate t => Some t
  | VInt z =>
      if ((0 <=? z) && (z <? 86400000000000))%Z
      then Some (Timestamp 1970 January 1) else None
  | _ => None
  end.

Definition example_to_numeric (v : value) : value :=
  match v with
  | VInt z => VInt z
  | VFloat q => VFloat q
  | VStr s =>
      match int_of_string s with inr z => VInt z | inl _ => NA end
  | _ => NA
  end.

#[export, refine] Instance example_parsers : Parsers := {|
  to_datetime := λ _, example_to_datetime;
  parse_time := example_parse_time;
  to_numeric := example_to_numeric;
  parse_time_hour := _ |}.
Proof.
  intros v t. destruct v as [|s| | |]; try discriminate.
  do 8 (destruct s as [|? s]; try discriminate).
  destruct s; try discriminate. simpl.
  repeat case_match; try discriminate.
  intros [= <-]. simpl.
  repeat match goal with
         | H : _ && _ = true |- _ => apply andb_prop in H; destruct H
         end.
  by apply Nat.ltb_lt.
Defined.

(** A raw row of either source, with the columns the scripts read *)
Definition raw_row (customer : string) (item : Z)
    (date time category coupon : value) (alcohol : Z) : gmap string value :=
  list_to_map
    [ ("customer_id", VStr customer); ("order_number", VStr "1001");
      ("restaurant_id", VInt 7); ("restaurant_city", VStr "Austin");
      ("restaurant_state", VStr "TX"); ("restaurant_zip_code", VInt 73301);
      ("order_purchase_date", date); ("order_purchase_time", time);
      ("order_purchase_method", VStr "Card"); ("coupon_y_n", coupon);
      ("order_alcohol_purchased", VInt alcohol);
      ("customer_with_children", VInt 0);
      ("gender_customer_payee", VStr "F");
      ("item_number", VInt item); ("item_description", VStr "Margherita");
      ("item_code", VStr "PZ12"); ("item_category", category);
      ("quantity", VInt 2); ("menu_price", VFloat (19 # 2));
      ("item_total_cost", VInt 19); ("Profit", VFloat (7 # 2));
      ("order_total_cost", VInt 19) ].

Definition raw_columns : list string :=
  [ "customer_id"; "order_number"; "restaurant_id"; "restaurant_city";
    "restaurant_state"; "restaurant_zip_code"; "order_purchase_date";
    "order_purchase_time"; "order_purchase_method"; "coupon_y_n";
    "order_alcohol_purchased"; "customer_with_children";
    "gender_customer_payee"; "item_number"; "item_description"; "item_code";
    "item_category"; "quantity"; "menu_price"; "item_total_cost"; "Profit";
    "order_total_cost" ].

Definition abc_example : frame :=
  Frame raw_columns
    [ raw_row "A1" 12 (VInt 43831) (VStr "09:15:00") (VStr "salad")
              (VStr "Y") 1;
      raw_row "A2" 12 (VDate (Timestamp 2023 March 4)) (VStr "18:40:10")
              (VStr "Tacos") (VStr "N") 0;
      raw_row "A3" 14 (VDate (Timestamp 2023 July 9)) NA
              (VStr "Pizza") (VStr "?") 2 ].

Definition xyz_example : frame :=
  Frame (raw_columns ++ ["item_product_cost"])
    [ <["item_product_cost" := VFloat (5 # 2)]>
        (raw_row "X1" 31 (VDate (Timestamp 1970 January 1)) (VStr "12:00:00")
                 (VStr "Beverage") (VStr "Y") 0);
      <["item_product_cost" := NA]>
        (raw_row "X2" 32 (VDate (Timestamp 2024 December 24)) (VStr "bad")
                 (VStr "Dessert") (VStr "N") 1) ].

(** The run of the script on the two example frames *)
Definition example_run : M merge_result := pipeline abc_example xyz_example.

Definition returned {A} (m : M A) : bool :=
  match m.2 with inr _ => true | inl _ => false end.

Definition result_of {A} (d : A) (m : M A) : A :=
  match m.2 with inr a => a | inl _ => d end.

Definition example_result : merge_result :=
  result_of (MergeResult (Frame [] []) (Frame [] []) (Frame [] []))
            example_run.

Definition nth_row (i : nat) (df : frame) : gmap string value :=
  default ∅ (rows df !! i).

(** The two example frames after steps 2 to 4 *)
Definition example_abc_cleaned : frame :=
  result_of abc_example
    (clean_abc (setitem_scalar abc_example "chain" (VStr "ABC"))).

Definition example_xyz_cleaned : frame :=
  result_of xyz_example
    (clean_xyz (setitem_scalar xyz_example "chain" (VStr "XYZ"))).

(** The ABC example before its columns are derived *)
Definition example_normalized : frame :=
  result_of abc_example
    (abc ← repair_dates_abc abc_example; normalize_time abc).

(** The database loaded from the merged example *)
Definition example_database : LoadDatabase.database :=
  result_of (LoadDatabase.Database [] [] [] [])
            (LoadDatabase.load_database (merged example_result)).

(** The raw rows of both sources, ABC first *)
Definition example_raw : frame :=
  Frame raw_columns (rows abc_example ++ rows xyz_example).

End Examples.


(** ** What the steps do to one row *)

Module RowView.
Import Pandas Python CleanAndMerge.

Abbreviation row := (gmap string value).

(** Step 2 *)
Definition chain_row (chain : string) (r r' : row) : Prop :=
  r' = <["chain" := VStr chain]> r.

(** Steps 3c and 4c *)
Definition vocabulary_row (m : gmap string string) (r r' : row) : Prop :=
  r' = <["item_category" := normalize_category m (cell "item_category" r)]> r.

(** Step 3b *)
Definition order_number_row `{Parsers} (r r' : row) : Prop :=
  ∃ v, astype_Int64 (to_numeric (cell "order_number" r)) = inr v ∧
       r' = <["order_number" := v]> r.

(** The raw dates of a frame, and the date that pandas reads in a row of
    a frame with these raw dates *)
Definition dates_of (df : frame) : list value :=
  cell "order_purchase_date" <$> rows df.

Definition parsed_date `{Parsers} (dates : list value) (r : row)
  : option timestamp :=
  to_datetime dates (cell "order_purchase_date" r).

(** Step 3a *)
Definition repair_dates_row `{Parsers} (dates : list value) (r r' : row)
  : Prop :=
  let d := parsed_date dates r in
  r' = if year_is (Z.eqb 1970) d then <["order_purchase_date" := NA]> r
       else <["order_purchase_date" := of_timestamp d]> r.

(** Step 4b *)
Definition parse_dates_row `{Parsers} (dates : list value) (r r' : row)
  : Prop :=
  r' = <["order_purchase_date" := of_timestamp (parsed_date dates r)]> r.

(** Steps 3d and 4d *)
Definition time_row `{Parsers} (r r' : row) : Prop :=
  r' = <["order_purchase_time" :=
           strftime_HM (parse_time (cell "order_purchase_time" r))]> r.

(** Steps 3e to 3g and 4e *)
Definition derive_row (r r' : row) : Prop :=
  ∃ flag o season,
    time_of_day (cell "order_purchase_time" r) = inr flag ∧
    dt_cell (cell "order_purchase_date" r) = inr o ∧
    get_season (dt_month o) = inr season ∧
    r' = <["gender" := cell "gender_customer_payee" r]>
         (<["has_children" :=
              map_int_dict yes_no_codes (cell "customer_with_children" r)]>
         (<["alcohol_purchased" :=
              map_int_dict yes_no_codes (cell "order_alcohol_purchased" r)]>
         (<["coupon_used" := map_dict yes_no_letters (cell "coupon_y_n" r)]>
         (<["season" := season]>
         (<["order_year" := dt_year o]>
         (<["order_month_name" := dt_strftime_B o]>
         (<["order_month" := dt_month o]>
         (<["time_of_day" := flag]> r)))))))).

(** Step 3, and step 4: a row of a source before and after its cleaning *)
Definition clean_abc_row `{Parsers} (dates : list value) (r r' : row)
  : Prop :=
  ∃ r2 r3 r4 r5,
    repair_dates_row dates r r2 ∧ order_number_row r2 r3 ∧
    vocabulary_row category_map_abc r3 r4 ∧ time_row r4 r5 ∧ derive_row r5 r'.

Definition clean_xyz_row `{Parsers} (dates : list value) (r r' : row)
  : Prop :=
  ∃ r3 r4 r5,
    parse_dates_row dates (delete "item_product_cost" r) r3 ∧
    vocabulary_row category_map_xyz r3 r4 ∧ time_row r4 r5 ∧ derive_row r5 r'.

(** The columns that the steps write *)
Definition add_columns (cs cols : list string) : list string :=
  foldl (λ acc c, add_column c acc) cols cs.

Definition derived_columns : list string :=
  [ "time_of_day"; "order_month"; "order_month_name"; "order_year"; "season";
    "coupon_used"; "alcohol_purchased"; "has_children"; "gender" ].

Definition derive_sources : list string :=
  [ "order_purchase_time"; "order_purchase_date"; "coupon_y_n";
    "order_alcohol_purchased"; "customer_with_children";
    "gender_customer_payee" ].

Definition cleaned_columns : list string :=
  ["order_purchase_date"; "order_number"; "item_category";
   "order_purchase_time"] ++ derived_columns.

(** A raw row of a source and its normalized row, with all its columns *)
Definition abc_row `{Parsers} (dates : list value) (r r' : row) : Prop :=
  ∃ r1, chain_row "ABC" r r1 ∧ clean_abc_row dates r1 r'.

Definition xyz_row `{Parsers} (dates : list value) (r r' : row) : Prop :=
  ∃ r1, chain_row "XYZ" r r1 ∧ clean_xyz_row dates r1 r'.

(** A raw row of a source and the record that is saved and merged *)
Definition abc_record `{Parsers} (dates : list value) (r r' : row) : Prop :=
  ∃ n, abc_row dates r n ∧ r' = restrict shared_cols n.

Definition xyz_record `{Parsers} (dates : list value) (r r' : row) : Prop :=
  ∃ n, xyz_row dates r n ∧ r' = restrict shared_cols n.

(** The rows of a source whose raw date parses to the year 1970, and the
    rows whose raw date parses to a year before 2015 *)
Definition epoch_row `{Parsers} (dates : list value) (r : row) : bool :=
  year_is (Z.eqb 1970) (parsed_date dates r).

Definition early_row `{Parsers} (dates : list value) (r : row) : bool :=
  year_is (λ y, (y <? 2015)%Z) (parsed_date dates r).

(** The flag of a parsed time, and the season of a parsed date *)
Definition am_pm (o : option clock) : string :=
  match o with
  | Some t => if (hour t <? 12)%nat then "AM" else "PM"
  | None => "PM"
  end.

Definition season_of (o : option timestamp) : value :=
  match o with
  | None => NA
  | Some t =>
      VStr match ts_month t with
           | December | January | February => "Winter"
           | March | April | May => "Spring"
           | June | July | August => "Summer"
           | September | October | November => "Fall"
           end
  end.

(** The cells of a normalized record [n] of the source [chain], in terms of
    its raw row [r], of the vocabulary map [m] of the source and of the date
    [o] that the source keeps for the row. *)
Definition normalized_cells `{Parsers} (chain : string)
    (m : gmap string string) (o : option timestamp) (r n : row) : Prop :=
  cell "chain" n = VStr chain ∧
  cell "order_purchase_date" n = of_timestamp o ∧
  cell "order_month" n = dt_month o ∧
  cell "order_month_name" n = dt_strftime_B o ∧
  cell "order_year" n = dt_year o ∧
  cell "season" n = season_of o ∧
  cell "order_purchase_time" n =
    strftime_HM (parse_time (cell "order_purchase_time" r)) ∧
  cell "time_of_day" n = VStr (am_pm (parse_time (cell "order_purchase_time" r))) ∧
  cell "item_category" n = normalize_category m (cell "item_category" r) ∧
  cell "coupon_used" n = map_dict yes_no_letters (cell "coupon_y_n" r) ∧
  cell "alcohol_purchased" n =
    map_int_dict yes_no_codes (cell "order_alcohol_purchased" r) ∧
  cell "has_children" n =
    map_int_dict yes_no_codes (cell "customer_with_children" r) ∧
  cell "gender" n = cell "gender_customer_payee" r.

(** A raw cell that holds the number [k], as an integer or as a float *)
Definition is_number (k : Z) (v : value) : Prop :=
  v = VInt k ∨ ∃ q, v = VFloat q ∧ (q == inject_Z k)%Q.

(** A cell that holds text *)
Definition is_text (v : value) : Prop := ∃ k, v = VStr k.

(** The canonical vocabulary: the categories that the two tables map to *)
Definition canonical (c : string) : Prop :=
  ∃ k, category_map_abc !! k = Some c ∨ category_map_xyz !! k = Some c.

(** A row whose derived columns hold what the derivation would write *)
Definition derived (r : row) : Prop :=
  ∃ flag o season,
    time_of_day (cell "order_purchase_time" r) = inr flag ∧
    dt_cell (cell "order_purchase_date" r) = inr o ∧
    get_season (cell "order_month" r) = inr season ∧
    r !! "time_of_day" = Some flag ∧
    r !! "order_month" = Some (dt_month o) ∧
    r !! "order_month_name" = Some (dt_strftime_B o) ∧
    r !! "order_year" = Some (dt_year o) ∧
    r !! "season" = Some season ∧
    r !! "coupon_used" = Some (map_dict yes_no_letters (cell "coupon_y_n" r)) ∧
    r !! "alcohol_purchased" =
      Some (map_int_dict yes_no_codes (cell "order_alcohol_purchased" r)) ∧
    r !! "has_children" =
      Some (map_int_dict yes_no_codes (cell "customer_with_children" r)) ∧
    r !! "gender" = Some (cell "gender_customer_payee" r).

(** The date that ABC keeps: none when the raw date parses to 1970 *)
Definition abc_date `{Parsers} (dates : list value) (r : row)
  : option timestamp :=
  if epoch_row dates r then None else parsed_date dates r.

(** The date that XYZ keeps: the raw date as parsed *)
Definition xyz_date `{Parsers} (dates : list value) (r : row)
  : option timestamp :=
  parsed_date dates r.

End RowView.

(** ** Conditions on the raw frames *)

Module Conditions.
Import Pandas Python CleanAndMerge LoadDatabase RowView.



(** The shared columns that no step of the cleaning writes *)
Definition untouched_columns : list string :=
  [ "customer_id"; "restaurant_id"; "restaurant_city"; "restaurant_state";
    "restaurant_zip_code"; "order_purchase_method"; "item_number";
    "item_description"; "item_code"; "quantity"; "menu_price";
    "item_total_cost"; "Profit"; "order_total_cost" ].

(** The columns that the cleaning of each source writes or removes *)
Definition abc_written_columns : list string :=
  "chain" :: cleaned_columns.

Definition xyz_written_columns : list string :=
  [ "chain"; "item_product_cost"; "order_purchase_date"; "item_category";
    "order_purchase_time" ] ++ derived_columns.





Definition integer_cell (c : string) (r : row) : Prop :=
  ∃ z, cell c r = VInt z.

(** A row that SQLite can store: its integers fit in 64 bits *)
Definition int64_cell (v : value) : bool :=
  match v with
  | VInt z => bool_decide (- 2 ^ 63 ≤ z < 2 ^ 63)%Z
  | _ => true
  end.

Definition storable (r : row) : Prop :=
  map_Forall (λ _ v, int64_cell v = true) r.

(** The columns that the loader reads *)
Definition restaurant_columns : list string :=
  [ "restaurant_id"; "restaurant_city"; "restaurant_state";
    "restaurant_zip_code"; "chain" ].

Definition product_columns : list string :=
  [ "item_number"; "item_description"; "item_code"; "item_category";
    "menu_price"; "chain" ].

Definition customer_columns : list string :=
  [ "customer_id"; "gender"; "has_children"; "chain" ].

End Conditions.

(** ** Further example frames *)

Module Cases.
Import Pandas Python CleanAndMerge Examples.


(** Raw frames whose categories are all keys of the vocabulary tables *)
Definition abc_known : frame :=
  Frame raw_columns
    [ raw_row "A1" 12 (VDate (Timestamp 2023 March 4)) (VStr "09:15:00")
              (VStr "salad") (VStr "Y") 1;
      raw_row "A2" 13 (VDate (Timestamp 2023 July 9)) (VStr "18:40:10")
              (VStr "Sandwich") (VStr "N") 0 ].

Definition xyz_known : frame :=
  Frame (raw_columns ++ ["item_product_cost"])
    [ <["item_product_cost" := NA]>
        (raw_row "X1" 31 (VDate (Timestamp 2024 December 24))
                 (VStr "12:00:00") (VStr "Beverage") (VStr "Y") 0) ].

(** A merged frame where the two chains share the item number 12 *)
Definition shared_item_frame : frame :=
  Frame (raw_columns ++ ["chain"; "gender"; "has_children"])
    [ <["chain" := VStr "ABC"]>
        (raw_row "A1" 12 NA NA (VStr "Pizza") NA 0);
      <["chain" := VStr "XYZ"]>
        (raw_row "X1" 12 NA NA (VStr "Pizza") NA 0) ].

End Cases.

(** * Lemmas on the frame operations and on the steps *)

(** ** The monad and the frame operations *)

Module Steps.
Import Pandas.

Lemma bind_inr {A B} (m : M A) (f : A → M B) l b :
  m ≫= f = (l, inr b) →
  ∃ l1 a l2, m = (l1, inr a) ∧ f a = (l2, inr b) ∧ l = (l1 ++ l2)%list.
Proof.
  unfold mbind, M_bind. destruct m as [l1 [e|a]]; [discriminate|].
  destruct (f a) as [l2 r] eqn:Hf. simpl. intros [= <- ->]. eauto 6.
Qed.

Lemma bind_ok {A B} (m : M A) (f : A → M B) l1 a :
  m = (l1, inr a) → m ≫= f = ((l1 ++ (f a).1)%list, (f a).2).
Proof. intros ->. reflexivity. Qed.

Lemma bind_pure {A B} (m : M A) (f : A → M B) a :
  m = ([], inr a) → m ≫= f = f a.
Proof. intros ->. unfold mbind, M_bind. simpl. by destruct (f a). Qed.

Lemma bind_inl {A B} (m : M A) (f : A → M B) l e :
  m = (l, inl e) → m ≫= f = (l, inl e).
Proof. intros ->. reflexivity. Qed.

Lemma mapM_lift_inr {A B} (f : A → exn + B) s l s' :
  mapM (λ v, lift (f v)) s = (l, inr s') →
  l = [] ∧ Forall2 (λ v v', f v = inr v') s s'.
Proof.
  revert l s'. induction s as [|v s IH]; intros l s'; cbn [mapM].
  - intros [= <- <-]. split; [done|constructor].
  - intros (l1 & y & l2 & Hy & Hk & ->)%bind_inr.
    apply bind_inr in Hk as (l3 & k & l4 & Hk & Hr & ->).
    injection Hy as <- Hy. injection Hr as <- <-.
    apply IH in Hk as [-> Hk]. split; [done|]. by constructor.
Qed.

Lemma mapM_lift_ok {A B} (f : A → exn + B) s s' :
  Forall2 (λ v v', f v = inr v') s s' →
  mapM (λ v, lift (f v)) s = ([], inr s').
Proof.
  induction 1 as [|v v' s s' Hv _ IH]; [done|].
  cbn [mapM]. rewrite (bind_pure _ _ v') by (unfold lift; by rewrite Hv).
  by rewrite (bind_pure _ _ s').
Qed.

Lemma cell_insert_eq c v (r : gmap string value) : cell c (<[c:=v]> r) = v.
Proof. unfold cell. by rewrite lookup_insert_eq. Qed.

Lemma cell_insert_ne c d v (r : gmap string value) :
  c ≠ d → cell c (<[d:=v]> r) = cell c r.
Proof. intros. unfold cell. by rewrite lookup_insert_ne. Qed.

Lemma cell_delete_ne c d (r : gmap string value) :
  c ≠ d → cell c (delete d r) = cell c r.
Proof. intros. unfold cell. by rewrite lookup_delete_ne. Qed.

Lemma cell_restrict c cols (r : gmap string value) :
  c ∈ cols → cell c (restrict cols r) = cell c r.
Proof.
  intros Hc. unfold cell, restrict. f_equal.
  destruct (r !! c) as [v|] eqn:Hr.
  - by apply map_lookup_filter_Some.
  - apply map_lookup_filter_None. left. done.
Qed.

Lemma restrict_inside cols (r : gmap string value) c :
  c ∈ cols → restrict cols r !! c = r !! c.
Proof.
  intros Hc. unfold restrict. destruct (r !! c) as [v|] eqn:Hr.
  - by apply map_lookup_filter_Some.
  - apply map_lookup_filter_None. by left.
Qed.

Lemma restrict_outside cols (r : gmap string value) c :
  c ∉ cols → restrict cols r !! c = None.
Proof.
  intros Hc. unfold restrict. apply map_lookup_filter_None.
  right. intros v _. exact Hc.
Qed.

Lemma zip_with_fmap_same {A B C D} (f : B → C → D) (g : A → B) (h : A → C) l :
  zip_with f (g <$> l) (h <$> l) = (λ x, f (g x) (h x)) <$> l.
Proof. induction l as [|x l IH]; simpl; [done|]. f_equal. apply IH. Qed.

Lemma zip_with_fmap_right {A B C} (f : A → B → C) (h : A → B) l :
  zip_with f l (h <$> l) = (λ x, f x (h x)) <$> l.
Proof. induction l as [|x l IH]; simpl; [done|]. f_equal. apply IH. Qed.

Lemma Forall2_fmap_eq {A B} (g : A → B) l l' :
  Forall2 (λ x y, y = g x) l l' ↔ l' = g <$> l.
Proof.
  split.
  - induction 1 as [|x y l l' -> _ ->]; by simpl.
  - intros ->. induction l; constructor; auto.
Qed.

Lemma Forall2_compose {A B C} (R : A → B → Prop) (S : B → C → Prop) l1 l2 l3 :
  Forall2 R l1 l2 → Forall2 S l2 l3 →
  Forall2 (λ x z, ∃ y, R x y ∧ S y z) l1 l3.
Proof.
  intros H. revert l3. induction H; inversion 1; subst; constructor; eauto.
Qed.

(** *** The frame operations, when they return *)

Lemma getitem_inr df c l s :
  getitem df c = (l, inr s) →
  l = [] ∧ c ∈ columns df ∧ s = cell c <$> rows df.
Proof. unfold getitem. case_decide; [|discriminate]. by intros [= <- <-]. Qed.

Lemma getitem_ok df c :
  c ∈ columns df → getitem df c = ([], inr (cell c <$> rows df)).
Proof. intros. unfold getitem. by rewrite decide_True. Qed.

Lemma setitem_inr df c s l df' :
  setitem df c s = (l, inr df') →
  l = [] ∧ length s = length (rows df) ∧
  df' = Frame (add_column c (columns df))
              (zip_with (λ r v, <[c:=v]> r) (rows df) s).
Proof. unfold setitem. case_decide; [|discriminate]. by intros [= <- <-]. Qed.

Lemma assign_series_inr df dst src f l df' :
  assign_series df dst src f = (l, inr df') →
  l = [] ∧ src ∈ columns df ∧
  columns df' = add_column dst (columns df) ∧
  Forall2 (λ r r', r' = <[dst := f (cell src <$> rows df) (cell src r)]> r)
          (rows df) (rows df').
Proof.
  unfold assign_series. intros (l1 & s & l2 & Hs & Hset & ->)%bind_inr.
  apply getitem_inr in Hs as (-> & Hsrc & ->).
  apply setitem_inr in Hset as (-> & _ & ->). cbn [rows columns].
  repeat split; [done|]. apply Forall2_fmap_eq.
  by rewrite <- list_fmap_compose, zip_with_fmap_right.
Qed.

Lemma assign_inr df dst src f l df' :
  assign df dst src f = (l, inr df') →
  l = [] ∧ src ∈ columns df ∧
  columns df' = add_column dst (columns df) ∧
  Forall2 (λ r r', r' = <[dst := f (cell src r)]> r) (rows df) (rows df').
Proof. apply (assign_series_inr df dst src (λ _, f)). Qed.

Lemma assign_ok df dst src f :
  src ∈ columns df →
  assign df dst src f =
    ([], inr (Frame (add_column dst (columns df))
                    ((λ r, <[dst := f (cell src r)]> r) <$> rows df))).
Proof.
  intros Hsrc. unfold assign. rewrite (bind_pure _ _ _ (getitem_ok _ _ Hsrc)).
  unfold setitem. rewrite decide_True by by rewrite !length_fmap.
  by rewrite <- list_fmap_compose, zip_with_fmap_right.
Qed.

Lemma Forall2_insert_results {A} (g : gmap string value → A)
    (R : A → value → Prop) dst (l : list (gmap string value)) s :
  Forall2 R (g <$> l) s →
  Forall2 (λ r r', ∃ v, R (g r) v ∧ r' = <[dst := v]> r)
          l (zip_with (λ r v, <[dst := v]> r) l s).
Proof.
  revert s. induction l as [|r l IH]; intros s; inversion 1; subst; simpl.
  - constructor.
  - constructor; eauto.
Qed.

Lemma assign_apply_inr df dst src f l df' :
  assign_apply df dst src f = (l, inr df') →
  l = [] ∧ src ∈ columns df ∧
  columns df' = add_column dst (columns df) ∧
  Forall2 (λ r r', ∃ v, f (cell src r) = inr v ∧ r' = <[dst := v]> r)
          (rows df) (rows df').
Proof.
  unfold assign_apply. intros (l1 & s & l2 & Hs & Hk & ->)%bind_inr.
  apply bind_inr in Hk as (l3 & s' & l4 & Hap & Hset & ->).
  apply getitem_inr in Hs as (-> & Hsrc & ->).
  apply mapM_lift_inr in Hap as [-> Hap].
  apply setitem_inr in Hset as (-> & _ & ->). cbn [rows columns].
  repeat split; [done|].
  by apply (Forall2_insert_results (cell src) (λ v v', f v = inr v')).
Qed.

Lemma assign_dt_inr df dst src f l df' :
  assign_dt df dst src f = (l, inr df') →
  l = [] ∧ src ∈ columns df ∧
  columns df' = add_column dst (columns df) ∧
  Forall2 (λ r r', ∃ o, dt_cell (cell src r) = inr o ∧ r' = <[dst := f o]> r)
          (rows df) (rows df').
Proof.
  unfold assign_dt. intros (l1 & s & l2 & Hs & Hk & ->)%bind_inr.
  apply bind_inr in Hk as (l3 & ts & l4 & Hdt & Hset & ->).
  apply getitem_inr in Hs as (-> & Hsrc & ->).
  apply mapM_lift_inr in Hdt as [-> Hdt].
  apply setitem_inr in Hset as (-> & _ & ->). cbn [rows columns].
  repeat split; [done|].
  assert (Forall2 (λ v w, ∃ o, dt_cell v = inr o ∧ w = f o)
                  (cell src <$> rows df) (f <$> ts)) as Hf.
  { clear -Hdt. induction Hdt; simpl; constructor; eauto. }
  apply (Forall2_insert_results (cell src) _ dst) in Hf.
  eapply Forall2_impl; [exact Hf|]. simpl.
  intros r r' (v & (o & Ho & ->) & ->). eauto.
Qed.

End Steps.

(** ** The steps of the cleaning script, row by row *)

Module Rows.
Import Pandas Python CleanAndMerge RowView Steps.

Ltac cells :=
  repeat first
    [ rewrite cell_insert_eq
    | rewrite cell_insert_ne by done
    | rewrite cell_delete_ne by done ].

Ltac cells_in H :=
  repeat first
    [ rewrite cell_insert_eq in H
    | rewrite cell_insert_ne in H by done
    | rewrite cell_delete_ne in H by done ].

Lemma elem_of_add_column c d cols :
  c ∈ add_column d cols ↔ c ∈ cols ∨ c = d.
Proof.
  unfold add_column. case_decide; [|set_solver].
  split; [by left|]. by intros [?| ->].
Qed.

Lemma elem_of_add_column_ne c d cols :
  c ≠ d → c ∈ add_column d cols → c ∈ cols.
Proof. intros Hne [?|?]%elem_of_add_column; done. Qed.

Lemma elem_of_add_columns c cs cols :
  c ∈ add_columns cs cols ↔ c ∈ cols ∨ c ∈ cs.
Proof.
  unfold add_columns. revert cols.
  induction cs as [|d cs IH]; intros cols; simpl; [set_solver|].
  rewrite IH, elem_of_add_column. set_solver.
Qed.

(** The columns that the derivation reads *)
Lemma derive_auxiliary_inr df l df' :
  derive_auxiliary df = (l, inr df') →
  l = [] ∧ Forall2 derive_row (rows df) (rows df') ∧
  columns df' = add_columns derived_columns (columns df) ∧
  derive_sources ⊆ columns df.
Proof.
  unfold derive_auxiliary.
  intros (? & d1 & ? & (-> & S1 & C1 & H1)%assign_apply_inr & H & ->)%bind_inr.
  apply bind_inr in H
    as (? & d2 & ? & (-> & S2 & C2 & H2)%assign_dt_inr & H & ->).
  apply bind_inr in H
    as (? & d3 & ? & (-> & _ & C3 & H3)%assign_dt_inr & H & ->).
  apply bind_inr in H
    as (? & d4 & ? & (-> & _ & C4 & H4)%assign_dt_inr & H & ->).
  apply bind_inr in H
    as (? & d5 & ? & (-> & _ & C5 & H5)%assign_apply_inr & H & ->).
  apply bind_inr in H as (? & d6 & ? & (-> & S6 & C6 & H6)%assign_inr & H & ->).
  apply bind_inr in H as (? & d7 & ? & (-> & S7 & C7 & H7)%assign_inr & H & ->).
  apply bind_inr in H as (? & d8 & ? & (-> & S8 & C8 & H8)%assign_inr & H & ->).
  apply assign_inr in H as (-> & S9 & C9 & H9).
  split; [done|].
  split; [|split; [rewrite C9, C8, C7, C6, C5, C4, C3, C2, C1;
            unfold add_columns, derived_columns; cbn [foldl]; reflexivity|]].
  2:{ rewrite C8, C7, C6, C5, C4, C3, C2, C1 in S9.
      rewrite C7, C6, C5, C4, C3, C2, C1 in S8.
      rewrite C6, C5, C4, C3, C2, C1 in S7.
      rewrite C5, C4, C3, C2, C1 in S6.
      rewrite C1 in S2.
      repeat (apply elem_of_add_column_ne in S2; [|done]).
      repeat (apply elem_of_add_column_ne in S6; [|done]).
      repeat (apply elem_of_add_column_ne in S7; [|done]).
      repeat (apply elem_of_add_column_ne in S8; [|done]).
      repeat (apply elem_of_add_column_ne in S9; [|done]).
      unfold derive_sources. intros c Hc.
      repeat (apply elem_of_cons in Hc as [->|Hc]; [done|]).
      by apply elem_of_nil in Hc. }
  pose proof (Forall2_compose _ _ _ _ _ H1 H2) as G.
  pose proof (Forall2_compose _ _ _ _ _ G H3) as G3.
  pose proof (Forall2_compose _ _ _ _ _ G3 H4) as G4.
  pose proof (Forall2_compose _ _ _ _ _ G4 H5) as G5.
  pose proof (Forall2_compose _ _ _ _ _ G5 H6) as G6.
  pose proof (Forall2_compose _ _ _ _ _ G6 H7) as G7.
  pose proof (Forall2_compose _ _ _ _ _ G7 H8) as G8.
  pose proof (Forall2_compose _ _ _ _ _ G8 H9) as G9.
  eapply Forall2_impl; [exact G9|]. clear. simpl.
  intros r r' (r8 & (r7 & (r6 & (r5 & (r4 & (r3 & (r2 & (r1 & E1 & E2)
    & E3) & E4) & E5) & E6) & E7) & E8) & ->).
  destruct E1 as (flag & Hflag & ->).
  destruct E2 as (o & Ho & ->).
  destruct E3 as (o' & Ho' & ->).
  destruct E4 as (o'' & Ho'' & ->).
  destruct E5 as (season & Hseason & ->).
  subst r6 r7 r8.
  cells_in Ho. cells_in Ho'. cells_in Ho''. cells_in Hseason.
  assert (o' = o) as -> by congruence.
  assert (o'' = o) as -> by congruence.
  exists flag, o, season. cells. done.
Qed.

Lemma loc_setitem_inr df mask c v l df' :
  loc_setitem df mask c v = (l, inr df') →
  l = [] ∧ length mask = length (rows df) ∧
  df' = Frame (columns df)
              (zip_with (λ r (b : bool), if b then <[c:=v]> r else r)
                        (rows df) mask).
Proof.
  unfold loc_setitem. repeat case_decide; try discriminate.
  by intros [= <- <-].
Qed.

Lemma dt_of_timestamp xs ts :
  Forall2 (λ v o, dt_cell v = inr o) (of_timestamp <$> xs) ts → ts = xs.
Proof.
  revert ts. induction xs as [|x xs IH]; intros ts; inversion 1 as [|???? Hx Hr];
    subst; [done|].
  f_equal; [|by apply IH]. destruct x; simpl in Hx; congruence.
Qed.

Lemma mask_sum_fmap {A} (p : A → bool) (l : list A) :
  mask_sum (p <$> l) = length (filter (λ x, p x = true) l).
Proof.
  unfold mask_sum. induction l as [|x l IH]; [done|].
  rewrite fmap_cons, !filter_cons. destruct (p x); simpl; by rewrite IH.
Qed.

Section WithParsers.
Context `{Parsers}.

Lemma dates_parsed df l df' :
  assign_series df "order_purchase_date" "order_purchase_date"
         (λ s, of_timestamp ∘ to_datetime s) = (l, inr df') →
  l = [] ∧ Forall2 (parse_dates_row (dates_of df)) (rows df) (rows df') ∧
  columns df' = add_column "order_purchase_date" (columns df) ∧
  ∀ l' ts, (d ← getitem df' "order_purchase_date"; dt d) = (l', inr ts) →
    l' = [] ∧ ts = parsed_date (dates_of df) <$> rows df.
Proof.
  intros (-> & Hsrc & Hcols & Hrows)%assign_series_inr. split; [done|].
  split; [exact Hrows|]. split; [exact Hcols|].
  intros l' ts (? & d & ? & (-> & _ & ->)%getitem_inr & Hdt & ->)%bind_inr.
  apply mapM_lift_inr in Hdt as [-> Hdt]. split; [done|].
  apply Forall2_fmap_eq in Hrows. rewrite Hrows in Hdt.
  rewrite <- list_fmap_compose in Hdt.
  apply dt_of_timestamp.
  rewrite <- list_fmap_compose.
  erewrite list_fmap_ext; [exact Hdt|].
  intros i r _. simpl. by rewrite cell_insert_eq.
Qed.

Lemma repair_dates_abc_inr df l df' :
  repair_dates_abc df = (l, inr df') →
  l = [LogCorruptDates
         (length (filter (λ r, epoch_row (dates_of df) r = true) (rows df)))
         (length (rows df))] ∧
  Forall2 (repair_dates_row (dates_of df)) (rows df) (rows df') ∧
  columns df' = add_column "order_purchase_date" (columns df).
Proof.
  unfold repair_dates_abc.
  intros (? & d1 & ? & H1 & H2 & ->)%bind_inr.
  apply dates_parsed in H1 as (-> & Hrows & Hcols & Hts).
  apply bind_inr in H2 as (? & d & ? & Hd & H2 & ->).
  apply bind_inr in H2 as (? & ts & ? & Hdt & H2 & ->).
  destruct (Hts ([] ++ [])%list ts) as [_ ->].
  { apply getitem_inr in Hd as (-> & Hc & ->).
    rewrite (bind_pure _ _ _ (getitem_ok _ _ Hc)).
    apply mapM_lift_inr in Hdt as [-> Hdt].
    by apply mapM_lift_ok. }
  apply getitem_inr in Hd as (-> & _ & _).
  apply mapM_lift_inr in Hdt as [-> _].
  apply bind_inr in H2
    as (? & d2 & ? & (-> & Hlen & ->)%loc_setitem_inr & H2 & ->).
  apply bind_inr in H2 as (? & [] & ? & [= <-] & [= <- <-] & ->).
  apply Forall2_fmap_eq in Hrows. cbn [rows columns]. rewrite Hrows.
  split_and!; [| |done].
  - simpl. rewrite <- list_fmap_compose.
    rewrite mask_sum_fmap, length_zip_with, !length_fmap.
    rewrite Nat.min_id. done.
  - rewrite <- list_fmap_compose, zip_with_fmap_same. apply Forall2_fmap_eq.
    apply list_fmap_ext. intros i r _. unfold repair_dates_row, compose.
    cbv beta zeta. case_match; [|done].
    by rewrite insert_insert_eq.
Qed.

Lemma parse_dates_xyz_inr df l df' :
  parse_dates_xyz df = (l, inr df') →
  l = [LogSuspiciousDates
         (length (filter (λ r, early_row (dates_of df) r = true) (rows df)))] ∧
  Forall2 (parse_dates_row (dates_of df)) (rows df) (rows df') ∧
  columns df' = add_column "order_purchase_date" (columns df).
Proof.
  unfold parse_dates_xyz.
  intros (? & d1 & ? & H1 & H2 & ->)%bind_inr.
  apply dates_parsed in H1 as (-> & Hrows & Hcols & Hts).
  apply bind_inr in H2 as (? & d & ? & Hd & H2 & ->).
  apply bind_inr in H2 as (? & ts & ? & Hdt & H2 & ->).
  destruct (Hts ([] ++ [])%list ts) as [_ ->].
  { apply getitem_inr in Hd as (-> & Hc & ->).
    rewrite (bind_pure _ _ _ (getitem_ok _ _ Hc)).
    apply mapM_lift_inr in Hdt as [-> Hdt].
    by apply mapM_lift_ok. }
  apply getitem_inr in Hd as (-> & _ & _).
  apply mapM_lift_inr in Hdt as [-> _].
  apply bind_inr in H2 as (? & [] & ? & [= <-] & [= <- <-] & ->).
  split; [|done]. simpl. by rewrite <- list_fmap_compose, mask_sum_fmap.
Qed.

Lemma normalize_time_inr df l df' :
  normalize_time df = (l, inr df') →
  l = [] ∧ Forall2 time_row (rows df) (rows df') ∧
  columns df' = add_column "order_purchase_time" (columns df).
Proof. by intros (-> & _ & Hcols & Hrows)%assign_inr. Qed.

End WithParsers.

Lemma normalize_vocabulary_inr df m l df' :
  normalize_vocabulary df m = (l, inr df') →
  l = [] ∧ Forall2 (vocabulary_row m) (rows df) (rows df') ∧
  columns df' = add_column "item_category" (columns df).
Proof. by intros (-> & _ & Hcols & Hrows)%assign_inr. Qed.

Lemma drop_inr df c l df' :
  drop df c = (l, inr df') →
  l = [] ∧ c ∈ columns df ∧
  columns df' = filter (λ c', c' ≠ c) (columns df) ∧
  rows df' = delete c <$> rows df.
Proof.
  unfold drop. case_decide; [|discriminate]. by intros [= <- <-].
Qed.

Lemma missing_nil (cs cols : list string) :
  filter (λ c, c ∉ cs) cols = [] ↔ cols ⊆ cs.
Proof.
  split.
  - intros Hf c Hc. destruct (decide (c ∈ cs)) as [|Hn]; [done|].
    assert (c ∈ filter (λ c, c ∉ cs) cols) as Hin
      by by apply list_elem_of_filter.
    rewrite Hf in Hin. by apply not_elem_of_nil in Hin.
  - intros Hsub. destruct (filter _ cols) as [|c m] eqn:Hf; [done|].
    assert (c ∈ filter (λ c, c ∉ cs) cols) as Hin by (rewrite Hf; left).
    apply list_elem_of_filter in Hin as [Hn Hc]. destruct Hn. by apply Hsub.
Qed.

Lemma select_ok df cols :
  cols ⊆ columns df →
  select df cols = ([], inr (Frame cols (restrict cols <$> rows df))).
Proof.
  intros Hsub%missing_nil. unfold select. by rewrite Hsub.
Qed.

Lemma select_inr df cols l df' :
  select df cols = (l, inr df') →
  l = [] ∧ cols ⊆ columns df ∧
  df' = Frame cols (restrict cols <$> rows df).
Proof.
  unfold select. destruct (filter _ cols) as [|c m] eqn:Hf; [|discriminate].
  intros [= <- <-]. apply missing_nil in Hf. done.
Qed.

Lemma select_missing df cols :
  ¬ cols ⊆ columns df →
  ∃ missing, select df cols = ([], inl (KeyError missing)) ∧ missing ≠ [] ∧
             ∀ c, c ∈ missing ↔ c ∈ cols ∧ c ∉ columns df.
Proof.
  intros Hsub. exists (filter (λ c, c ∉ columns df) cols).
  rewrite <- missing_nil in Hsub.
  split; [|split; [done|]].
  - unfold select. by destruct (filter _ cols).
  - intros c. rewrite list_elem_of_filter. tauto.
Qed.

Lemma log_categories_inr chain df l u :
  log_categories chain df = (l, inr u) →
  ∃ cats, l = [LogCategories chain cats].
Proof.
  unfold log_categories.
  intros (? & c & ? & (-> & _ & ->)%getitem_inr & H & ->)%bind_inr.
  apply bind_inr in H as (l1 & cats & ? & Hs & [= <- <-] & ->).
  exists cats. unfold sorted_unique in Hs.
  destruct (unique _ _); [|case_match]; cbv [mret M_ret raise] in Hs;
    by simplify_eq.
Qed.

Lemma length_filter_fmap {A B} (f : A → B) (P : B → Prop) (Q : A → Prop)
    `{∀ x, Decision (P x)} `{∀ x, Decision (Q x)} (l : list A) :
  (∀ x, P (f x) ↔ Q x) →
  length (filter P (f <$> l)) = length (filter Q l).
Proof.
  intros HPQ. induction l as [|x l IH]; [done|].
  rewrite fmap_cons, !filter_cons.
  destruct (decide (P (f x))) as [HP|HP], (decide (Q x)) as [HQ|HQ];
    simpl; rewrite ?IH; try done; by apply HPQ in HP || apply HPQ in HQ.
Qed.

Lemma shared_cols_missing_self :
  filter (λ c, c ∉ shared_cols) shared_cols = [].
Proof. by apply missing_nil. Qed.

Lemma unify_ok abc xyz :
  shared_cols ⊆ columns abc → shared_cols ⊆ columns xyz →
  ∃ ev, unify abc xyz =
    ([ev], inr (MergeResult
       (Frame shared_cols (restrict shared_cols <$> rows abc))
       (Frame shared_cols (restrict shared_cols <$> rows xyz))
       (Frame shared_cols ((restrict shared_cols <$> rows abc) ++
                           (restrict shared_cols <$> rows xyz))%list))).
Proof.
  intros Ha Hx. unfold unify.
  rewrite (bind_pure _ _ _ (select_ok _ _ Ha)).
  rewrite (bind_pure _ _ _ (select_ok _ _ Hx)).
  unfold concat. cbn [columns rows].
  rewrite shared_cols_missing_self, app_nil_r.
  assert ("chain" ∈ shared_cols) as Hc by (unfold shared_cols; set_solver).
  rewrite (bind_pure _ _ _ (getitem_ok (Frame shared_cols _) _ Hc)).
  eexists. reflexivity.
Qed.

Lemma unify_inr abc xyz l res :
  unify abc xyz = (l, inr res) →
  shared_cols ⊆ columns abc ∧ shared_cols ⊆ columns xyz ∧
  res = MergeResult
       (Frame shared_cols (restrict shared_cols <$> rows abc))
       (Frame shared_cols (restrict shared_cols <$> rows xyz))
       (Frame shared_cols ((restrict shared_cols <$> rows abc) ++
                           (restrict shared_cols <$> rows xyz))%list).
Proof.
  intros Hu. pose proof Hu as Hu'. unfold unify in Hu'.
  apply bind_inr in Hu' as (? & a & ? & (-> & Ha & ->)%select_inr & Hu' & ->).
  apply bind_inr in Hu' as (? & x & ? & (-> & Hx & ->)%select_inr & _ & ->).
  destruct (unify_ok abc xyz Ha Hx) as [ev Hok].
  rewrite Hok in Hu. by simplify_eq.
Qed.

Lemma unify_missing abc xyz :
  ¬ (shared_cols ⊆ columns abc ∧ shared_cols ⊆ columns xyz) →
  ∃ missing, unify abc xyz = ([], inl (KeyError missing)) ∧ missing ≠ [] ∧
    ∀ c, c ∈ missing → c ∈ shared_cols ∧ (c ∉ columns abc ∨ c ∉ columns xyz).
Proof.
  intros Hn. unfold unify.
  destruct (decide (shared_cols ⊆ columns abc)) as [Ha|Ha].
  - assert (¬ shared_cols ⊆ columns xyz) as Hx by tauto.
    apply select_missing in Hx as (missing & Hsel & Hne & Hin).
    exists missing. split; [|split; [done|]].
    + rewrite (bind_pure _ _ _ (select_ok _ _ Ha)).
      by rewrite (bind_inl _ _ _ _ Hsel).
    + intros c Hc%Hin. tauto.
  - apply select_missing in Ha as (missing & Hsel & Hne & Hin).
    exists missing. split; [|split; [done|]].
    + by rewrite (bind_inl _ _ _ _ Hsel).
    + intros c Hc%Hin. tauto.
Qed.

Lemma dates_of_ext df df' (g : row → row) :
  rows df' = g <$> rows df →
  (∀ r, cell "order_purchase_date" (g r) = cell "order_purchase_date" r) →
  dates_of df' = dates_of df.
Proof.
  intros Hrows Hg. unfold dates_of. rewrite Hrows, <- list_fmap_compose.
  apply list_fmap_ext. intros i r _. apply Hg.
Qed.

Section CleanRows.
Context `{Parsers}.

Lemma clean_abc_inr df l df' :
  clean_abc df = (l, inr df') →
  Forall2 (clean_abc_row (dates_of df)) (rows df) (rows df') ∧
  columns df' = add_columns cleaned_columns (columns df) ∧
  ∃ cats,
    l = [ LogCorruptDates
            (length (filter (λ r, epoch_row (dates_of df) r = true)
                            (rows df)))
            (length (rows df));
          LogCategories "ABC" cats ].
Proof.
  unfold clean_abc.
  intros (? & d1 & ? & (-> & H1 & C1)%repair_dates_abc_inr & H' & ->)%bind_inr.
  apply bind_inr in H'
    as (? & d2 & ? & (-> & _ & C2 & H2)%assign_apply_inr & H' & ->).
  apply bind_inr in H'
    as (? & d3 & ? & (-> & H3 & C3)%normalize_vocabulary_inr & H' & ->).
  apply bind_inr in H' as (? & [] & ? & [cats ->]%log_categories_inr & H' & ->).
  apply bind_inr in H'
    as (? & d4 & ? & (-> & H4 & C4)%normalize_time_inr & H' & ->).
  apply derive_auxiliary_inr in H' as (-> & H5 & C5 & _).
  split; [|split; [|by exists cats]].
  2:{ rewrite C5, C4, C3, C2, C1. unfold cleaned_columns, add_columns.
      rewrite foldl_app. cbn [foldl]. reflexivity. }
  pose proof (Forall2_compose _ _ _ _ _ H1 H2) as G2.
  pose proof (Forall2_compose _ _ _ _ _ G2 H3) as G3.
  pose proof (Forall2_compose _ _ _ _ _ G3 H4) as G4.
  pose proof (Forall2_compose _ _ _ _ _ G4 H5) as G5.
  eapply Forall2_impl; [exact G5|]. clear.
  intros r r' (r5 & (r4 & (r3 & (r2 & E1 & E2) & E3) & E4) & E5).
  exists r2, r3, r4, r5. done.
Qed.

Lemma clean_xyz_inr df l df' :
  clean_xyz df = (l, inr df') →
  Forall2 (clean_xyz_row (dates_of df)) (rows df) (rows df') ∧
  "item_product_cost" ∈ columns df ∧
  columns df' =
    add_columns (["order_purchase_date"; "item_category";
                  "order_purchase_time"] ++ derived_columns)
                (filter (λ c, c ≠ "item_product_cost") (columns df)) ∧
  ∃ cats,
    l = [ LogDropped "item_product_cost";
          LogSuspiciousDates
            (length (filter (λ r, early_row (dates_of df) r = true)
                            (rows df)));
          LogCategories "XYZ" cats ].
Proof.
  unfold clean_xyz.
  intros (? & d1 & ? & (-> & Hc & C1 & H1)%drop_inr & H' & ->)%bind_inr.
  apply bind_inr in H' as (? & [] & ? & [= <-] & H' & ->).
  apply bind_inr in H'
    as (? & d2 & ? & (-> & H2 & C2)%parse_dates_xyz_inr & H' & ->).
  apply bind_inr in H'
    as (? & d3 & ? & (-> & H3 & C3)%normalize_vocabulary_inr & H' & ->).
  apply bind_inr in H' as (? & [] & ? & [cats ->]%log_categories_inr & H' & ->).
  apply bind_inr in H'
    as (? & d4 & ? & (-> & H4 & C4)%normalize_time_inr & H' & ->).
  apply derive_auxiliary_inr in H' as (-> & H5 & C5 & _).
  assert (dates_of d1 = dates_of df) as Hdates.
  { apply (dates_of_ext _ _ _ H1). intros r. by rewrite cell_delete_ne. }
  rewrite Hdates in *.
  split; [|split; [done|split]].
  2:{ rewrite C5, C4, C3, C2, C1. unfold add_columns.
      rewrite foldl_app. cbn [foldl]. reflexivity. }
  - rewrite H1, Forall2_fmap_l in H2.
    pose proof (Forall2_compose _ _ _ _ _ H2 H3) as G3.
    pose proof (Forall2_compose _ _ _ _ _ G3 H4) as G4.
    pose proof (Forall2_compose _ _ _ _ _ G4 H5) as G5.
    eapply Forall2_impl; [exact G5|]. clear.
    intros r r' (r5 & (r4 & (r3 & E2 & E3) & E4) & E5).
    exists r3, r4, r5. done.
  - exists cats. simpl. rewrite H1. do 3 f_equal.
    apply length_filter_fmap. intros r.
    unfold early_row, parsed_date. by rewrite cell_delete_ne.
Qed.

Lemma pipeline_inr abc_raw xyz_raw l res :
  pipeline abc_raw xyz_raw = (l, inr res) →
  Forall2 (abc_record (dates_of abc_raw))
          (rows abc_raw) (rows (abc_clean res)) ∧
  Forall2 (xyz_record (dates_of xyz_raw))
          (rows xyz_raw) (rows (xyz_clean res)) ∧
  rows (merged res) = (rows (abc_clean res) ++ rows (xyz_clean res))%list ∧
  columns (abc_clean res) = shared_cols ∧
  columns (xyz_clean res) = shared_cols ∧
  columns (merged res) = shared_cols ∧
  ∃ cats l',
    l = (LogCorruptDates
           (length (filter (λ r, epoch_row (dates_of abc_raw) r = true)
                           (rows abc_raw)))
           (length (rows abc_raw))
         :: LogCategories "ABC" cats :: LogDropped "item_product_cost"
         :: LogSuspiciousDates
              (length (filter (λ r, early_row (dates_of xyz_raw) r = true)
                              (rows xyz_raw)))
         :: l')%list.
Proof.
  unfold pipeline. cbv zeta.
  intros (? & a & ? & (Ha & _ & cats & ->)%clean_abc_inr & H' & ->)%bind_inr.
  apply bind_inr in H'
    as (? & x & ? & (Hx & _ & _ & cats' & ->)%clean_xyz_inr & H' & ->).
  apply bind_inr in H' as (l1 & r & ? & (_ & _ & ->)%unify_inr & H' & ->).
  apply bind_inr in H' as (l2 & [] & ? & _ & [= <- <-] & ->).
  assert (∀ df v, dates_of (setitem_scalar df "chain" v) = dates_of df)
    as Hdates.
  { intros df v. apply (dates_of_ext _ _ (λ r, <["chain" := v]> r)); [done|].
    intros r. by rewrite cell_insert_ne. }
  rewrite !Hdates in *. clear Hdates.
  unfold setitem_scalar in *.
  cbn [abc_clean xyz_clean merged rows columns] in *.
  rewrite Forall2_fmap_l in Ha, Hx.
  split_and!; try done.
  - apply Forall2_fmap_r. eapply Forall2_impl; [exact Ha|].
    intros r n Hn. exists n. split; [|done]. by eexists.
  - apply Forall2_fmap_r. eapply Forall2_impl; [exact Hx|].
    intros r n Hn. exists n. split; [|done]. by eexists.
  - exists cats. eexists. simpl. rewrite !length_fmap.
    rewrite (length_filter_fmap _ _
               (λ r, epoch_row (dates_of abc_raw) r = true)),
      !(length_filter_fmap _ _
          (λ r, early_row (dates_of xyz_raw) r = true)).
    + reflexivity.
    + intros r. unfold early_row, parsed_date. by rewrite cell_insert_ne.
    + intros r. unfold epoch_row, parsed_date. by rewrite cell_insert_ne.
Qed.

End CleanRows.

End Rows.

(** ** Normalized records *)

Module Records.
Import Pandas Python CleanAndMerge RowView Steps Rows.

Lemma split_colon_head_app (a b : string) :
  (∀ c, c ∈ list_ascii_of_string a → c ≠ ":"%char) →
  split_colon_head (a ++ ":" ++ b) = a.
Proof.
  induction a as [|c a IH]; intros Hc; [done|].
  simpl. destruct (Ascii.eqb_spec c ":") as [->|_].
  - exfalso. eapply Hc; [left|done].
  - f_equal. apply IH. intros c' Hc'. apply Hc. by right.
Qed.

Lemma time_of_day_strftime (t : clock) :
  (hour t < 24)%nat →
  time_of_day (strftime_HM (Some t)) = inr (VStr (am_pm (Some t))).
Proof.
  intros Hh. unfold time_of_day, strftime_HM, am_pm.
  destruct t as [h m s]. cbn [hour minute] in *.
  do 24 (destruct h as [|h];
    [ rewrite split_colon_head_app by
        (vm_compute; intros c Hc;
         repeat (apply elem_of_cons in Hc as [->|Hc]; [done|]);
         by apply not_elem_of_nil in Hc);
      reflexivity |]).
  lia.
Qed.

Lemma get_season_month (o : option timestamp) :
  get_season (dt_month o) = inr (season_of o).
Proof. destruct o as [[y [] d]|]; reflexivity. Qed.

Section WithParsers.
Context `{Parsers}.

Lemma time_of_day_parsed (v : value) :
  time_of_day (strftime_HM (parse_time v)) = inr (VStr (am_pm (parse_time v))).
Proof.
  destruct (parse_time v) as [t|] eqn:Hp; [|done].
  apply time_of_day_strftime. by eapply parse_time_hour.
Qed.

Lemma derived_cells chain m o r r5 n :
  cell "chain" r5 = VStr chain →
  cell "order_purchase_date" r5 = of_timestamp o →
  cell "order_purchase_time" r5 =
    strftime_HM (parse_time (cell "order_purchase_time" r)) →
  cell "item_category" r5 = normalize_category m (cell "item_category" r) →
  cell "coupon_y_n" r5 = cell "coupon_y_n" r →
  cell "order_alcohol_purchased" r5 = cell "order_alcohol_purchased" r →
  cell "customer_with_children" r5 = cell "customer_with_children" r →
  cell "gender_customer_payee" r5 = cell "gender_customer_payee" r →
  derive_row r5 n →
  normalized_cells chain m o r n.
Proof.
  intros Hchain Hdate Htime Hcat Hcoupon Halc Hkids Hgender.
  intros (flag & o' & season & Hflag & Ho & Hseason & ->).
  rewrite Hdate in Ho. rewrite Htime, time_of_day_parsed in Hflag.
  assert (o' = o) as -> by (destruct o; simpl in Ho; congruence).
  rewrite get_season_month in Hseason.
  injection Hflag as <-. injection Hseason as <-.
  unfold normalized_cells. cells.
  by rewrite Hchain, Hdate, Htime, Hcat, Hcoupon, Halc, Hkids, Hgender.
Qed.

Lemma abc_row_cells dates r n :
  abc_row dates r n →
  normalized_cells "ABC" category_map_abc (abc_date dates r) r n.
Proof.
  intros (r1 & -> & r2 & r3 & r4 & r5 & Hd & (v & Hv & ->) & -> & -> & Hn).
  unfold repair_dates_row, parsed_date in Hd. cells_in Hd.
  fold (parsed_date dates r) in Hd. fold (epoch_row dates r) in Hd.
  eapply derived_cells; [..|exact Hn]; cells; subst r2; unfold abc_date;
    destruct (epoch_row dates r); by cells.
Qed.

Lemma xyz_row_cells dates r n :
  xyz_row dates r n →
  normalized_cells "XYZ" category_map_xyz (xyz_date dates r) r n.
Proof.
  intros (r1 & -> & r3 & r4 & r5 & -> & -> & -> & Hn).
  eapply derived_cells; [..|exact Hn]; unfold xyz_date, parsed_date; by cells.
Qed.

Lemma normalized_cells_restrict chain m o r n :
  normalized_cells chain m o r n →
  normalized_cells chain m o r (restrict shared_cols n).
Proof.
  unfold normalized_cells.
  rewrite !cell_restrict by (unfold shared_cols; set_solver). done.
Qed.

Lemma abc_record_cells dates r r' :
  abc_record dates r r' →
  normalized_cells "ABC" category_map_abc (abc_date dates r) r r'.
Proof.
  intros (n & Hn & ->). by apply normalized_cells_restrict, abc_row_cells.
Qed.

Lemma xyz_record_cells dates r r' :
  xyz_record dates r r' →
  normalized_cells "XYZ" category_map_xyz (xyz_date dates r) r r'.
Proof.
  intros (n & Hn & ->). by apply normalized_cells_restrict, xyz_row_cells.
Qed.

(** Every record of the merged data set comes from a raw row of one of the
    two sources. *)
Lemma merged_records abc_raw xyz_raw l res r' :
  pipeline abc_raw xyz_raw = (l, inr res) →
  r' ∈ rows (merged res) →
  (∃ r, r ∈ rows abc_raw ∧ abc_record (dates_of abc_raw) r r') ∨
  (∃ r, r ∈ rows xyz_raw ∧ xyz_record (dates_of xyz_raw) r r').
Proof.
  intros (Ha & Hx & -> & _)%pipeline_inr [Hr|Hr]%elem_of_app.
  - left. apply list_elem_of_lookup in Hr as [i Hi].
    destruct (Forall2_lookup_r _ _ _ _ _ Ha Hi) as (r & Hr & Hrec).
    exists r. split; [|done]. by eapply list_elem_of_lookup_2.
  - right. apply list_elem_of_lookup in Hr as [i Hi].
    destruct (Forall2_lookup_r _ _ _ _ _ Hx Hi) as (r & Hr & Hrec).
    exists r. split; [|done]. by eapply list_elem_of_lookup_2.
Qed.

End WithParsers.

End Records.

(** ** The properties of the merged data set *)

Module Properties.
Import Pandas Python CleanAndMerge LoadDatabase Examples RowView.
Import Steps Rows Records.

(** A decidable statement about the examples is settled by evaluation. *)
Ltac by_compute :=
  lazymatch goal with
  | |- ¬ _ => refine (bool_decide_eq_false_1 _ _); vm_compute; reflexivity
  | |- _ => refine (bool_decide_eq_true_1 _ _); vm_compute; reflexivity
  end.

(** Membership in a list that is written out *)
Ltac in_list :=
  solve [ repeat first [ apply list_elem_of_here
                       | apply list_elem_of_further ] ].

Lemma returned_result {A} (d : A) (m : M A) :
  returned m = true → m = (m.1, inr (result_of d m)).
Proof.
  unfold returned, result_of. destruct m as [l [e|a]]; [discriminate|done].
Defined.

Lemma nth_row_lookup i df :
  (i <? length (rows df))%nat = true → rows df !! i = Some (nth_row i df).
Proof.
  intros Hi%Nat.ltb_lt. unfold nth_row.
  destruct (rows df !! i) eqn:Hr; [done|].
  apply lookup_ge_None in Hr. lia.
Defined.

Lemma nth_row_elem i df :
  (i <? length (rows df))%nat = true → nth_row i df ∈ rows df.
Proof. intros Hi. eapply list_elem_of_lookup_2, nth_row_lookup, Hi. Defined.

Lemma example_run_returned :
  pipeline abc_example xyz_example = (example_run.1, inr example_result).
Proof.
  unfold example_result. apply returned_result. vm_compute. reflexivity.
Defined.

(** *** Sentinel consistency *)

(** C3: in every record of the merged data set whose purchase date is
    missing, the month, the month name, the year and the season are missing
    too. *)
Theorem sentinel_consistency `{Parsers} abc_raw xyz_raw l res r' :
  pipeline abc_raw xyz_raw = (l, inr res) →
  r' ∈ rows (merged res) →
  cell "order_purchase_date" r' = NA →
  cell "order_month" r' = NA ∧ cell "order_month_name" r' = NA ∧
  cell "order_year" r' = NA ∧ cell "season" r' = NA.
Proof.
  intros Hrun Hr Hdate.
  assert (∃ chain m o r, normalized_cells chain m o r r')
    as (chain & m & o & r & Hn).
  { destruct (merged_records _ _ _ _ _ Hrun Hr) as [(r & _ & Hrec)|(r & _ & Hrec)].
    - do 4 eexists. by apply abc_record_cells.
    - do 4 eexists. by apply xyz_record_cells. }
  destruct Hn as (_ & Hd & Hm & Hname & Hy & Hs & _).
  rewrite Hd in Hdate. destruct o; [discriminate|].
  by rewrite Hm, Hname, Hy, Hs.
Qed.

Lemma sentinel_consistency_witness :
  pipeline abc_example xyz_example = (example_run.1, inr example_result) ∧
  nth_row 0 (merged example_result) ∈ rows (merged example_result) ∧
  cell "order_purchase_date" (nth_row 0 (merged example_result)) = NA ∧
  cell "order_month" (nth_row 0 (merged example_result)) = NA ∧
  cell "order_month_name" (nth_row 0 (merged example_result)) = NA ∧
  cell "order_year" (nth_row 0 (merged example_result)) = NA ∧
  cell "season" (nth_row 0 (merged example_result)) = NA.
Proof.
  split; [exact example_run_returned|].
  split; [apply nth_row_elem; vm_compute; reflexivity|].
  split; [vm_compute; reflexivity|].
  apply (sentinel_consistency abc_example xyz_example example_run.1
           example_result).
  - exact example_run_returned.
  - apply nth_row_elem. vm_compute. reflexivity.
  - vm_compute. reflexivity.
Defined.

(** Every record of the merged data set has the cells of a normalized
    record of one of the sources. *)
Lemma merged_record_cells `{Parsers} abc_raw xyz_raw l res r' :
  pipeline abc_raw xyz_raw = (l, inr res) →
  r' ∈ rows (merged res) →
  ∃ chain m o r,
    (r ∈ rows abc_raw ∨ r ∈ rows xyz_raw) ∧ normalized_cells chain m o r r'.
Proof.
  intros Hrun Hr.
  destruct (merged_records _ _ _ _ _ Hrun Hr) as [(r & ? & Hrec)|(r & ? & Hrec)].
  - exists "ABC", category_map_abc, (abc_date (dates_of abc_raw) r), r.
    split; [by left|]. by apply abc_record_cells.
  - exists "XYZ", category_map_xyz, (xyz_date (dates_of xyz_raw) r), r.
    split; [by right|]. by apply xyz_record_cells.
Qed.

(** The records of the merged data set, in order, are those of the raw rows
    of ABC followed by those of the raw rows of XYZ. *)
Lemma merged_rows_cells `{Parsers} abc_raw xyz_raw l res :
  pipeline abc_raw xyz_raw = (l, inr res) →
  Forall2 (λ r r', ∃ chain m o, normalized_cells chain m o r r')
          (rows abc_raw ++ rows xyz_raw)%list (rows (merged res)).
Proof.
  intros (Ha & Hx & -> & _)%pipeline_inr. apply Forall2_app.
  - eapply Forall2_impl; [exact Ha|]. intros r r' Hrec.
    do 3 eexists. by apply abc_record_cells.
  - eapply Forall2_impl; [exact Hx|]. intros r r' Hrec.
    do 3 eexists. by apply xyz_record_cells.
Qed.

(** *** Corrupt dates *)

(** The first row of the XYZ example has a raw date in 1970, and its record
    keeps that date, in the cleaned XYZ frame and in the merged one. *)
Lemma xyz_epoch_date_kept :
  pipeline abc_example xyz_example = (example_run.1, inr example_result) ∧
  epoch_row (dates_of xyz_example) (nth_row 0 xyz_example) = true ∧
  cell "order_purchase_date" (nth_row 0 (xyz_clean example_result))
    = VDate (Timestamp 1970 January 1) ∧
  cell "order_purchase_date" (nth_row 3 (merged example_result))
    = VDate (Timestamp 1970 January 1).
Proof.
  split; [exact example_run_returned|].
  repeat split; vm_compute; reflexivity.
Qed.

(** C1, amended: a row of ABC whose raw date parses to the year 1970 has a
    missing purchase date in the cleaned ABC frame and in the merged one, no
    record of ABC keeps a date in 1970, and the number of those rows is
    logged. A row of XYZ keeps its date as parsed, and the number of XYZ
    dates before 2015 is logged. *)
Theorem epoch_dates_repaired `{Parsers} abc_raw xyz_raw l res :
  pipeline abc_raw xyz_raw = (l, inr res) →
  (∀ i r, rows abc_raw !! i = Some r →
     epoch_row (dates_of abc_raw) r = true →
     ∃ r', rows (abc_clean res) !! i = Some r' ∧
           rows (merged res) !! i = Some r' ∧
           cell "order_purchase_date" r' = NA) ∧
  (∀ r' t, r' ∈ rows (abc_clean res) →
     cell "order_purchase_date" r' = VDate t → ts_year t ≠ 1970) ∧
  LogCorruptDates
    (length (filter (λ r, epoch_row (dates_of abc_raw) r = true)
                    (rows abc_raw)))
    (length (rows abc_raw)) ∈ l ∧
  (∀ j r, rows xyz_raw !! j = Some r →
     ∃ r', rows (xyz_clean res) !! j = Some r' ∧
           rows (merged res) !! (length (rows abc_raw) + j)%nat = Some r' ∧
           cell "order_purchase_date" r'
             = of_timestamp (parsed_date (dates_of xyz_raw) r)) ∧
  LogSuspiciousDates
    (length (filter (λ r, early_row (dates_of xyz_raw) r = true)
                    (rows xyz_raw))) ∈ l.
Proof.
  intros (Ha & Hx & Hm & _ & _ & _ & cats & l' & ->)%pipeline_inr.
  split_and!.
  - intros i r Hi Hepoch.
    destruct (Forall2_lookup_l _ _ _ _ _ Ha Hi) as (r' & Hr' & Hrec).
    exists r'. split; [done|]. split.
    + rewrite Hm. by apply lookup_app_l_Some.
    + apply abc_record_cells in Hrec as (_ & -> & _).
      unfold abc_date. by rewrite Hepoch.
  - intros r' t [i Hi]%list_elem_of_lookup Hdate.
    destruct (Forall2_lookup_r _ _ _ _ _ Ha Hi) as (r & Hr & Hrec).
    apply abc_record_cells in Hrec as (_ & Hd & _).
    rewrite Hd in Hdate. unfold abc_date, epoch_row in *.
    destruct (parsed_date _ _) as [t'|]; cbn [year_is] in Hdate;
      [|discriminate].
    destruct (Z.eqb_spec 1970 (ts_year t')); cbn [of_timestamp] in Hdate;
      [discriminate|].
    injection Hdate as <-. congruence.
  - in_list.
  - intros j r Hj.
    destruct (Forall2_lookup_l _ _ _ _ _ Hx Hj) as (r' & Hr' & Hrec).
    exists r'. split; [done|]. split.
    + rewrite Hm, (Forall2_length _ _ _ Ha).
      by rewrite lookup_app_r, Nat.add_sub' by lia.
    + by apply xyz_record_cells in Hrec as (_ & -> & _).
  - in_list.
Qed.

Lemma epoch_dates_repaired_witness :
  pipeline abc_example xyz_example = (example_run.1, inr example_result) ∧
  epoch_row (dates_of abc_example) (nth_row 0 abc_example) = true ∧
  cell "order_purchase_date" (nth_row 0 (abc_clean example_result)) = NA ∧
  cell "order_purchase_date" (nth_row 0 (merged example_result)) = NA ∧
  LogCorruptDates 1 3 ∈ example_run.1 ∧
  LogSuspiciousDates 1 ∈ example_run.1.
Proof.
  split; [exact example_run_returned|].
  split; [vm_compute; reflexivity|].
  pose proof (epoch_dates_repaired abc_example xyz_example example_run.1
                example_result example_run_returned)
    as (Hrow & _ & Hlog & _ & Hlog').
  destruct (Hrow 0%nat (nth_row 0 abc_example)) as (r' & Ha & Hm & Hdate).
  - apply nth_row_lookup. vm_compute. reflexivity.
  - vm_compute. reflexivity.
  - assert (nth_row 0 (abc_clean example_result) = r') as ->
      by (unfold nth_row; by rewrite Ha).
    assert (nth_row 0 (merged example_result) = r') as ->
      by (unfold nth_row; by rewrite Hm).
    split; [exact Hdate|]. split; [exact Hdate|].
    split; [exact Hlog|exact Hlog'].
Defined.

(** *** The time-of-day flag *)

(** The third row of the ABC example has no purchase time, and its flag is
    PM, not missing. *)
Lemma unknown_time_flagged_pm :
  pipeline abc_example xyz_example = (example_run.1, inr example_result) ∧
  cell "order_purchase_time" (nth_row 2 (merged example_result)) = NA ∧
  cell "time_of_day" (nth_row 2 (merged example_result)) = VStr "PM".
Proof.
  split; [exact example_run_returned|].
  split; vm_compute; reflexivity.
Qed.

(** C2, amended: the purchase time of a record of the merged data set is
    the text [HH:MM] of a parsed time or is missing; the flag is AM exactly
    when the time is known and its hour is below 12, and PM in every other
    case, the missing time included. *)
Theorem time_of_day_flag `{Parsers} abc_raw xyz_raw l res r' :
  pipeline abc_raw xyz_raw = (l, inr res) →
  r' ∈ rows (merged res) →
  ∃ o : option clock,
    cell "order_purchase_time" r' = strftime_HM o ∧
    (∀ t, o = Some t → (hour t < 24)%nat) ∧
    (cell "time_of_day" r' = VStr "AM" ↔ ∃ t, o = Some t ∧ (hour t < 12)%nat) ∧
    (cell "time_of_day" r' = VStr "PM" ↔
       o = None ∨ ∃ t, o = Some t ∧ (12 ≤ hour t)%nat) ∧
    (cell "order_purchase_time" r' = NA → cell "time_of_day" r' = VStr "PM").
Proof.
  intros Hrun Hr.
  destruct (merged_record_cells _ _ _ _ _ Hrun Hr)
    as (chain & m & o & r & _ & Hn).
  destruct Hn as (_ & _ & _ & _ & _ & _ & Htime & Hflag & _).
  exists (parse_time (cell "order_purchase_time" r)).
  split; [done|]. split; [intros t Ht; by eapply parse_time_hour|].
  rewrite Hflag, Htime. unfold am_pm.
  destruct (parse_time _) as [t|]; simpl.
  - destruct (Nat.ltb_spec (hour t) 12); split_and!;
      try done; naive_solver lia.
  - split_and!; try done; naive_solver.
Qed.

Lemma time_of_day_flag_witness :
  pipeline abc_example xyz_example = (example_run.1, inr example_result) ∧
  nth_row 0 (merged example_result) ∈ rows (merged example_result) ∧
  ∃ o : option clock,
    cell "order_purchase_time" (nth_row 0 (merged example_result))
      = strftime_HM o ∧
    (∀ t, o = Some t → (hour t < 24)%nat) ∧
    (cell "time_of_day" (nth_row 0 (merged example_result)) = VStr "AM" ↔
       ∃ t, o = Some t ∧ (hour t < 12)%nat) ∧
    (cell "time_of_day" (nth_row 0 (merged example_result)) = VStr "PM" ↔
       o = None ∨ ∃ t, o = Some t ∧ (12 ≤ hour t)%nat) ∧
    (cell "order_purchase_time" (nth_row 0 (merged example_result)) = NA →
     cell "time_of_day" (nth_row 0 (merged example_result)) = VStr "PM").
Proof.
  split; [exact example_run_returned|].
  split; [apply nth_row_elem; vm_compute; reflexivity|].
  apply (time_of_day_flag abc_example xyz_example example_run.1
           example_result).
  - exact example_run_returned.
  - apply nth_row_elem. vm_compute. reflexivity.
Defined.

(** *** The coded flags *)

Lemma yes_no_letters_lookup (k : string) :
  yes_no_letters !! k =
    if decide (k = "Y") then Some "Yes"
    else if decide (k = "N") then Some "No" else None.
Proof.
  unfold yes_no_letters. cbn [list_to_map foldr fst snd uncurry].
  repeat case_decide; subst; simplify_map_eq; done.
Qed.

Lemma yes_no_codes_lookup (k : Z) :
  yes_no_codes !! k =
    if decide (k = 1) then Some "Yes"
    else if decide (k = 0) then Some "No" else None.
Proof.
  unfold yes_no_codes. cbn [list_to_map foldr fst snd uncurry].
  repeat case_decide; subst; simplify_map_eq; done.
Qed.

Lemma letter_code (v : value) :
  (v = VStr "Y" → map_dict yes_no_letters v = VStr "Yes") ∧
  (v = VStr "N" → map_dict yes_no_letters v = VStr "No") ∧
  (v ≠ VStr "Y" → v ≠ VStr "N" → map_dict yes_no_letters v = NA).
Proof.
  split_and!; [by intros ->|by intros ->|].
  intros HY HN. destruct v as [|k| | |]; try done.
  unfold map_dict. rewrite yes_no_letters_lookup.
  repeat case_decide; by subst.
Qed.

Lemma number_key_is_number (k : Z) (v : value) :
  number_key v = Some k ↔ is_number k v.
Proof.
  unfold is_number. destruct v as [|s|z|q|t]; simpl.
  - split; [done|]. by intros [|(q & ? & _)].
  - split; [done|]. by intros [|(q & ? & _)].
  - split; [intros [= ->]; by left|]. intros [[= ->]|(q & ? & _)]; done.
  - destruct q as [n d]. cbn [Qnum Qden].
    assert (Z.pos d ≠ 0)%Z as Hd by done.
    split.
    + case_decide as Hrem; [|done]. intros [= <-]. right.
      exists (n # d). split; [done|].
      unfold Qeq, inject_Z. cbn [Qnum Qden].
      pose proof (Z.quot_rem' n (Z.pos d)) as Hqr. lia.
    + intros [|(q & [= <-] & Hq)]; [done|].
      unfold Qeq, inject_Z in Hq. cbn [Qnum Qden] in Hq.
      assert (n = k * Z.pos d)%Z as -> by lia.
      rewrite Z.rem_mul by done. rewrite decide_True by done.
      by rewrite Z.quot_mul.
  - split; [done|]. by intros [|(q & ? & _)].
Qed.

Lemma number_code (v : value) :
  (is_number 1 v → map_int_dict yes_no_codes v = VStr "Yes") ∧
  (is_number 0 v → map_int_dict yes_no_codes v = VStr "No") ∧
  (¬ is_number 1 v → ¬ is_number 0 v → map_int_dict yes_no_codes v = NA).
Proof.
  rewrite <- !number_key_is_number.
  unfold map_int_dict. split_and!; [by intros ->|by intros ->|].
  intros H1 H0. destruct (number_key v) as [k|]; [|done].
  rewrite yes_no_codes_lookup. repeat case_decide; by subst.
Qed.

(** C10: in every record of the merged data set, [coupon_used] is Yes for
    the raw code Y, No for N and missing for every other raw cell;
    [alcohol_purchased] and [has_children] are Yes for the raw number 1, No
    for the raw number 0, be the number an integer or a float, and missing
    for every other raw cell. The record [i] of the merged data set comes
    from the raw row [i] of ABC followed by XYZ. *)
Theorem coded_flags_fail_closed `{Parsers} abc_raw xyz_raw l res i r r' :
  pipeline abc_raw xyz_raw = (l, inr res) →
  (rows abc_raw ++ rows xyz_raw)%list !! i = Some r →
  rows (merged res) !! i = Some r' →
  let coupon := cell "coupon_y_n" r in
  let alcohol := cell "order_alcohol_purchased" r in
  let children := cell "customer_with_children" r in
  (coupon = VStr "Y" → cell "coupon_used" r' = VStr "Yes") ∧
  (coupon = VStr "N" → cell "coupon_used" r' = VStr "No") ∧
  (coupon ≠ VStr "Y" → coupon ≠ VStr "N" → cell "coupon_used" r' = NA) ∧
  (alcohol = VInt 1 → cell "alcohol_purchased" r' = VStr "Yes") ∧
  (alcohol = VInt 0 → cell "alcohol_purchased" r' = VStr "No") ∧
  (is_number 1 alcohol → cell "alcohol_purchased" r' = VStr "Yes") ∧
  (is_number 0 alcohol → cell "alcohol_purchased" r' = VStr "No") ∧
  (¬ is_number 1 alcohol → ¬ is_number 0 alcohol →
   cell "alcohol_purchased" r' = NA) ∧
  (children = VInt 1 → cell "has_children" r' = VStr "Yes") ∧
  (children = VInt 0 → cell "has_children" r' = VStr "No") ∧
  (is_number 1 children → cell "has_children" r' = VStr "Yes") ∧
  (is_number 0 children → cell "has_children" r' = VStr "No") ∧
  (¬ is_number 1 children → ¬ is_number 0 children →
   cell "has_children" r' = NA).
Proof.
  intros Hrun Hr Hr'.
  pose proof (merged_rows_cells _ _ _ _ Hrun) as Hall.
  destruct (Forall2_lookup_l _ _ _ _ _ Hall Hr) as (r'' & Hr'' & Hn).
  assert (r'' = r') as -> by congruence.
  destruct Hn as (chain & m & o & Hn).
  destruct Hn as (_ & _ & _ & _ & _ & _ & _ & _ & _ & -> & -> & -> & _).
  cbv zeta.
  pose proof (letter_code (cell "coupon_y_n" r)) as (? & ? & ?).
  pose proof (number_code (cell "order_alcohol_purchased" r))
    as (Ha1 & Ha0 & Ha).
  pose proof (number_code (cell "customer_with_children" r))
    as (Hc1 & Hc0 & Hc).
  split_and!; try done.
  - intros Hv. apply Ha1. by left.
  - intros Hv. apply Ha0. by left.
  - intros Hv. apply Hc1. by left.
  - intros Hv. apply Hc0. by left.
Qed.

Lemma coded_flags_fail_closed_witness :
  cell "coupon_y_n" (nth_row 2 example_raw) = VStr "?" ∧
  cell "coupon_used" (nth_row 2 (merged example_result)) = NA ∧
  cell "order_alcohol_purchased" (nth_row 0 example_raw) = VInt 1 ∧
  cell "alcohol_purchased" (nth_row 0 (merged example_result)) = VStr "Yes" ∧
  cell "order_alcohol_purchased" (nth_row 2 example_raw) = VInt 2 ∧
  cell "alcohol_purchased" (nth_row 2 (merged example_result)) = NA ∧
  cell "customer_with_children" (nth_row 2 example_raw) = VInt 0 ∧
  cell "has_children" (nth_row 2 (merged example_result)) = VStr "No".
Proof.
  pose proof (coded_flags_fail_closed abc_example xyz_example example_run.1
    example_result 0 (nth_row 0 example_raw)
    (nth_row 0 (merged example_result)) example_run_returned)
    as Hfirst.
  pose proof (coded_flags_fail_closed abc_example xyz_example example_run.1
    example_result 2 (nth_row 2 example_raw)
    (nth_row 2 (merged example_result)) example_run_returned)
    as Hflags.
  destruct Hfirst as (_ & _ & _ & Hone & _).
  { apply (nth_row_lookup 0 example_raw). vm_compute. reflexivity. }
  { apply nth_row_lookup. vm_compute. reflexivity. }
  destruct Hflags
    as (_ & _ & Hcoupon & _ & _ & _ & _ & Halcohol & _ & Hkids & _).
  - apply (nth_row_lookup 2 example_raw). vm_compute. reflexivity.
  - apply nth_row_lookup. vm_compute. reflexivity.
  - split; [vm_compute; reflexivity|].
    split; [apply Hcoupon; vm_compute; discriminate|].
    split; [vm_compute; reflexivity|].
    split; [apply Hone; vm_compute; reflexivity|].
    split; [vm_compute; reflexivity|].
    split.
    { apply Halcohol; intros [Hv|(q & Hv & _)]; vm_compute in Hv;
        discriminate Hv. }
    split; [vm_compute; reflexivity|].
    apply Hkids. vm_compute. reflexivity.
Defined.

(** *** The merge *)

(** C4: the merge of two normalized frames returns; the merged data set has
    as many rows as the two frames together, the rows of the first frame come
    first, then the rows of the second, each in its order and each with its
    shared columns. *)
Theorem merge_conserves_rows abc xyz :
  shared_cols ⊆ columns abc → shared_cols ⊆ columns xyz →
  ∃ l res, unify abc xyz = (l, inr res) ∧
    length (rows (merged res)) = (length (rows abc) + length (rows xyz))%nat ∧
    (∀ i r, rows abc !! i = Some r →
       rows (merged res) !! i = Some (restrict shared_cols r)) ∧
    (∀ j r, rows xyz !! j = Some r →
       rows (merged res) !! (length (rows abc) + j)%nat
         = Some (restrict shared_cols r)) ∧
    (∀ r c, c ∈ shared_cols → cell c (restrict shared_cols r) = cell c r).
Proof.
  intros Ha Hx. destruct (unify_ok abc xyz Ha Hx) as [ev Hu].
  eexists _, _. split; [exact Hu|]. cbn [merged rows]. split_and!.
  - by rewrite length_app, !length_fmap.
  - intros i r Hi. apply lookup_app_l_Some.
    by rewrite list_lookup_fmap, Hi.
  - intros j r Hj.
    rewrite lookup_app_r by (rewrite length_fmap; lia).
    rewrite length_fmap, Nat.add_sub', list_lookup_fmap, Hj. done.
  - intros r c Hc. by apply cell_restrict.
Qed.

Lemma merge_conserves_rows_witness :
  shared_cols ⊆ columns example_abc_cleaned ∧
  shared_cols ⊆ columns example_xyz_cleaned ∧
  ∃ l res, unify example_abc_cleaned example_xyz_cleaned = (l, inr res) ∧
    length (rows (merged res)) = (3 + 2)%nat.
Proof.
  assert (shared_cols ⊆ columns example_abc_cleaned) as Ha
    by by_compute.
  assert (shared_cols ⊆ columns example_xyz_cleaned) as Hx
    by by_compute.
  split; [exact Ha|]. split; [exact Hx|].
  destruct (merge_conserves_rows example_abc_cleaned example_xyz_cleaned
              Ha Hx) as (l & res & Hu & Hlen & _).
  exists l, res. split; [exact Hu|].
  rewrite Hlen. vm_compute. reflexivity.
Defined.

(** Across the whole script no row is gained or lost either: each cleaned
    frame has the rows of its raw frame, and the merged data set has the rows
    of both. *)
Corollary pipeline_conserves_rows `{Parsers} abc_raw xyz_raw l res :
  pipeline abc_raw xyz_raw = (l, inr res) →
  length (rows (abc_clean res)) = length (rows abc_raw) ∧
  length (rows (xyz_clean res)) = length (rows xyz_raw) ∧
  length (rows (merged res))
    = (length (rows abc_raw) + length (rows xyz_raw))%nat.
Proof.
  intros (Ha%Forall2_length & Hx%Forall2_length & -> & _)%pipeline_inr.
  rewrite length_app. lia.
Qed.

(** C9: when one of the two frames lacks a shared column, the merge raises a
    [KeyError] that names missing shared columns, and returns no merged data
    set; when both frames have every shared column, the merge returns, the
    columns of the merged data set and of the two saved frames are the shared
    columns, in their order, and every record holds the shared cells of its
    row as they were and no cell of another column. *)
Theorem unify_columns_or_error abc xyz :
  (¬ (shared_cols ⊆ columns abc ∧ shared_cols ⊆ columns xyz) →
   ∃ missing,
     unify abc xyz = ([], inl (KeyError missing)) ∧ missing ≠ [] ∧
     ∀ c, c ∈ missing →
          c ∈ shared_cols ∧ (c ∉ columns abc ∨ c ∉ columns xyz)) ∧
  (shared_cols ⊆ columns abc ∧ shared_cols ⊆ columns xyz →
   ∃ l res,
     unify abc xyz = (l, inr res) ∧
     columns (merged res) = shared_cols ∧
     columns (abc_clean res) = shared_cols ∧
     columns (xyz_clean res) = shared_cols ∧
     rows (merged res) = (rows (abc_clean res) ++ rows (xyz_clean res))%list ∧
     Forall2 (λ r r',
                (∀ c, c ∈ shared_cols → r' !! c = r !! c) ∧
                (∀ c, c ∉ shared_cols → r' !! c = None))
             (rows abc) (rows (abc_clean res)) ∧
     Forall2 (λ r r',
                (∀ c, c ∈ shared_cols → r' !! c = r !! c) ∧
                (∀ c, c ∉ shared_cols → r' !! c = None))
             (rows xyz) (rows (xyz_clean res))).
Proof.
  split.
  - apply unify_missing.
  - intros [Ha Hx]. destruct (unify_ok abc xyz Ha Hx) as [ev Hu].
    eexists _, _. split; [exact Hu|]. cbn [merged abc_clean xyz_clean rows].
    split_and!; [done..| |].
    + apply Forall2_fmap_r, Forall_Forall2_diag, Forall_forall. intros r _.
      split; intros c Hc; [by apply restrict_inside|by apply restrict_outside].
    + apply Forall2_fmap_r, Forall_Forall2_diag, Forall_forall. intros r _.
      split; intros c Hc; [by apply restrict_inside|by apply restrict_outside].
Qed.

Lemma unify_columns_or_error_witness :
  (∃ missing,
     unify abc_example example_xyz_cleaned = ([], inl (KeyError missing)) ∧
     "chain" ∈ missing) ∧
  nth_row 0 example_abc_cleaned !! "coupon_y_n" = Some (VStr "Y") ∧
  (∃ l res r',
     unify example_abc_cleaned example_xyz_cleaned = (l, inr res) ∧
     columns (merged res) = shared_cols ∧
     rows (abc_clean res) !! 0%nat = Some r' ∧
     r' !! "coupon_y_n" = None ∧
     r' !! "chain" = nth_row 0 example_abc_cleaned !! "chain").
Proof.
  split; [|split; [vm_compute; reflexivity|]].
  - destruct (unify_columns_or_error abc_example example_xyz_cleaned)
      as [Herr _].
    destruct Herr as (missing & Hu & _).
    + intros [Ha _]. assert ("chain" ∉ columns abc_example) as Hout
        by by_compute.
      apply Hout, Ha. unfold shared_cols. left.
    + exists missing. split; [exact Hu|].
      assert (unify abc_example example_xyz_cleaned
              = ([], inl (KeyError
                   (filter (λ c, c ∉ columns abc_example) shared_cols)))) as Hu'
        by (vm_compute; reflexivity).
      rewrite Hu' in Hu. injection Hu as <-. by_compute.
  - destruct (unify_columns_or_error example_abc_cleaned example_xyz_cleaned)
      as [_ Hok].
    destruct Hok as (l & res & Hu & Hcols & _ & _ & _ & Hrows & _).
    + split; by_compute.
    + destruct (Forall2_lookup_l _ _ _ 0%nat (nth_row 0 example_abc_cleaned)
                  Hrows) as (r' & Hr' & Hin & Hout).
      { apply nth_row_lookup. vm_compute. reflexivity. }
      exists l, res, r'. split; [exact Hu|]. split; [exact Hcols|].
      split; [exact Hr'|]. split.
      * apply Hout. by_compute.
      * apply Hin. unfold shared_cols. left.
Defined.

(** *** The dropped column *)

(** The cost column of the XYZ example has a value in its first row, and the
    cleaning drops the column all the same. *)
Lemma non_missing_column_dropped :
  "item_product_cost" ∈ columns xyz_example ∧
  cell "item_product_cost" (nth_row 0 xyz_example) = VFloat (5 # 2) ∧
  returned (drop xyz_example "item_product_cost") = true ∧
  ("item_product_cost"
    ∉ columns (result_of xyz_example (drop xyz_example "item_product_cost"))) ∧
  returned (clean_xyz (setitem_scalar xyz_example "chain" (VStr "XYZ")))
    = true ∧
  "item_product_cost" ∉ columns example_xyz_cleaned.
Proof.
  split_and!.
  - by_compute.
  - vm_compute. reflexivity.
  - vm_compute. reflexivity.
  - by_compute.
  - vm_compute. reflexivity.
  - by_compute.
Qed.

(** C5, amended: [drop] removes the named column from the frame and from
    every row whenever the frame has the column, whatever its cells hold, and
    raises a [KeyError] when it has not; no cell is looked at. The cleaning of
    XYZ drops [item_product_cost] in this way and logs the drop: the cleaned
    frame never has the column. *)
Theorem cost_column_dropped_unchecked `{Parsers} xyz :
  ("item_product_cost" ∈ columns xyz →
   drop xyz "item_product_cost" =
     ([], inr (Frame (filter (λ c, c ≠ "item_product_cost") (columns xyz))
                     (delete "item_product_cost" <$> rows xyz)))) ∧
  ("item_product_cost" ∉ columns xyz →
   drop xyz "item_product_cost" = ([], inl (KeyError ["item_product_cost"])) ∧
   ∃ l, clean_xyz xyz = (l, inl (KeyError ["item_product_cost"]))) ∧
  (∀ l df', clean_xyz xyz = (l, inr df') →
     "item_product_cost" ∈ columns xyz ∧
     ("item_product_cost" ∉ columns df') ∧
     LogDropped "item_product_cost" ∈ l ∧
     length (rows df') = length (rows xyz) ∧
     ∀ r', r' ∈ rows df' → r' !! "item_product_cost" = None).
Proof.
  split_and!.
  - intros Hc. unfold drop. by rewrite decide_True.
  - intros Hc. unfold clean_xyz, drop. rewrite decide_False by done.
    split; [done|]. by eexists.
  - intros l df' (Hrows & Hc & Hcols & cats & ->)%clean_xyz_inr.
    split_and!; [done| |in_list| |].
    + rewrite Hcols, elem_of_add_columns, list_elem_of_filter.
      intros [[? _]|Hin]; [done|].
      revert Hin. by_compute.
    + symmetry. by eapply Forall2_length.
    + intros r' [i Hi]%list_elem_of_lookup.
      destruct (Forall2_lookup_r _ _ _ _ _ Hrows Hi) as (r & _ & Hr).
      destruct Hr as (r3 & r4 & r5 & -> & -> & -> & Hd).
      destruct Hd as (flag & o & season & _ & _ & _ & ->).
      rewrite !lookup_insert_ne by done. apply lookup_delete_eq.
Qed.

Lemma cost_column_dropped_unchecked_witness :
  "item_product_cost" ∈ columns xyz_example ∧
  returned (drop xyz_example "item_product_cost") = true ∧
  ("item_product_cost" ∉ columns abc_example) ∧
  drop abc_example "item_product_cost"
    = ([], inl (KeyError ["item_product_cost"])).
Proof.
  assert ("item_product_cost" ∈ columns xyz_example) as Hin
    by by_compute.
  assert ("item_product_cost" ∉ columns abc_example) as Hout
    by by_compute.
  split; [exact Hin|]. split; [|split; [exact Hout|]].
  - destruct (cost_column_dropped_unchecked xyz_example) as (Hdrop & _).
    unfold returned. by rewrite (Hdrop Hin).
  - destruct (cost_column_dropped_unchecked abc_example) as (_ & Hmiss & _).
    exact (proj1 (Hmiss Hout)).
Defined.

(** *** The vocabulary *)

Lemma unique_text seen s : Forall is_text s → Forall is_text (unique seen s).
Proof.
  intros Hs. revert seen. induction Hs as [|v s Hv _ IH]; intros seen; simpl.
  - constructor.
  - case_decide; [apply IH|]. constructor; [done|apply IH].
Qed.

Lemma sorted_unique_text s :
  Forall is_text s → sorted_unique s = ([], inr (unique [] s)).
Proof.
  intros Hs%(unique_text []). unfold sorted_unique.
  destruct (unique [] s) as [|v u]; [done|].
  apply Forall_cons in Hs as [[k ->] Hu].
  replace (forallb (comparable (VStr k)) u) with true; [done|].
  symmetry. apply forallb_forall. intros w Hw%list_elem_of_In.
  rewrite Forall_forall in Hu. by destruct (Hu w Hw) as [k' ->].
Qed.

(** A missing category next to a text one stops the log line that follows
    the vocabulary step: [sorted] cannot compare them. *)
Example missing_category_stops_the_log :
  log_categories "ABC"
    (Frame ["item_category"]
       [ {[ "item_category" := VStr "Pizza" ]}; {[ "item_category" := NA ]} ])
  = ([], inl TypeError).
Proof. vm_compute. reflexivity. Qed.

(** C6: on a frame that has the column [item_category], the vocabulary step
    returns without an exception and without a log line; it keeps the columns
    and the number of rows; in every row a category that is a key of the
    lookup table becomes the value of that key, every other cell of the
    column, a missing one included, stays as it was, and no other column
    changes. When the categories are all text, in the table or not, the log
    line that follows returns too. *)
Theorem vocabulary_fail_open df (m : gmap string string) :
  "item_category" ∈ columns df →
  ∃ df', normalize_vocabulary df m = ([], inr df') ∧
    columns df' = columns df ∧
    Forall2 (λ r r',
      (∀ k c, cell "item_category" r = VStr k → m !! k = Some c →
              cell "item_category" r' = VStr c) ∧
      ((∀ k, cell "item_category" r = VStr k → m !! k = None) →
       cell "item_category" r' = cell "item_category" r) ∧
      (∀ c, c ≠ "item_category" → r' !! c = r !! c))
      (rows df) (rows df') ∧
    (Forall (λ r, is_text (cell "item_category" r)) (rows df) →
     ∀ chain, ∃ cats,
       log_categories chain df' = ([LogCategories chain cats], inr tt)).
Proof.
  intros Hc. eexists. split; [by apply assign_ok|]. cbn [rows columns].
  assert (add_column "item_category" (columns df) = columns df) as Hcols
    by (unfold add_column; by rewrite decide_True).
  split; [done|]. split.
  - apply Forall2_fmap_r, Forall_Forall2_diag, Forall_forall. intros r _.
    split_and!.
    + intros k c Hk Hm. rewrite cell_insert_eq, Hk.
      unfold normalize_category, fillna, map_dict. by rewrite Hm.
    + intros Hnone. rewrite cell_insert_eq.
      unfold normalize_category, fillna, map_dict.
      destruct (cell "item_category" r) as [|k| | |]; try done.
      by rewrite Hnone.
    + intros c Hne. by rewrite lookup_insert_ne.
  - intros Htext chain. eexists. unfold log_categories.
    assert ("item_category" ∈ add_column "item_category" (columns df))
      as Hc' by by rewrite Hcols.
    rewrite (bind_pure _ _ _ (getitem_ok (Frame _ _) _ Hc')).
    cbn [rows].
    assert (Forall is_text
              (cell "item_category" <$>
                 ((λ r, <["item_category" :=
                             normalize_category m (cell "item_category" r)]> r)
                    <$> rows df))) as Hnew.
    { rewrite <- list_fmap_compose. apply Forall_fmap.
      eapply Forall_impl; [exact Htext|]. intros r [k Hk]. cbn.
      rewrite cell_insert_eq, Hk. unfold normalize_category, map_dict, fillna.
      destruct (m !! k); by eexists. }
    by rewrite (bind_pure _ _ _ (sorted_unique_text _ Hnew)).
Qed.

Lemma vocabulary_fail_open_witness :
  "item_category" ∈ columns abc_example ∧
  ∃ df', normalize_vocabulary abc_example category_map_abc = ([], inr df') ∧
    cell "item_category" (nth_row 0 df') = VStr "Salads" ∧
    cell "item_category" (nth_row 1 df') = VStr "Tacos".
Proof.
  assert ("item_category" ∈ columns abc_example) as Hin
    by by_compute.
  split; [exact Hin|].
  destruct (vocabulary_fail_open abc_example category_map_abc Hin)
    as (df' & Hrun & _ & Hrows & _).
  exists df'. split; [exact Hrun|].
  assert (df' = result_of abc_example
                  (normalize_vocabulary abc_example category_map_abc)) as ->
    by (unfold result_of; by rewrite Hrun).
  split; vm_compute; reflexivity.
Defined.

(** *** Idempotence *)

Lemma category_map_abc_lookup (k : string) :
  category_map_abc !! k =
    if decide (k = "salad") then Some "Salads"
    else if decide (k = "Pasta") then Some "Pasta"
    else if decide (k = "Pizza") then Some "Pizza"
    else if decide (k = "Sandwich") then Some "Sandwiches"
    else if decide (k = "Appetizers") then Some "Appetizers"
    else if decide (k = "Beverages") then Some "Beverages"
    else None.
Proof.
  unfold category_map_abc. cbn [list_to_map foldr fst snd uncurry].
  repeat case_decide; subst; simplify_map_eq; done.
Qed.

Lemma category_map_xyz_lookup (k : string) :
  category_map_xyz !! k =
    if decide (k = "Pizza") then Some "Pizza"
    else if decide (k = "Dessert") then Some "Dessert"
    else if decide (k = "Appetizers") then Some "Appetizers"
    else if decide (k = "Salads") then Some "Salads"
    else if decide (k = "Pasta") then Some "Pasta"
    else if decide (k = "Sandwiches") then Some "Sandwiches"
    else if decide (k = "Beverage") then Some "Beverages"
    else None.
Proof.
  unfold category_map_xyz. cbn [list_to_map foldr fst snd uncurry].
  repeat case_decide; subst; simplify_map_eq; done.
Qed.

(** The canonical vocabulary is the seven categories of the data model. *)
Lemma canonical_seven (c : string) :
  canonical c ↔
  c ∈ [ "Appetizers"; "Beverages"; "Dessert"; "Pasta"; "Pizza"; "Salads";
        "Sandwiches" ].
Proof.
  unfold canonical. split.
  - intros [k [Hk|Hk]];
      [rewrite category_map_abc_lookup in Hk
      |rewrite category_map_xyz_lookup in Hk];
      repeat case_decide; simplify_eq; in_list.
  - rewrite !elem_of_cons, elem_of_nil.
    intros [->|[->|[->|[->|[->|[->|[->|[]]]]]]]].
    + exists "Appetizers". by left.
    + exists "Beverages". by left.
    + exists "Dessert". by right.
    + exists "Pasta". by left.
    + exists "Pizza". by left.
    + exists "salad". by left.
    + exists "Sandwich". by left.
Qed.

Lemma normalize_category_text (m : gmap string string) (k : string) :
  normalize_category m (VStr k) = VStr (default k (m !! k)).
Proof.
  unfold normalize_category, map_dict, fillna. by destruct (m !! k).
Qed.

Lemma normalize_category_other (m : gmap string string) (v : value) :
  (∀ k, v ≠ VStr k) → normalize_category m v = v.
Proof. intros Hv. destruct v; try done. by destruct (Hv s). Qed.

Lemma normalize_abc_twice (v : value) :
  normalize_category category_map_abc (normalize_category category_map_abc v)
  = normalize_category category_map_abc v.
Proof.
  destruct v as [|k| | |]; try done.
  rewrite !normalize_category_text, !category_map_abc_lookup.
  repeat case_decide; simpl; rewrite ?category_map_abc_lookup;
    repeat case_decide; simplify_eq; done.
Qed.

Lemma normalize_xyz_twice (v : value) :
  normalize_category category_map_xyz (normalize_category category_map_xyz v)
  = normalize_category category_map_xyz v.
Proof.
  destruct v as [|k| | |]; try done.
  rewrite !normalize_category_text, !category_map_xyz_lookup.
  repeat case_decide; simpl; rewrite ?category_map_xyz_lookup;
    repeat case_decide; simplify_eq; done.
Qed.

(** A step that writes what the column already holds returns the frame. *)
Lemma frame_eta df : Frame (columns df) (rows df) = df.
Proof. by destruct df. Qed.

Lemma insert_same_rows dst (g : gmap string value → value)
    (rs : list (gmap string value)) :
  Forall (λ r, r !! dst = Some (g r)) rs →
  (λ r, <[dst := g r]> r) <$> rs = rs.
Proof.
  induction 1 as [|r rs Hr _ IH]; [done|].
  rewrite fmap_cons, IH. f_equal. by apply insert_id.
Qed.

Lemma add_column_elem c cols : c ∈ cols → add_column c cols = cols.
Proof. intros. unfold add_column. by rewrite decide_True. Qed.

Lemma assign_same df dst src f :
  src ∈ columns df → dst ∈ columns df →
  Forall (λ r, r !! dst = Some (f (cell src r))) (rows df) →
  assign df dst src f = ([], inr df).
Proof.
  intros Hsrc Hdst Hrows. rewrite (assign_ok _ _ _ _ Hsrc).
  rewrite (insert_same_rows dst (λ r, f (cell src r))) by done.
  by rewrite add_column_elem, frame_eta.
Qed.

Lemma assign_apply_same df dst src f :
  src ∈ columns df → dst ∈ columns df →
  Forall (λ r, ∃ v, f (cell src r) = inr v ∧ r !! dst = Some v) (rows df) →
  assign_apply df dst src f = ([], inr df).
Proof.
  intros Hsrc Hdst Hrows. unfold assign_apply.
  rewrite (bind_pure _ _ _ (getitem_ok _ _ Hsrc)).
  assert (apply f (cell src <$> rows df) = ([], inr (cell dst <$> rows df)))
    as Hap.
  { apply mapM_lift_ok, Forall2_fmap, Forall_Forall2_diag.
    eapply Forall_impl; [exact Hrows|]. intros r (v & Hv & Hr).
    unfold cell at 2. by rewrite Hr. }
  rewrite (bind_pure _ _ _ Hap). unfold setitem.
  rewrite decide_True by by rewrite length_fmap.
  rewrite zip_with_fmap_right, (insert_same_rows dst (cell dst)).
  - by rewrite add_column_elem, frame_eta.
  - eapply Forall_impl; [exact Hrows|]. intros r (v & _ & Hr).
    unfold cell. by rewrite Hr.
Qed.

Lemma assign_dt_same df dst src f :
  src ∈ columns df → dst ∈ columns df →
  Forall (λ r, ∃ o, dt_cell (cell src r) = inr o ∧ r !! dst = Some (f o))
         (rows df) →
  assign_dt df dst src f = ([], inr df).
Proof.
  intros Hsrc Hdst Hrows. unfold assign_dt.
  rewrite (bind_pure _ _ _ (getitem_ok _ _ Hsrc)).
  assert (∃ ts, dt (cell src <$> rows df) = ([], inr ts) ∧
                f <$> ts = cell dst <$> rows df) as (ts & Hdt & Hts).
  { clear Hsrc Hdst. induction Hrows as [|r rs (o & Ho & Hr) _ IH].
    - by exists [].
    - destruct IH as (ts & Hdt & Hts). exists (o :: ts). split.
      + apply mapM_lift_ok. constructor; [done|].
        by apply mapM_lift_inr in Hdt as [_ ?].
      + rewrite !fmap_cons, Hts. f_equal. unfold cell. by rewrite Hr. }
  rewrite (bind_pure _ _ _ Hdt). unfold setitem.
  rewrite decide_True by by rewrite Hts, !length_fmap.
  rewrite Hts, zip_with_fmap_right, (insert_same_rows dst (cell dst)).
  - by rewrite add_column_elem, frame_eta.
  - eapply Forall_impl; [exact Hrows|]. intros r (o & _ & Hr).
    unfold cell. by rewrite Hr.
Qed.

(** One step of the derivation on a frame that holds its result *)
Ltac same_step Hs Hd Hall :=
  first [ apply assign_apply_same | apply assign_dt_same
        | apply assign_same ];
  [ first [ apply Hs; in_list | apply Hd; in_list ]
  | apply Hd; in_list
  | apply Hall; intros r (flag & o & season & Hr); naive_solver ].

Lemma derive_row_derived r r' : derive_row r r' → derived r'.
Proof.
  intros (flag & o & season & Hflag & Ho & Hseason & ->).
  exists flag, o, season. cells.
  rewrite !lookup_insert_eq.
  repeat (rewrite lookup_insert_ne by done; rewrite ?lookup_insert_eq).
  done.
Qed.

Lemma derive_auxiliary_same df :
  derive_sources ⊆ columns df →
  derived_columns ⊆ columns df →
  Forall derived (rows df) →
  derive_auxiliary df = ([], inr df).
Proof.
  intros Hsrc Hdst Hrows. unfold derive_auxiliary.
  assert (∀ c, c ∈ derived_columns → c ∈ columns df) as Hd by done.
  assert (∀ c, c ∈ derive_sources → c ∈ columns df) as Hs by done.
  assert (∀ P : row → Prop,
            (∀ r, derived r → P r) → Forall P (rows df)) as Hall.
  { intros P HP. eapply Forall_impl; [exact Hrows|exact HP]. }
  do 8 (rewrite (bind_pure _ _ df) by same_step Hs Hd Hall).
  same_step Hs Hd Hall.
Qed.

(** The time and the flag of a cleaned row of ABC *)
Lemma clean_abc_row_time `{Parsers} dates (r n : row) :
  clean_abc_row dates r n →
  cell "order_purchase_time" n
    = strftime_HM (parse_time (cell "order_purchase_time" r)) ∧
  cell "time_of_day" n
    = VStr (am_pm (parse_time (cell "order_purchase_time" r))).
Proof.
  intros (r2 & r3 & r4 & r5 & Hd & (v & _ & ->) & -> & -> & Hn).
  destruct Hn as (flag & o & season & Hflag & _ & _ & ->).
  unfold repair_dates_row in Hd. cbv zeta in Hd.
  assert (cell "order_purchase_time" r2 = cell "order_purchase_time" r)
    as Htime by (subst r2; destruct (year_is _ _); by cells).
  cells_in Hflag. rewrite Htime, time_of_day_parsed in Hflag.
  injection Hflag as <-. cells. by rewrite Htime.
Qed.

(** The first row of the cleaned ABC example holds the time 09:15 and the
    flag AM. A second cleaning of the cleaned frame returns, and leaves the
    row without a time and with the flag PM: the format of step 3d does not
    read the text that step 3d has written. A second cleaning of the
    cleaned XYZ example stops at the drop of the column that the first has
    dropped. *)
Lemma second_run_loses_times :
  cell "order_purchase_time" (nth_row 0 example_abc_cleaned) = VStr "09:15" ∧
  cell "time_of_day" (nth_row 0 example_abc_cleaned) = VStr "AM" ∧
  returned (clean_abc example_abc_cleaned) = true ∧
  cell "order_purchase_time"
    (nth_row 0 (result_of abc_example (clean_abc example_abc_cleaned))) = NA ∧
  cell "time_of_day"
    (nth_row 0 (result_of abc_example (clean_abc example_abc_cleaned)))
    = VStr "PM" ∧
  clean_xyz example_xyz_cleaned = ([], inl (KeyError ["item_product_cost"])).
Proof. repeat split; vm_compute; reflexivity. Qed.

(** C7, amended: both vocabulary tables leave a canonical category as it is,
    and applying a table twice is applying it once; deriving the auxiliary
    columns again on a frame where they have been derived returns the same
    frame, with no log line. The cleaning as a whole is not idempotent: a
    second cleaning of a cleaned XYZ frame stops with a [KeyError] on the
    dropped column, and a second cleaning of a cleaned ABC frame, where the
    time format does not read the normalized times again, leaves every row
    without a time and with the flag PM. *)
Theorem normalization_rerun `{Parsers} :
  (∀ c, canonical c →
     normalize_category category_map_abc (VStr c) = VStr c ∧
     normalize_category category_map_xyz (VStr c) = VStr c) ∧
  (∀ v,
     normalize_category category_map_abc
       (normalize_category category_map_abc v)
       = normalize_category category_map_abc v ∧
     normalize_category category_map_xyz
       (normalize_category category_map_xyz v)
       = normalize_category category_map_xyz v) ∧
  (∀ df l df', derive_auxiliary df = (l, inr df') →
     derive_auxiliary df' = ([], inr df')) ∧
  (∀ xyz l df', clean_xyz xyz = (l, inr df') →
     clean_xyz df' = ([], inl (KeyError ["item_product_cost"]))) ∧
  (∀ abc l a l' a',
     clean_abc abc = (l, inr a) → clean_abc a = (l', inr a') →
     (∀ r, r ∈ rows abc →
        parse_time (strftime_HM (parse_time (cell "order_purchase_time" r)))
        = None) →
     Forall (λ r', cell "order_purchase_time" r' = NA ∧
                   cell "time_of_day" r' = VStr "PM") (rows a')).
Proof.
  split_and!.
  - intros c Hc%canonical_seven.
    rewrite !normalize_category_text, category_map_abc_lookup,
      category_map_xyz_lookup.
    repeat (apply elem_of_cons in Hc as [->|Hc]; [by split|]).
    by apply elem_of_nil in Hc.
  - intros v. split; [apply normalize_abc_twice|apply normalize_xyz_twice].
  - intros df l df' (_ & Hrows & Hcols & Hsrc)%derive_auxiliary_inr.
    apply derive_auxiliary_same.
    + intros c Hc. rewrite Hcols, elem_of_add_columns. left. by apply Hsrc.
    + intros c Hc. rewrite Hcols, elem_of_add_columns. by right.
    + apply Forall_forall. intros r' [i Hi]%list_elem_of_lookup.
      destruct (Forall2_lookup_r _ _ _ _ _ Hrows Hi) as (r & _ & Hr).
      by eapply derive_row_derived.
  - intros xyz l df' (_ & _ & Hcols & _)%clean_xyz_inr.
    assert ("item_product_cost" ∉ columns df') as Hout.
    { rewrite Hcols, elem_of_add_columns, list_elem_of_filter.
      intros [[? _]|Hin]; [done|]. revert Hin. by_compute. }
    unfold clean_xyz, drop. by rewrite decide_False.
  - intros abc l a l' a' [Hfirst _]%clean_abc_inr [Hsecond _]%clean_abc_inr
      Hformat.
    apply Forall_forall. intros r' [i Hi]%list_elem_of_lookup.
    destruct (Forall2_lookup_r _ _ _ _ _ Hsecond Hi) as (ra & Hia & Hra).
    destruct (Forall2_lookup_r _ _ _ _ _ Hfirst Hia) as (r & Hir & Hr).
    apply clean_abc_row_time in Hra as [-> ->].
    apply clean_abc_row_time in Hr as [-> _].
    rewrite Hformat by by eapply list_elem_of_lookup_2. done.
Qed.

Lemma normalization_rerun_witness :
  canonical "Salads" ∧
  normalize_category category_map_abc (VStr "Salads") = VStr "Salads" ∧
  derive_auxiliary (result_of example_normalized
                      (derive_auxiliary example_normalized))
  = ([], inr (result_of example_normalized
                (derive_auxiliary example_normalized))) ∧
  clean_xyz example_xyz_cleaned = ([], inl (KeyError ["item_product_cost"])) ∧
  cell "order_purchase_time" (nth_row 1 example_abc_cleaned) = VStr "18:40" ∧
  cell "order_purchase_time"
    (nth_row 1 (result_of abc_example (clean_abc example_abc_cleaned))) = NA ∧
  cell "time_of_day"
    (nth_row 1 (result_of abc_example (clean_abc example_abc_cleaned)))
    = VStr "PM".
Proof.
  destruct (normalization_rerun (H := example_parsers))
    as (Hcanon & _ & Hderive & Hxyz & Habc).
  assert (canonical "Salads") as Hc by (exists "salad"; by left).
  split; [exact Hc|]. split; [exact (proj1 (Hcanon _ Hc))|].
  split; [eapply Hderive; apply returned_result; vm_compute; reflexivity|].
  split.
  { eapply (Hxyz (setitem_scalar xyz_example "chain" (VStr "XYZ")) _
                 example_xyz_cleaned).
    unfold example_xyz_cleaned. apply returned_result.
    vm_compute. reflexivity. }
  split; [vm_compute; reflexivity|].
  assert (Forall (λ r',
            cell "order_purchase_time" r' = NA ∧
            cell "time_of_day" r' = VStr "PM")
          (rows (result_of abc_example (clean_abc example_abc_cleaned))))
    as Hall.
  { eapply (Habc (setitem_scalar abc_example "chain" (VStr "ABC")) _
                 example_abc_cleaned).
    - unfold example_abc_cleaned. apply returned_result.
      vm_compute. reflexivity.
    - apply (returned_result abc_example (clean_abc example_abc_cleaned)).
      vm_compute. reflexivity.
    - apply Forall_forall. unfold abc_example.
      cbn [setitem_scalar rows fmap list_fmap].
      repeat (apply Forall_cons_2; [vm_compute; reflexivity|]).
      apply Forall_nil_2. }
  rewrite Forall_forall in Hall.
  apply (Hall (nth_row 1 _)), nth_row_elem. vm_compute. reflexivity.
Defined.

(** *** The dimension tables *)

Lemma first_of_each_keys keys seen rs :
  NoDup (key_of keys <$> first_of_each keys seen rs) ∧
  ∀ r, r ∈ first_of_each keys seen rs → key_of keys r ∉ seen.
Proof.
  revert seen. induction rs as [|r rs IH]; intros seen; simpl.
  - split; [constructor|]. by intros r ?%elem_of_nil.
  - case_decide as Hseen.
    + apply IH.
    + destruct (IH (key_of keys r :: seen)) as [Hnd Hout].
      split.
      * rewrite fmap_cons. constructor; [|done].
        intros (r2 & Hk & Hr2)%list_elem_of_fmap.
        apply Hout in Hr2. apply Hr2. rewrite Hk. left.
      * intros r2 [->|Hr2]%elem_of_cons; [done|].
        apply Hout in Hr2. intros Hin. apply Hr2. by right.
Qed.

Lemma drop_duplicates_inr df keys l d :
  drop_duplicates df keys = (l, inr d) →
  l = [] ∧ d = Frame (columns df) (first_of_each keys [] (rows df)).
Proof.
  unfold drop_duplicates. destruct (filter _ keys); [|discriminate].
  by intros [= <- <-].
Qed.

Lemma drop_duplicates_one_key df c l d :
  drop_duplicates df [c] = (l, inr d) → NoDup (cell c <$> rows d).
Proof.
  intros [_ ->]%drop_duplicates_inr. cbn [rows].
  destruct (first_of_each_keys [c] [] (rows df)) as [Hnd _].
  apply (NoDup_fmap_1 (λ v, [v])). by rewrite <- list_fmap_compose.
Qed.

Lemma drop_duplicates_two_keys df a b l d :
  drop_duplicates df [a; b] = (l, inr d) →
  NoDup ((λ r, (cell a r, cell b r)) <$> rows d).
Proof.
  intros [_ ->]%drop_duplicates_inr. cbn [rows].
  destruct (first_of_each_keys [a; b] [] (rows df)) as [Hnd _].
  apply (NoDup_fmap_1 (λ p : value * value, [p.1; p.2])).
  by rewrite <- list_fmap_compose.
Qed.

Lemma foldr_max_bound (k z : Z) (ks : list Z) :
  z ∈ k :: ks → (z ≤ foldr Z.max k ks)%Z.
Proof.
  induction ks as [|k' ks IH]; simpl.
  - intros [->|[]%elem_of_nil]%elem_of_cons. lia.
  - intros [->|[->|Hz]%elem_of_cons]%elem_of_cons.
    + assert (k ≤ foldr Z.max k ks)%Z by (apply IH; left). lia.
    + lia.
    + assert (z ≤ foldr Z.max k ks)%Z by (apply IH; by right). lia.
Qed.

Lemma next_rowid_fresh pk (tbl : list (gmap string value)) :
  VInt (next_rowid pk tbl) ∉ cell pk <$> tbl.
Proof.
  intros (r & Hr & Hin)%list_elem_of_fmap.
  assert (next_rowid pk tbl ∈ omap (int_key pk) tbl) as Hz.
  { apply list_elem_of_omap. exists r. split; [done|].
    unfold int_key. by rewrite <- Hr. }
  unfold next_rowid in *. destruct (omap _ tbl) as [|k ks].
  - by apply elem_of_nil in Hz.
  - apply foldr_max_bound in Hz. lia.
Qed.

Lemma insert_row_integer_key pk tbl r tbl' :
  NoDup (cell pk <$> tbl) →
  insert_row pk IntegerKey tbl r = inr tbl' →
  NoDup (cell pk <$> tbl').
Proof.
  intros Hnd. unfold insert_row.
  destruct (cell pk r) as [| |z| |] eqn:Hk; try discriminate.
  - intros [= <-]. rewrite fmap_app. apply NoDup_app. split; [done|].
    split; [|apply NoDup_singleton].
    intros v Hv [->|[]%elem_of_nil]%elem_of_cons.
    rewrite cell_insert_eq in Hv. by apply next_rowid_fresh in Hv.
  - case_decide as Hin; [discriminate|]. intros [= <-].
    rewrite fmap_app. apply NoDup_app. split; [done|].
    split; [|apply NoDup_singleton].
    intros v Hv [->|[]%elem_of_nil]%elem_of_cons. by rewrite Hk in Hv.
Qed.

Lemma insert_rows_integer_key pk tbl rs tbl' :
  NoDup (cell pk <$> tbl) →
  insert_rows pk IntegerKey tbl rs = inr tbl' →
  NoDup (cell pk <$> tbl').
Proof.
  revert tbl. induction rs as [|r rs IH]; intros tbl Hnd; cbn [insert_rows].
  - by intros [= <-].
  - destruct (insert_row pk IntegerKey tbl r) as [e|t] eqn:Hrow;
      [discriminate|].
    apply IH. by eapply insert_row_integer_key.
Qed.

Lemma insert_rows_text_key pk tbl rs tbl' :
  insert_rows pk TextKey tbl rs = inr tbl' → tbl' = (tbl ++ rs)%list.
Proof.
  revert tbl. induction rs as [|r rs IH]; intros tbl; cbn [insert_rows].
  - intros [= <-]. by rewrite app_nil_r.
  - destruct (insert_row pk TextKey tbl r) as [e|t] eqn:Hrow; [discriminate|].
    assert (t = (tbl ++ [r])%list) as ->.
    { unfold insert_row in Hrow.
      destruct (cell pk r); try case_decide; by simplify_eq. }
    intros ->%IH. by rewrite <- app_assoc.
Qed.

Lemma to_sql_inr pk a df l t :
  to_sql pk a df = (l, inr t) → insert_rows pk a [] (rows df) = inr t.
Proof. unfold to_sql, lift. by intros [= <- ->]. Qed.

(** C8: the frames that the loader builds for the three dimensions hold one
    row for every restaurant id, for every customer id and for every pair of
    item number and chain; in the tables of a database that has been loaded,
    the restaurant ids are pairwise different, and so are the customer ids
    and the pairs of item number and chain. *)
Theorem dimension_keys_unique df :
  (∀ l d, restaurants_frame df = (l, inr d) →
     NoDup (cell "restaurant_id" <$> rows d)) ∧
  (∀ l d, customers_frame df = (l, inr d) →
     NoDup (cell "customer_id" <$> rows d)) ∧
  (∀ l d, products_frame df = (l, inr d) →
     NoDup ((λ r, (cell "item_number" r, cell "chain" r)) <$> rows d)) ∧
  (∀ l db, load_database df = (l, inr db) →
     NoDup (cell "restaurant_id" <$> restaurants db) ∧
     NoDup (cell "customer_id" <$> customers db) ∧
     NoDup ((λ r, (cell "item_number" r, cell "chain" r)) <$> products db)).
Proof.
  assert (∀ l d, customers_frame df = (l, inr d) →
            NoDup (cell "customer_id" <$> rows d)) as Hcust.
  { intros l d. unfold customers_frame.
    intros (? & s & ? & _ & Hd & ->)%bind_inr.
    by eapply drop_duplicates_one_key. }
  split_and!; [| exact Hcust | |].
  - intros l d. unfold restaurants_frame.
    intros (? & s & ? & _ & H' & ->)%bind_inr.
    apply bind_inr in H' as (? & u & ? & Hd & [= <- <-] & ->).
    apply drop_duplicates_one_key in Hd.
    unfold rename. cbn [rows]. rewrite <- list_fmap_compose.
    erewrite list_fmap_ext; [exact Hd|].
    intros i r _. cbn. unfold rename_key.
    destruct (r !! "restaurant_zip_code"); [|done].
    rewrite cell_insert_ne by done. by rewrite cell_delete_ne.
  - intros l d. unfold products_frame.
    intros (? & s & ? & _ & Hd & ->)%bind_inr.
    by eapply drop_duplicates_two_keys.
  - intros l db. unfold load_database.
    intros (? & o & ? & _ & H' & ->)%bind_inr.
    apply bind_inr in H' as (? & r & ? & _ & H' & ->).
    apply bind_inr in H' as (? & rt & ? & Hr%to_sql_inr & H' & ->).
    apply bind_inr in H' as (? & p & ? & _ & H' & ->).
    apply bind_inr in H' as (? & pt & ? & Hp%to_sql_inr & H' & ->).
    apply bind_inr in H' as (? & c & ? & Hc & H' & ->).
    apply bind_inr in H' as (? & ct & ? & Hct%to_sql_inr & [= <- <-] & ->).
    cbn [restaurants customers products]. split_and!.
    + eapply insert_rows_integer_key; [|exact Hr]. constructor.
    + apply insert_rows_text_key in Hct as ->. by eapply Hcust.
    + apply insert_rows_integer_key in Hp; [|constructor].
      apply (NoDup_fmap_1 fst). by rewrite <- list_fmap_compose.
Qed.

Lemma dimension_keys_unique_witness :
  load_database (merged example_result)
    = ((load_database (merged example_result)).1, inr example_database) ∧
  length (restaurants example_database) = 1%nat ∧
  length (customers example_database) = 5%nat ∧
  length (products example_database) = 4%nat ∧
  NoDup (cell "restaurant_id" <$> restaurants example_database) ∧
  NoDup (cell "customer_id" <$> customers example_database) ∧
  NoDup ((λ r, (cell "item_number" r, cell "chain" r))
           <$> products example_database).
Proof.
  assert (load_database (merged example_result)
    = ((load_database (merged example_result)).1, inr example_database))
    as Hload
    by (unfold example_database; apply returned_result;
        vm_compute; reflexivity).
  split; [exact Hload|].
  split; [vm_compute; reflexivity|].
  split; [vm_compute; reflexivity|].
  split; [vm_compute; reflexivity|].
  destruct (dimension_keys_unique (merged example_result))
    as (_ & _ & _ & Hdb).
  exact (Hdb _ _ Hload).
Defined.

(** The products table has the item number alone as its primary key: when
    the two chains share an item number the load stops with an integrity
    error, although the products frame holds the two rows. *)
Example shared_item_number_stops_the_load :
  let df := Frame ["item_number"; "chain"]
              [ {[ "item_number" := VInt 12; "chain" := VStr "ABC" ]};
                {[ "item_number" := VInt 12; "chain" := VStr "XYZ" ]} ] in
  to_sql "item_number" IntegerKey df
    = ([], inl (IntegrityError "item_number")).
Proof. vm_compute. reflexivity. Qed.

End Properties.

(** * Further properties of the two scripts *)

(** ** Steps that return *)

Module Progress.
Import Pandas Python CleanAndMerge LoadDatabase RowView Conditions.
Import Steps Rows Records.

Lemma bind_returns {A B} (m : M A) (f : A → M B) l1 a l2 b :
  m = (l1, inr a) → f a = (l2, inr b) → m ≫= f = ((l1 ++ l2)%list, inr b).
Proof. intros -> Hf. unfold mbind, M_bind. by rewrite Hf. Qed.




Lemma Forall2_Forall_r {A B} (R : A → B → Prop) (P : A → Prop) (Q : B → Prop)
    l k :
  Forall2 R l k → Forall P l → (∀ x y, R x y → P x → Q y) → Forall Q k.
Proof.
  intros HR HP HQ. induction HR as [|x y l k Hxy _ IH]; [constructor|].
  apply Forall_cons in HP as [Hx HP]. constructor; eauto.
Qed.




(** *** The assignments, as steps from a condition on the rows to another *)





End Progress.

(** ** The cleaning script returns *)

Module Returns.
Import Pandas Python CleanAndMerge LoadDatabase Examples RowView Conditions.
Import Steps Rows Records Properties Progress.





Section WithParsers.
Context `{Parsers}.







End WithParsers.

End Returns.

(** ** The run of the cleaning script *)

Module Run.
Import Pandas Python CleanAndMerge LoadDatabase Examples RowView Conditions.
Import Steps Rows Records Properties Progress Returns.



Section WithParsers.
Context `{Parsers}.







End WithParsers.






End Run.

(** ** What the cleaning script needs, and how it stops *)

Module Stops.
Import Pandas Python CleanAndMerge LoadDatabase Examples RowView Conditions.
Import Cases.
Import Steps Rows Records Properties Progress Returns Run.



Section WithParsers.
Context `{Parsers}.








End WithParsers.




End Stops.

(** ** The records of the merged data set *)

Module Merged.
Import Pandas Python CleanAndMerge LoadDatabase Examples RowView Conditions.
Import Steps Rows Records Properties Progress Returns Run.

Lemma length_filter_all {A} (P : A → Prop) `{∀ x, Decision (P x)} l :
  Forall P l → length (filter P l) = length l.
Proof.
  induction 1 as [|x l Hx _ IH]; [done|].
  rewrite filter_cons, decide_True by done. simpl. by rewrite IH.
Qed.

Lemma length_filter_none {A} (P : A → Prop) `{∀ x, Decision (P x)} l :
  Forall (λ x, ¬ P x) l → length (filter P l) = 0%nat.
Proof.
  induction 1 as [|x l Hx _ IH]; [done|].
  by rewrite filter_cons, decide_False.
Qed.

Lemma length_filter_iff {A} (P Q : A → Prop)
    `{∀ x, Decision (P x)} `{∀ x, Decision (Q x)} l :
  Forall (λ x, P x ↔ Q x) l → length (filter P l) = length (filter Q l).
Proof.
  induction 1 as [|x l Hx _ IH]; [done|].
  rewrite !filter_cons.
  destruct (decide (P x)) as [HP|HP], (decide (Q x)) as [HQ|HQ];
    simpl; rewrite ?IH; tauto.
Qed.

Lemma unify_log abc xyz l res :
  unify abc xyz = (l, inr res) →
  l = [LogMerged (length (rows (merged res))) (length shared_cols)
         (count_chain "ABC" (merged res)) (count_chain "XYZ" (merged res))].
Proof.
  intros Hu. destruct (unify_inr _ _ _ _ Hu) as (Ha & Hx & ->).
  unfold unify in Hu.
  rewrite (bind_pure _ _ _ (select_ok _ _ Ha)) in Hu.
  rewrite (bind_pure _ _ _ (select_ok _ _ Hx)) in Hu.
  unfold concat in Hu. cbn [columns rows] in Hu.
  rewrite shared_cols_missing_self, app_nil_r in Hu.
  assert ("chain" ∈ shared_cols) as Hc by (unfold shared_cols; in_list).
  rewrite (bind_pure _ _ _ (getitem_ok (Frame shared_cols _) _ Hc)) in Hu.
  apply bind_inr in Hu as (? & [] & ? & [= <-] & [= <-] & ->).
  reflexivity.
Qed.

Section WithParsers.
Context `{Parsers}.

(** The four parts of a run that returns *)
Lemma pipeline_steps abc_raw xyz_raw l res :
  pipeline abc_raw xyz_raw = (l, inr res) →
  ∃ la a lx xc lv,
    clean_abc (setitem_scalar abc_raw "chain" (VStr "ABC")) = (la, inr a) ∧
    clean_xyz (setitem_scalar xyz_raw "chain" (VStr "XYZ")) = (lx, inr xc) ∧
    validate (merged res) = (lv, inr tt) ∧
    l = (la ++ lx ++
         LogMerged (length (rows (merged res))) (length shared_cols)
           (count_chain "ABC" (merged res)) (count_chain "XYZ" (merged res))
         :: lv)%list.
Proof.
  unfold pipeline. cbv zeta.
  intros (la & a & ? & Ea & H' & ->)%bind_inr.
  apply bind_inr in H' as (lx & xc & ? & Ex & H' & ->).
  apply bind_inr in H' as (lu & r & ? & Eu & H' & ->).
  apply bind_inr in H' as (lv & [] & ? & Ev & [= <- <-] & ->).
  apply unify_log in Eu as ->.
  exists la, a, lx, xc, lv. split_and!; [done..|].
  by rewrite app_nil_r.
Qed.

Lemma merged_chains abc_raw xyz_raw l res :
  pipeline abc_raw xyz_raw = (l, inr res) →
  Forall (λ r, cell "chain" r = VStr "ABC") (rows (abc_clean res)) ∧
  Forall (λ r, cell "chain" r = VStr "XYZ") (rows (xyz_clean res)).
Proof.
  intros (Ha & Hx & _)%pipeline_inr. split.
  - eapply (Forall2_Forall_r _ (λ _, True)); [exact Ha| |].
    + by apply Forall_forall.
    + intros r r' Hrec%abc_record_cells _. by destruct Hrec as [? _].
  - eapply (Forall2_Forall_r _ (λ _, True)); [exact Hx| |].
    + by apply Forall_forall.
    + intros r r' Hrec%xyz_record_cells _. by destruct Hrec as [? _].
Qed.

Lemma merged_chain_counts abc_raw xyz_raw l res :
  pipeline abc_raw xyz_raw = (l, inr res) →
  count_chain "ABC" (merged res) = length (rows abc_raw) ∧
  count_chain "XYZ" (merged res) = length (rows xyz_raw).
Proof.
  intros Hrun.
  destruct (merged_chains _ _ _ _ Hrun) as [Ca Cx].
  destruct (pipeline_conserves_rows _ _ _ _ Hrun) as (La & Lx & Lm).
  destruct (pipeline_inr _ _ _ _ Hrun) as (_ & _ & Hm & _).
  unfold count_chain. rewrite Hm, !filter_app, !length_app. split.
  - rewrite (length_filter_all _ _ Ca), length_filter_none, La; [lia|].
    eapply Forall_impl; [exact Cx|]. intros r ->. discriminate.
  - rewrite (length_filter_all _ _ Cx), length_filter_none, Lx; [lia|].
    eapply Forall_impl; [exact Ca|]. intros r ->. discriminate.
Qed.

(** X5: the records of ABC carry the chain ABC and those of XYZ the chain
    XYZ, whatever the raw frames held in a column of that name; the merged
    data set counts as many records of each chain as the raw frame of the
    chain has rows, and the log line of the merge reports these numbers and
    the 28 shared columns. *)
Theorem merged_chain_blocks abc_raw xyz_raw l res :
  pipeline abc_raw xyz_raw = (l, inr res) →
  Forall (λ r, cell "chain" r = VStr "ABC") (rows (abc_clean res)) ∧
  Forall (λ r, cell "chain" r = VStr "XYZ") (rows (xyz_clean res)) ∧
  count_chain "ABC" (merged res) = length (rows abc_raw) ∧
  count_chain "XYZ" (merged res) = length (rows xyz_raw) ∧
  LogMerged (length (rows abc_raw) + length (rows xyz_raw)) 28
            (length (rows abc_raw)) (length (rows xyz_raw)) ∈ l.
Proof.
  intros Hrun.
  destruct (merged_chains _ _ _ _ Hrun) as [Ca Cx].
  destruct (pipeline_conserves_rows _ _ _ _ Hrun) as (La & Lx & Lm).
  destruct (merged_chain_counts _ _ _ _ Hrun) as [Na Nx].
  split_and!; [done..|].
  destruct (pipeline_steps _ _ _ _ Hrun) as (la & a & lx & xc & lv & _ & _ & _ & ->).
  rewrite Na, Nx, Lm.
  apply elem_of_app. right. apply elem_of_app. right. left.
Qed.

(** A column that the cleaning does not write reads in the normalized row
    as in the raw one. *)
Lemma abc_row_untouched dates (r n : row) c :
  abc_row dates r n → c ∈ untouched_columns → cell c n = cell c r.
Proof.
  intros (r1 & -> & r2 & r3 & r4 & r5 & Hd & (v & _ & ->) & -> & -> & Hn) Hc.
  destruct Hn as (flag & o & season & _ & _ & _ & ->).
  unfold repair_dates_row in Hd. cbv zeta in Hd. subst r2.
  unfold untouched_columns in Hc.
  repeat (apply elem_of_cons in Hc as [->|Hc];
          [destruct (year_is _ _); by cells|]).
  by apply elem_of_nil in Hc.
Qed.

Lemma xyz_row_untouched dates (r n : row) c :
  xyz_row dates r n → c ∈ "order_number" :: untouched_columns →
  cell c n = cell c r.
Proof.
  intros (r1 & -> & r3 & r4 & r5 & -> & -> & -> & Hn) Hc.
  destruct Hn as (flag & o & season & _ & _ & _ & ->).
  unfold untouched_columns in Hc.
  repeat (apply elem_of_cons in Hc as [->|Hc]; [by cells|]).
  by apply elem_of_nil in Hc.
Qed.

Lemma untouched_shared : untouched_columns ⊆ shared_cols.
Proof. by_compute. Qed.

(** X6: the fourteen shared columns that no step writes hold in every
    record of the merged data set the cell of the raw row the record comes
    from, and a record has no cell outside the shared columns. *)
Theorem untouched_columns_pass_through abc_raw xyz_raw l res :
  pipeline abc_raw xyz_raw = (l, inr res) →
  Forall2 (λ r r', (∀ c, c ∈ untouched_columns → cell c r' = cell c r) ∧
                   (∀ c, c ∉ shared_cols → r' !! c = None))
          (rows abc_raw ++ rows xyz_raw)%list (rows (merged res)).
Proof.
  intros (Ha & Hx & -> & _)%pipeline_inr. apply Forall2_app.
  - eapply Forall2_impl; [exact Ha|]. intros r r' (n & Hn & ->). split.
    + intros c Hc. rewrite cell_restrict by by apply untouched_shared.
      by eapply abc_row_untouched.
    + intros c Hc. by apply restrict_outside.
  - eapply Forall2_impl; [exact Hx|]. intros r r' (n & Hn & ->). split.
    + intros c Hc. rewrite cell_restrict by by apply untouched_shared.
      eapply xyz_row_untouched; [done|by right].
    + intros c Hc. by apply restrict_outside.
Qed.

(** X7: the order number of a record of ABC is missing or an integer of
    64 bits, the raw order number read as a number: missing where the raw
    cell reads as missing, and the integer that the raw cell reads as; XYZ is
    not cast, and a record of XYZ keeps the raw cell as it is. *)
Theorem order_number_cast_in_abc_only abc_raw xyz_raw l res :
  pipeline abc_raw xyz_raw = (l, inr res) →
  Forall2 (λ r r',
             (cell "order_number" r' = NA ∧
              to_numeric (cell "order_number" r) = NA) ∨
             (∃ z, cell "order_number" r' = VInt z ∧
                   to_numeric (cell "order_number" r) = VInt z ∧
                   (- 2 ^ 63 ≤ z < 2 ^ 63)%Z))
          (rows abc_raw) (rows (abc_clean res)) ∧
  Forall2 (λ r r', cell "order_number" r' = cell "order_number" r)
          (rows xyz_raw) (rows (xyz_clean res)).
Proof.
  assert ("order_number" ∈ shared_cols) as Hs
    by (unfold shared_cols; in_list).
  intros (Ha & Hx & _)%pipeline_inr. split.
  - eapply Forall2_impl; [exact Ha|]. intros r r' (n & Hn & ->).
    rewrite cell_restrict by done.
    destruct Hn
      as (r1 & -> & r2 & r3 & r4 & r5 & Hd & (v & Hv & ->) & -> & -> & Hn).
    destruct Hn as (flag & o & season & _ & _ & _ & ->).
    unfold repair_dates_row in Hd. cbv zeta in Hd. subst r2. cells.
    assert (astype_Int64 (to_numeric (cell "order_number" r)) = inr v)
      as Hcast by (destruct (year_is _ _); by cells_in Hv).
    unfold astype_Int64 in Hcast.
    destruct (to_numeric (cell "order_number" r)) as [|s|z|q|t];
      try discriminate.
    + injection Hcast as <-. by left.
    + case_decide as Hz; [|discriminate]. injection Hcast as <-.
      right. by exists z.
  - eapply Forall2_impl; [exact Hx|]. intros r r' (n & Hn & ->).
    rewrite cell_restrict by done.
    eapply xyz_row_untouched; [done|left].
Qed.

(** X8: in every record of the merged data set the month, the name of the
    month, the year and the season are those of the purchase date of the
    record. *)
Theorem calendar_follows_date abc_raw xyz_raw l res r' t :
  pipeline abc_raw xyz_raw = (l, inr res) →
  r' ∈ rows (merged res) →
  cell "order_purchase_date" r' = VDate t →
  cell "order_month" r' = VInt (month_number (ts_month t)) ∧
  cell "order_month_name" r' = VStr (month_name (ts_month t)) ∧
  cell "order_year" r' = VInt (ts_year t) ∧
  cell "season" r' = season_of (Some t).
Proof.
  intros Hrun Hr Hdate.
  destruct (merged_record_cells _ _ _ _ _ Hrun Hr)
    as (chain & m & o & r & _ & Hn).
  destruct Hn as (_ & Hd & Hm & Hname & Hy & Hs & _).
  rewrite Hd in Hdate. destruct o as [t'|]; [|discriminate].
  injection Hdate as ->. by rewrite Hm, Hname, Hy, Hs.
Qed.

(** X9: the month, the name of the month, the year and the season are
    missing in exactly the records whose purchase date is missing, so the
    five columns have the same number of nulls in the merged data set. *)
Theorem calendar_null_counts_agree abc_raw xyz_raw l res :
  pipeline abc_raw xyz_raw = (l, inr res) →
  Forall (λ r', cell "order_purchase_date" r' = NA ↔
                cell "season" r' = NA) (rows (merged res)) ∧
  count_nulls "order_month" (merged res)
    = count_nulls "order_purchase_date" (merged res) ∧
  count_nulls "order_month_name" (merged res)
    = count_nulls "order_purchase_date" (merged res) ∧
  count_nulls "order_year" (merged res)
    = count_nulls "order_purchase_date" (merged res) ∧
  count_nulls "season" (merged res)
    = count_nulls "order_purchase_date" (merged res).
Proof.
  intros Hrun.
  assert (Forall (λ r', ∃ o,
            cell "order_purchase_date" r' = of_timestamp o ∧
            cell "order_month" r' = dt_month o ∧
            cell "order_month_name" r' = dt_strftime_B o ∧
            cell "order_year" r' = dt_year o ∧
            cell "season" r' = season_of o) (rows (merged res))) as Hall.
  { apply Forall_forall. intros r' Hr.
    destruct (merged_record_cells _ _ _ _ _ Hrun Hr)
      as (chain & m & o & r & _ & Hn).
    destruct Hn as (_ & Hd & Hm & Hname & Hy & Hs & _). by exists o. }
  unfold count_nulls. split_and!.
  - eapply Forall_impl; [exact Hall|].
    intros r' (o & -> & _ & _ & _ & ->). by destruct o.
  - apply length_filter_iff. eapply Forall_impl; [exact Hall|].
    intros r' (o & -> & -> & _). by destruct o.
  - apply length_filter_iff. eapply Forall_impl; [exact Hall|].
    intros r' (o & -> & _ & -> & _). by destruct o.
  - apply length_filter_iff. eapply Forall_impl; [exact Hall|].
    intros r' (o & -> & _ & _ & -> & _). by destruct o.
  - apply length_filter_iff. eapply Forall_impl; [exact Hall|].
    intros r' (o & -> & _ & _ & _ & ->). by destruct o.
Qed.

End WithParsers.

Lemma merged_chain_blocks_witness :
  pipeline abc_example xyz_example = (example_run.1, inr example_result) ∧
  count_chain "ABC" (merged example_result) = 3%nat ∧
  count_chain "XYZ" (merged example_result) = 2%nat ∧
  LogMerged 5 28 3 2 ∈ example_run.1.
Proof.
  destruct (merged_chain_blocks abc_example xyz_example example_run.1
              example_result example_run_returned)
    as (_ & _ & Na & Nx & Hlog).
  split; [exact example_run_returned|]. split; [exact Na|].
  split; [exact Nx|exact Hlog].
Defined.

Lemma untouched_columns_pass_through_witness :
  cell "Profit" (nth_row 3 (merged example_result))
    = cell "Profit" (nth_row 3 example_raw) ∧
  cell "Profit" (nth_row 3 example_raw) = VFloat (7 # 2) ∧
  cell "item_product_cost" (nth_row 0 xyz_example) = VFloat (5 # 2) ∧
  nth_row 3 (merged example_result) !! "item_product_cost" = None.
Proof.
  pose proof (untouched_columns_pass_through abc_example xyz_example
                example_run.1 example_result example_run_returned) as Hall.
  destruct (Forall2_lookup_lr _ _ _ 3 (nth_row 3 example_raw)
              (nth_row 3 (merged example_result)) Hall) as [Hcell Hout].
  - apply (nth_row_lookup 3 example_raw). vm_compute. reflexivity.
  - apply nth_row_lookup. vm_compute. reflexivity.
  - split; [apply Hcell; unfold untouched_columns; in_list|].
    split; [vm_compute; reflexivity|].
    split; [vm_compute; reflexivity|].
    apply Hout. by_compute.
Defined.

Lemma order_number_cast_in_abc_only_witness :
  cell "order_number" (nth_row 0 abc_example) = VStr "1001" ∧
  cell "order_number" (nth_row 0 (abc_clean example_result)) = VInt 1001 ∧
  cell "order_number" (nth_row 0 (xyz_clean example_result))
    = cell "order_number" (nth_row 0 xyz_example).
Proof.
  destruct (order_number_cast_in_abc_only abc_example xyz_example
              example_run.1 example_result example_run_returned)
    as [Ha Hx].
  split; [vm_compute; reflexivity|]. split.
  - assert (to_numeric (cell "order_number" (nth_row 0 abc_example))
            = VInt 1001) as Hnum by (vm_compute; reflexivity).
    destruct (Forall2_lookup_lr _ _ _ 0%nat (nth_row 0 abc_example)
                (nth_row 0 (abc_clean example_result)) Ha)
      as [[_ Hna]|(z & Hcell & Hz & _)].
    + apply nth_row_lookup. vm_compute. reflexivity.
    + apply nth_row_lookup. vm_compute. reflexivity.
    + rewrite Hnum in Hna. discriminate Hna.
    + rewrite Hnum in Hz.
      exact (eq_trans Hcell
               (f_equal VInt
                  (eq_sym (f_equal (λ v, match v with VInt k => k | _ => 0 end)
                             Hz)))).
  - apply (Forall2_lookup_lr _ _ _ 0%nat _ _ Hx).
    + apply nth_row_lookup. vm_compute. reflexivity.
    + apply nth_row_lookup. vm_compute. reflexivity.
Defined.

Lemma calendar_follows_date_witness :
  cell "order_purchase_date" (nth_row 1 (merged example_result))
    = VDate (Timestamp 2023 March 4) ∧
  cell "order_month" (nth_row 1 (merged example_result)) = VInt 3 ∧
  cell "order_month_name" (nth_row 1 (merged example_result)) = VStr "March" ∧
  cell "order_year" (nth_row 1 (merged example_result)) = VInt 2023 ∧
  cell "season" (nth_row 1 (merged example_result)) = VStr "Spring".
Proof.
  assert (cell "order_purchase_date" (nth_row 1 (merged example_result))
          = VDate (Timestamp 2023 March 4)) as Hdate
    by (vm_compute; reflexivity).
  destruct (calendar_follows_date abc_example xyz_example example_run.1
              example_result (nth_row 1 (merged example_result))
              (Timestamp 2023 March 4) example_run_returned)
    as (Hm & Hn & Hy & Hs).
  - apply nth_row_elem. vm_compute. reflexivity.
  - exact Hdate.
  - split; [exact Hdate|]. split; [exact Hm|]. split; [exact Hn|].
    split; [exact Hy|exact Hs].
Defined.

Lemma calendar_null_counts_agree_witness :
  count_nulls "order_purchase_date" (merged example_result) = 1%nat ∧
  count_nulls "order_month" (merged example_result)
    = count_nulls "order_purchase_date" (merged example_result) ∧
  count_nulls "season" (merged example_result)
    = count_nulls "order_purchase_date" (merged example_result).
Proof.
  destruct (calendar_null_counts_agree abc_example xyz_example example_run.1
              example_result example_run_returned)
    as (_ & Hm & _ & _ & Hs).
  split; [vm_compute; reflexivity|]. split; [exact Hm|exact Hs].
Defined.

End Merged.

(** ** The dimension frames of the loader *)

Module Dimensions.
Import Pandas Python CleanAndMerge LoadDatabase Examples RowView Conditions.
Import Cases.
Import Steps Rows Records Properties Progress Merged.

Lemma first_of_each_sublist keys seen rs :
  sublist (first_of_each keys seen rs) rs.
Proof.
  revert seen. induction rs as [|r rs IH]; intros seen; simpl; [done|].
  case_decide.
  - apply sublist_cons, IH.
  - apply sublist_skip, IH.
Qed.

Lemma first_of_each_covers keys seen rs r :
  r ∈ rs →
  key_of keys r ∈ seen ∨
  ∃ r', r' ∈ first_of_each keys seen rs ∧ key_of keys r' = key_of keys r.
Proof.
  revert seen. induction rs as [|r0 rs IH]; intros seen; simpl.
  - by intros ?%elem_of_nil.
  - intros [->|Hr]%elem_of_cons.
    + case_decide; [by left|]. right. exists r0. split; [left|done].
    + case_decide as Hseen.
      * by apply IH.
      * destruct (IH (key_of keys r0 :: seen) Hr)
          as [[Heq|Hin]%elem_of_cons|(r' & Hr' & Hk)].
        -- right. exists r0. split; [left|done].
        -- by left.
        -- right. exists r'. split; [by right|done].
Qed.

Lemma first_of_each_first keys seen rs r' :
  r' ∈ first_of_each keys seen rs →
  ∃ pre post, rs = (pre ++ r' :: post)%list ∧
    (key_of keys r' ∉ key_of keys <$> pre) ∧ key_of keys r' ∉ seen.
Proof.
  revert seen. induction rs as [|r rs IH]; intros seen; simpl.
  - by intros ?%elem_of_nil.
  - case_decide as Hseen.
    + intros (pre & post & -> & Hpre & Hout)%IH.
      exists (r :: pre), post. split; [done|]. split; [|done].
      rewrite fmap_cons. intros [Heq|Hin]%elem_of_cons; [|done].
      apply Hout. by rewrite Heq.
    + intros [->|Hr']%elem_of_cons.
      * exists [], rs. split; [done|]. split; [|done].
        by intros ?%elem_of_nil.
      * apply IH in Hr' as (pre & post & -> & Hpre & Hout).
        exists (r :: pre), post. split; [done|].
        apply not_elem_of_cons in Hout as [Hne Hout]. split; [|done].
        rewrite fmap_cons. by intros [Heq|Hin]%elem_of_cons.
Qed.

(** X12: [drop_duplicates] logs nothing and keeps the columns; the rows it
    keeps are rows of the frame, in their order; every row of the frame has
    its key on a row that is kept; and a row that is kept is the first row of
    the frame with its key. *)
Theorem drop_duplicates_keeps_first df keys l d :
  drop_duplicates df keys = (l, inr d) →
  l = [] ∧ columns d = columns df ∧ sublist (rows d) (rows df) ∧
  (∀ r, r ∈ rows df →
     ∃ r', r' ∈ rows d ∧ key_of keys r' = key_of keys r) ∧
  (∀ r', r' ∈ rows d →
     ∃ pre post, rows df = (pre ++ r' :: post)%list ∧
       key_of keys r' ∉ key_of keys <$> pre).
Proof.
  intros [-> ->]%drop_duplicates_inr. cbn [rows columns].
  split_and!; [done|done|apply first_of_each_sublist| |].
  - intros r Hr.
    by destruct (first_of_each_covers keys [] _ _ Hr) as [?%elem_of_nil|?].
  - intros r' (pre & post & Heq & Hpre & _)%first_of_each_first.
    by exists pre, post.
Qed.

Lemma drop_duplicates_keeps_first_witness :
  ∃ d,
    drop_duplicates (merged example_result) ["restaurant_id"] = ([], inr d) ∧
    length (rows d) = 1%nat ∧
    ∃ r', r' ∈ rows d ∧
      key_of ["restaurant_id"] r'
        = key_of ["restaurant_id"] (nth_row 4 (merged example_result)).
Proof.
  set (m := drop_duplicates (merged example_result) ["restaurant_id"]).
  assert (m = (m.1, inr (result_of (merged example_result) m))) as Hrun
    by (apply returned_result; vm_compute; reflexivity).
  destruct (drop_duplicates_keeps_first _ _ _ _ Hrun)
    as (Hl & _ & _ & Hcover & _).
  exists (result_of (merged example_result) m). split; [|split].
  - rewrite Hrun at 1. by rewrite Hl.
  - vm_compute. reflexivity.
  - apply Hcover, nth_row_elem. vm_compute. reflexivity.
Defined.

Lemma select_rows df cols l d :
  select df cols = (l, inr d) →
  l = [] ∧ cols ⊆ columns df ∧ columns d = cols ∧
  rows d = restrict cols <$> rows df.
Proof. by intros (-> & Hsub & ->)%select_inr. Qed.

(** The rows of a frame that is a selection without its duplicates *)
Lemma deduplicated_selection df cols keys l d :
  (s ← select df cols; drop_duplicates s keys) = (l, inr d) →
  keys ⊆ cols →
  l = [] ∧ cols ⊆ columns df ∧
  rows d = first_of_each keys [] (restrict cols <$> rows df) ∧
  (∀ r, r ∈ rows df →
     ∃ r', r' ∈ rows d ∧ key_of keys r' = key_of keys r) ∧
  (∀ r', r' ∈ rows d → ∃ r, r ∈ rows df ∧ r' = restrict cols r).
Proof.
  intros (? & s & ? & (-> & Hsub & Hcols & Hrows)%select_rows & Hd & ->)%bind_inr
    Hkeys.
  apply drop_duplicates_inr in Hd as [-> ->]. cbn [rows].
  rewrite Hrows. split_and!; [done|done|done| |].
  - intros r Hr.
    assert (restrict cols r ∈ restrict cols <$> rows df) as Hin
      by (apply list_elem_of_fmap; by exists r).
    destruct (first_of_each_covers keys [] _ _ Hin)
      as [?%elem_of_nil|(r' & Hr' & Hk)]; [done|].
    exists r'. split; [done|]. rewrite Hk. unfold key_of.
    apply list_fmap_ext. intros i c Hc. apply cell_restrict, Hkeys.
    by eapply list_elem_of_lookup_2.
  - intros r' Hr'.
    pose proof (elem_of_sublist _ _ _ Hr' (first_of_each_sublist keys [] _))
      as (r & -> & Hr)%list_elem_of_fmap.
    by exists r.
Qed.

(** X13: every restaurant of the frame has a row in the restaurants frame,
    every customer a row in the customers frame, and every pair of item
    number and chain a row in the products frame; a row of a dimension frame
    holds the cells of a row of the frame, the zip code under its new
    name. *)
Theorem dimension_frames_complete df :
  (∀ l d, restaurants_frame df = (l, inr d) →
     (∀ r, r ∈ rows df →
        ∃ r', r' ∈ rows d ∧ cell "restaurant_id" r' = cell "restaurant_id" r) ∧
     (∀ r', r' ∈ rows d → ∃ r, r ∈ rows df ∧
        cell "restaurant_id" r' = cell "restaurant_id" r ∧
        cell "restaurant_city" r' = cell "restaurant_city" r ∧
        cell "restaurant_state" r' = cell "restaurant_state" r ∧
        cell "chain" r' = cell "chain" r ∧
        cell "restaurant_zip" r' = cell "restaurant_zip_code" r ∧
        r' !! "restaurant_zip_code" = None)) ∧
  (∀ l d, customers_frame df = (l, inr d) →
     (∀ r, r ∈ rows df →
        ∃ r', r' ∈ rows d ∧ cell "customer_id" r' = cell "customer_id" r) ∧
     (∀ r', r' ∈ rows d → ∃ r, r ∈ rows df ∧
        ∀ c, c ∈ customer_columns → cell c r' = cell c r)) ∧
  (∀ l d, products_frame df = (l, inr d) →
     (∀ r, r ∈ rows df →
        ∃ r', r' ∈ rows d ∧ cell "item_number" r' = cell "item_number" r ∧
              cell "chain" r' = cell "chain" r) ∧
     (∀ r', r' ∈ rows d → ∃ r, r ∈ rows df ∧
        ∀ c, c ∈ product_columns → cell c r' = cell c r)).
Proof.
  split_and!.
  - intros l d. unfold restaurants_frame.
    intros (l1 & s & ? & Hs & Hd & ->)%bind_inr.
    apply bind_inr in Hd as (l2 & u & ? & Hu & [= <- <-] & ->).
    assert ((s ← select df restaurant_columns;
             drop_duplicates s ["restaurant_id"]) = ((l1 ++ l2)%list, inr u))
      as Hsel by (eapply bind_returns; [exact Hs|exact Hu]).
    apply deduplicated_selection in Hsel as (_ & _ & _ & Hcover & Hfrom);
      [|by_compute].
    assert (∀ r : row, r !! "restaurant_zip" = None →
              cell "restaurant_zip" (rename_key "restaurant_zip_code"
                                       "restaurant_zip" r)
                = cell "restaurant_zip_code" r ∧
              rename_key "restaurant_zip_code" "restaurant_zip" r
                !! "restaurant_zip_code" = None ∧
              ∀ c, c ≠ "restaurant_zip" → c ≠ "restaurant_zip_code" →
                   cell c (rename_key "restaurant_zip_code"
                             "restaurant_zip" r) = cell c r) as Hren.
    { intros r Hnew. unfold rename_key, cell.
      destruct (r !! "restaurant_zip_code") as [v|] eqn:Hold.
      - rewrite lookup_insert_eq, lookup_insert_ne, lookup_delete_eq by done.
        split_and!; [done..|]. intros c Hc1 Hc2.
        by rewrite lookup_insert_ne, lookup_delete_ne.
      - by rewrite Hnew, Hold. }
    cbn [rename rows]. split.
    + intros r Hr. destruct (Hcover r Hr) as (r' & Hr' & [= Hk]).
      exists (rename_key "restaurant_zip_code" "restaurant_zip" r').
      split; [apply list_elem_of_fmap; by exists r'|].
      destruct (Hfrom r' Hr') as (r0 & _ & ->).
      destruct (Hren (restrict restaurant_columns r0)) as (_ & _ & Hsame).
      { apply restrict_outside. by_compute. }
      by rewrite Hsame.
    + intros r'' (r' & -> & Hr')%list_elem_of_fmap.
      destruct (Hfrom r' Hr') as (r0 & Hr0 & ->). exists r0.
      destruct (Hren (restrict restaurant_columns r0))
        as (Hzip & Hgone & Hsame).
      { apply restrict_outside. by_compute. }
      split; [done|]. rewrite !Hsame, Hzip by done.
      rewrite !cell_restrict by (unfold restaurant_columns; in_list).
      done.
  - intros l d Hd. unfold customers_frame in Hd.
    apply deduplicated_selection in Hd as (_ & _ & _ & Hcover & Hfrom);
      [|by_compute].
    split.
    + intros r Hr. destruct (Hcover r Hr) as (r' & Hr' & [= Hk]). by exists r'.
    + intros r' Hr'. destruct (Hfrom r' Hr') as (r & Hr & ->). exists r.
      split; [done|]. intros c Hc. by apply cell_restrict.
  - intros l d Hd. unfold products_frame in Hd.
    apply deduplicated_selection in Hd as (_ & _ & _ & Hcover & Hfrom);
      [|by_compute].
    split.
    + intros r Hr. destruct (Hcover r Hr) as (r' & Hr' & [= Hk1 Hk2]).
      by exists r'.
    + intros r' Hr'. destruct (Hfrom r' Hr') as (r & Hr & ->). exists r.
      split; [done|]. intros c Hc. by apply cell_restrict.
Qed.

Lemma dimension_frames_complete_witness :
  ∃ d,
    products_frame (merged example_result) = ([], inr d) ∧
    ∃ r', r' ∈ rows d ∧
      cell "item_number" r'
        = cell "item_number" (nth_row 1 (merged example_result)) ∧
      cell "chain" r' = cell "chain" (nth_row 1 (merged example_result)).
Proof.
  set (m := products_frame (merged example_result)).
  assert (m = (m.1, inr (result_of (merged example_result) m))) as Hrun
    by (apply returned_result; vm_compute; reflexivity).
  assert (m.1 = []) as Hl by (vm_compute; reflexivity).
  destruct (dimension_frames_complete (merged example_result))
    as (_ & _ & Hprod).
  destruct (Hprod _ _ Hrun) as [Hcover _].
  exists (result_of (merged example_result) m). split.
  - rewrite Hrun at 1. by rewrite Hl.
  - apply Hcover, nth_row_elem. vm_compute. reflexivity.
Defined.

End Dimensions.

(** ** The load of the tables *)

Module Loading.
Import Pandas Python CleanAndMerge LoadDatabase Examples RowView Conditions.
Import Cases.
Import Steps Rows Records Properties Progress Merged Dimensions.

Lemma insert_rows_integer_fresh pk tbl rs :
  Forall (integer_cell pk) rs → NoDup (cell pk <$> (tbl ++ rs)%list) →
  insert_rows pk IntegerKey tbl rs = inr (tbl ++ rs)%list.
Proof.
  revert tbl. induction rs as [|r rs IH]; intros tbl Hint Hnd;
    cbn [insert_rows].
  - by rewrite app_nil_r.
  - apply Forall_cons in Hint as [[z Hz] Hint].
    assert ((tbl ++ r :: rs) = ((tbl ++ [r]) ++ rs))%list as Happ
      by by rewrite <- app_assoc.
    unfold insert_row. rewrite Hz. rewrite decide_False.
    + rewrite Happ. apply IH; [done|]. by rewrite <- Happ.
    + rewrite fmap_app, fmap_cons in Hnd.
      apply NoDup_app in Hnd as (_ & Hdisj & _).
      intros Hin. apply (Hdisj _ Hin). rewrite Hz. left.
Qed.

Lemma insert_rows_integer_conflict pk tbl rs :
  NoDup (cell pk <$> tbl) → Forall (integer_cell pk) rs →
  ¬ NoDup (cell pk <$> (tbl ++ rs)%list) →
  insert_rows pk IntegerKey tbl rs = inl (IntegrityError pk).
Proof.
  revert tbl. induction rs as [|r rs IH]; intros tbl Htbl Hint Hnd;
    cbn [insert_rows].
  - destruct Hnd. by rewrite app_nil_r.
  - apply Forall_cons in Hint as [[z Hz] Hint].
    assert ((tbl ++ r :: rs) = ((tbl ++ [r]) ++ rs))%list as Happ
      by by rewrite <- app_assoc.
    unfold insert_row. rewrite Hz. case_decide as Hin; [done|].
    apply IH; [|done|by rewrite <- Happ].
    rewrite fmap_app. apply NoDup_app. split; [done|].
    split; [|apply NoDup_singleton].
    intros v Hv [->|[]%elem_of_nil]%elem_of_cons. by rewrite Hz in Hv.
Qed.

Lemma insert_rows_text_fresh pk tbl rs :
  NoDup (cell pk <$> (tbl ++ rs)%list) →
  insert_rows pk TextKey tbl rs = inr (tbl ++ rs)%list.
Proof.
  revert tbl. induction rs as [|r rs IH]; intros tbl Hnd; cbn [insert_rows].
  - by rewrite app_nil_r.
  - assert ((tbl ++ r :: rs) = ((tbl ++ [r]) ++ rs))%list as Happ
      by by rewrite <- app_assoc.
    assert (insert_row pk TextKey tbl r = inr (tbl ++ [r])%list) as ->.
    { assert (cell pk r ∉ cell pk <$> tbl) as Hout.
      { rewrite fmap_app, fmap_cons in Hnd.
        apply NoDup_app in Hnd as (_ & Hdisj & _).
        intros Hin. apply (Hdisj _ Hin). left. }
      unfold insert_row. destruct (cell pk r); try done;
        by rewrite decide_False. }
    rewrite Happ. apply IH. by rewrite <- Happ.
Qed.

Lemma insert_rows_error pk a tbl rs e :
  insert_rows pk a tbl rs = inl e →
  e = IntegrityError pk ∨ e = DatatypeMismatch.
Proof.
  revert tbl. induction rs as [|r rs IH]; intros tbl; cbn [insert_rows];
    [done|].
  destruct (insert_row pk a tbl r) as [e'|t] eqn:Hrow.
  - intros [= <-]. unfold insert_row in Hrow.
    destruct a, (cell pk r); try case_decide; simplify_eq; auto.
  - apply IH.
Qed.

(** Two keys on the rows of a list, one finer than the other *)
Lemma NoDup_coarser {A B C} (f : A → B) (g : A → C) (l : list A) :
  NoDup (g <$> l) →
  (∀ x y, x ∈ l → y ∈ l → f x = f y → g x = g y) →
  NoDup (f <$> l).
Proof.
  induction l as [|x l IH]; [constructor|].
  rewrite !fmap_cons. intros [Hx Hnd]%NoDup_cons Hfg. apply NoDup_cons. split.
  - intros (y & Hxy & Hy)%list_elem_of_fmap. apply Hx.
    apply list_elem_of_fmap. exists y. split; [|done].
    apply Hfg; [left|by right|done].
  - apply IH; [done|]. intros y z Hy Hz. apply Hfg; by right.
Qed.

Lemma first_of_each_one_key c (rs : list row) :
  NoDup (cell c <$> first_of_each [c] [] rs).
Proof.
  destruct (first_of_each_keys [c] [] rs) as [Hnd _].
  apply (NoDup_fmap_1 (λ v, [v])). by rewrite <- list_fmap_compose.
Qed.

Lemma to_sql_returns pk a d t :
  insert_rows pk a [] (rows d) = inr t → to_sql pk a d = ([], inr t).
Proof. unfold to_sql, lift. by intros ->. Qed.

Lemma to_sql_raises pk a d e :
  insert_rows pk a [] (rows d) = inl e → to_sql pk a d = ([], inl e).
Proof. unfold to_sql, lift. by intros ->. Qed.

Lemma dimension_frame_returns df cols keys :
  cols ⊆ columns df → keys ⊆ cols →
  (s ← select df cols; drop_duplicates s keys)
  = ([], inr (Frame cols (first_of_each keys [] (restrict cols <$> rows df)))).
Proof.
  intros Hcols Hkeys. rewrite (bind_pure _ _ _ (select_ok _ _ Hcols)).
  unfold drop_duplicates. cbn [columns rows].
  by rewrite (proj2 (missing_nil cols keys) Hkeys).
Qed.

Lemma rename_zip_id (r : row) :
  cell "restaurant_id" (rename_key "restaurant_zip_code" "restaurant_zip" r)
  = cell "restaurant_id" r.
Proof.
  unfold rename_key. destruct (r !! "restaurant_zip_code"); [|done].
  rewrite cell_insert_ne by done. by rewrite cell_delete_ne.
Qed.

(** The keys of the three dimension frames *)
Lemma restaurants_frame_keys df l d :
  restaurants_frame df = (l, inr d) →
  l = [] ∧ NoDup (cell "restaurant_id" <$> rows d) ∧
  (Forall (integer_cell "restaurant_id") (rows df) →
   Forall (integer_cell "restaurant_id") (rows d)).
Proof.
  unfold restaurants_frame.
  intros (? & s & ? & (-> & _ & ->)%select_inr & Hd & ->)%bind_inr.
  apply bind_inr in Hd as (? & u & ? & Hu & [= <- <-] & ->).
  pose proof (drop_duplicates_one_key _ _ _ _ Hu) as Hnd.
  apply drop_duplicates_inr in Hu as [-> ->].
  cbn [rows columns] in *. unfold rename. cbn [rows].
  split; [done|]. split.
  - rewrite <- list_fmap_compose.
    erewrite list_fmap_ext; [exact Hnd|].
    intros i r _. apply rename_zip_id.
  - intros Hint. clear Hnd.
    apply Forall_fmap, Forall_forall. intros r' Hr'.
    pose proof (elem_of_sublist _ _ _ Hr' (first_of_each_sublist _ [] _))
      as (r & -> & Hr)%list_elem_of_fmap.
    rewrite Forall_forall in Hint. destruct (Hint r Hr) as [z Hz].
    exists z. unfold compose. rewrite rename_zip_id, cell_restrict; [done|].
    in_list.
Qed.

Lemma customers_frame_keys df l d :
  customers_frame df = (l, inr d) →
  l = [] ∧ NoDup (cell "customer_id" <$> rows d).
Proof.
  unfold customers_frame.
  intros (-> & _ & -> & _)%deduplicated_selection; [|by_compute].
  split; [done|apply first_of_each_one_key].
Qed.

Lemma products_frame_keys df l p :
  products_frame df = (l, inr p) →
  l = [] ∧
  (Forall (integer_cell "item_number") (rows df) →
   Forall (integer_cell "item_number") (rows p)) ∧
  ((∀ r1 r2, r1 ∈ rows df → r2 ∈ rows df →
      cell "item_number" r1 = cell "item_number" r2 →
      cell "chain" r1 = cell "chain" r2) →
   NoDup (cell "item_number" <$> rows p)) ∧
  ((∃ r1 r2, r1 ∈ rows df ∧ r2 ∈ rows df ∧
      cell "item_number" r1 = cell "item_number" r2 ∧
      cell "chain" r1 ≠ cell "chain" r2) →
   ¬ NoDup (cell "item_number" <$> rows p)).
Proof.
  intros Hp.
  assert ((∀ r, r ∈ rows df →
             ∃ r', r' ∈ rows p ∧ cell "item_number" r' = cell "item_number" r ∧
                   cell "chain" r' = cell "chain" r) ∧
          (∀ r', r' ∈ rows p → ∃ r, r ∈ rows df ∧
             ∀ c, c ∈ product_columns → cell c r' = cell c r))
    as [Hcover Hfrom].
  { pose proof Hp as Hp'. unfold products_frame in Hp'.
    apply deduplicated_selection in Hp' as (_ & _ & _ & Hcover & Hfrom);
      [|by_compute].
    split.
    - intros r Hr. destruct (Hcover r Hr) as (r' & Hr' & [= Hk1 Hk2]).
      by exists r'.
    - intros r' Hr'. destruct (Hfrom r' Hr') as (r & Hr & ->). exists r.
      split; [done|]. intros c Hc. by apply cell_restrict. }
  assert (l = [] ∧
          NoDup ((λ r, (cell "item_number" r, cell "chain" r)) <$> rows p))
    as [-> Hnd].
  { unfold products_frame in Hp.
    apply bind_inr in Hp as (? & s & ? & (-> & _)%select_inr & Hd & ->).
    pose proof (drop_duplicates_two_keys _ _ _ _ _ Hd).
    by apply drop_duplicates_inr in Hd as [-> _]. }
  assert (∀ r', r' ∈ rows p → ∃ r, r ∈ rows df ∧
            cell "item_number" r' = cell "item_number" r ∧
            cell "chain" r' = cell "chain" r) as Hfrom'.
  { intros r' Hr'. destruct (Hfrom r' Hr') as (r & Hr & Hcells).
    exists r. split; [done|].
    split; apply Hcells; unfold product_columns; in_list. }
  split_and!; [done| | |].
  - intros Hint. apply Forall_forall. intros r' Hr'.
    destruct (Hfrom' r' Hr') as (r & Hr & Hitem & _).
    rewrite Forall_forall in Hint. destruct (Hint r Hr) as [z Hz].
    exists z. by rewrite Hitem.
  - intros Hone.
    eapply NoDup_coarser; [exact Hnd|]. intros x y Hx Hy Hxy. cbv beta.
    f_equal; [done|].
    destruct (Hfrom' x Hx) as (rx & Hrx & Hix & Hcx).
    destruct (Hfrom' y Hy) as (ry & Hry & Hiy & Hcy).
    rewrite Hcx, Hcy. apply Hone; [done|done|]. by rewrite <- Hix, <- Hiy.
  - intros (r1 & r2 & Hr1 & Hr2 & Hitem & Hchain) Hnd'.
    destruct (Hcover r1 Hr1) as (p1 & [i Hi]%list_elem_of_lookup & Hi1 & Hc1).
    destruct (Hcover r2 Hr2) as (p2 & [j Hj]%list_elem_of_lookup & Hi2 & Hc2).
    assert (i = j) as ->.
    { eapply (NoDup_lookup _ _ _ _ Hnd').
      - by rewrite list_lookup_fmap, Hi.
      - rewrite list_lookup_fmap, Hj. cbn. by rewrite Hi2, <- Hitem, <- Hi1. }
    apply Hchain. rewrite <- Hc1, <- Hc2. congruence.
Qed.

(** X15: the key conflicts of the three dimension loads. The customers
    frame, with customer ids that are text or missing, and the restaurants
    frame, with integer restaurant ids, never stop the load with an integrity
    error: each holds one row for every key. The products frame, with integer
    item numbers, stops the load with an integrity error on [item_number]
    exactly when an item number of the frame occurs under two chains: the
    frame holds one row for every pair of item number and chain, and the
    primary key of the table is the item number alone. The rows are rows
    that SQLite can store, with integers of 64 bits. *)
Theorem products_load df :
  (∀ l d, customers_frame df = (l, inr d) →
     Forall (λ r, is_text (cell "customer_id" r) ∨ cell "customer_id" r = NA)
            (rows df) →
     ∀ l' pk, to_sql "customer_id" TextKey d ≠ (l', inl (IntegrityError pk))) ∧
  (∀ l d, restaurants_frame df = (l, inr d) →
     Forall (integer_cell "restaurant_id") (rows df) →
     ∀ l' pk,
       to_sql "restaurant_id" IntegerKey d ≠ (l', inl (IntegrityError pk))) ∧
  (∀ l p, products_frame df = (l, inr p) →
     Forall (integer_cell "item_number") (rows df) →
     Forall storable (rows df) →
     (to_sql "item_number" IntegerKey p
        = ([], inl (IntegrityError "item_number")) ↔
      ∃ r1 r2, r1 ∈ rows df ∧ r2 ∈ rows df ∧
        cell "item_number" r1 = cell "item_number" r2 ∧
        cell "chain" r1 ≠ cell "chain" r2)).
Proof.
  split_and!.
  - intros l d (_ & Hnd)%customers_frame_keys _ l' pk.
    by rewrite (to_sql_returns _ _ _ _
                  (insert_rows_text_fresh _ [] (rows d) Hnd)).
  - intros l d (_ & Hnd & Hint)%restaurants_frame_keys Hdf l' pk.
    by rewrite (to_sql_returns _ _ _ _
                  (insert_rows_integer_fresh _ [] (rows d) (Hint Hdf) Hnd)).
  - intros l p (_ & Hint & Hok & Hbad)%products_frame_keys Hdf _. split.
    + intros Hfail.
      destruct (decide (Exists (λ r1, Exists (λ r2,
                  cell "item_number" r1 = cell "item_number" r2 ∧
                  cell "chain" r1 ≠ cell "chain" r2) (rows df)) (rows df)))
        as [Hex|Hno].
      * apply Exists_exists in Hex as (r1 & Hr1 & Hex).
        apply Exists_exists in Hex as (r2 & Hr2 & Hitem & Hchain).
        by exists r1, r2.
      * exfalso.
        assert (NoDup (cell "item_number" <$> rows p)) as Hnd.
        { apply Hok. intros r1 r2 Hr1 Hr2 Hitem.
          destruct (decide (cell "chain" r1 = cell "chain" r2)) as [|Hne];
            [done|].
          destruct Hno. apply Exists_exists. exists r1. split; [done|].
          apply Exists_exists. by exists r2. }
        by rewrite (to_sql_returns _ _ _ _
                      (insert_rows_integer_fresh _ [] (rows p) (Hint Hdf)
                         Hnd)) in Hfail.
    + intros Htwo. apply to_sql_raises.
      apply insert_rows_integer_conflict;
        [constructor|by apply Hint|by apply Hbad].
Qed.

Section WithParsers.
Context `{Parsers}.

(** X18: a frame with the columns of the merged data set that the
    cleaning script saves has every column the loader reads: the load of such
    a frame does not raise a [KeyError]. *)
Theorem loader_columns_provided abc_raw xyz_raw l res df :
  pipeline abc_raw xyz_raw = (l, inr res) →
  columns df = columns (merged res) →
  ∀ l' missing, load_database df ≠ (l', inl (KeyError missing)).
Proof.
  intros (_ & _ & _ & _ & _ & Hcols & _)%pipeline_inr Hdf l' missing.
  rewrite Hcols in Hdf.
  assert (orders_cols ⊆ columns df) as Ho by (rewrite Hdf; by_compute).
  assert (restaurant_columns ⊆ columns df) as Hr by (rewrite Hdf; by_compute).
  assert (product_columns ⊆ columns df) as Hp by (rewrite Hdf; by_compute).
  assert (customer_columns ⊆ columns df) as Hc by (rewrite Hdf; by_compute).
  assert (∃ r, restaurants_frame df = ([], inr r)) as [r Er].
  { eexists. unfold restaurants_frame.
    rewrite (bind_pure _ _ _ (select_ok _ _ Hr)).
    unfold drop_duplicates. cbn [columns rows].
    rewrite (proj2 (missing_nil _ ["restaurant_id"])) by by_compute.
    reflexivity. }
  assert (∃ p, products_frame df = ([], inr p)) as [p Ep].
  { eexists. apply (dimension_frame_returns df product_columns); [done|].
    by_compute. }
  assert (∃ c, customers_frame df = ([], inr c)) as [c Ec].
  { eexists. apply (dimension_frame_returns df customer_columns); [done|].
    by_compute. }
  destruct (customers_frame_keys _ _ _ Ec) as (_ & Nc).
  unfold load_database.
  rewrite (bind_pure _ _ _ (select_ok _ _ Ho)).
  rewrite (bind_pure _ _ _ Er).
  destruct (insert_rows "restaurant_id" IntegerKey [] (rows r))
    as [e|rt] eqn:Hrt.
  { rewrite (bind_inl _ _ _ _ (to_sql_raises _ _ _ _ Hrt)).
    intros [= _ ->]. by destruct (insert_rows_error _ _ _ _ _ Hrt). }
  rewrite (bind_pure _ _ _ (to_sql_returns _ _ _ _ Hrt)).
  rewrite (bind_pure _ _ _ Ep).
  destruct (insert_rows "item_number" IntegerKey [] (rows p))
    as [e|pt] eqn:Hpt.
  { rewrite (bind_inl _ _ _ _ (to_sql_raises _ _ _ _ Hpt)).
    intros [= _ ->]. by destruct (insert_rows_error _ _ _ _ _ Hpt). }
  rewrite (bind_pure _ _ _ (to_sql_returns _ _ _ _ Hpt)).
  rewrite (bind_pure _ _ _ Ec).
  rewrite (bind_pure _ _ _
             (to_sql_returns _ _ _ _
                (insert_rows_text_fresh _ [] (rows c) Nc))).
  done.
Qed.

End WithParsers.

Lemma integer_cells_check c (l : list row) :
  forallb (λ r, match cell c r with VInt _ => true | _ => false end) l = true →
  Forall (integer_cell c) l.
Proof.
  intros Hall. apply Forall_forall. intros r Hr%list_elem_of_In.
  pose proof (proj1 (forallb_forall _ _) Hall r Hr) as Hc. cbv beta in Hc.
  unfold integer_cell. destruct (cell c r); try discriminate. by eexists.
Defined.

Lemma text_cells_check c (l : list row) :
  forallb (λ r, match cell c r with VStr _ | NA => true | _ => false end) l
    = true →
  Forall (λ r, is_text (cell c r) ∨ cell c r = NA) l.
Proof.
  intros Hall. apply Forall_forall. intros r Hr%list_elem_of_In.
  pose proof (proj1 (forallb_forall _ _) Hall r Hr) as Hc. cbv beta in Hc.
  destruct (cell c r); try discriminate; [by right|left; by eexists].
Defined.

Lemma storable_check (l : list row) :
  forallb (λ r, bool_decide (storable r)) l = true → Forall storable l.
Proof.
  intros Hall. apply Forall_forall. intros r Hr%list_elem_of_In.
  pose proof (proj1 (forallb_forall _ _) Hall r Hr) as Hc. cbv beta in Hc.
  by apply bool_decide_eq_true_1 in Hc.
Defined.

Lemma one_chain_check (l : list row) :
  forallb (λ r1, forallb (λ r2,
     implb (bool_decide (cell "item_number" r1 = cell "item_number" r2))
           (bool_decide (cell "chain" r1 = cell "chain" r2))) l) l = true →
  ∀ r1 r2, r1 ∈ l → r2 ∈ l →
    cell "item_number" r1 = cell "item_number" r2 →
    cell "chain" r1 = cell "chain" r2.
Proof.
  intros Hall r1 r2 Hr1%list_elem_of_In Hr2%list_elem_of_In Hitem.
  pose proof (proj1 (forallb_forall _ _) Hall r1 Hr1) as H1. cbv beta in H1.
  pose proof (proj1 (forallb_forall _ _) H1 r2 Hr2) as H2. cbv beta in H2.
  rewrite (bool_decide_eq_true_2 _ Hitem) in H2.
  by apply bool_decide_eq_true_1 in H2.
Defined.

Lemma example_one_chain :
  ∀ r1 r2, r1 ∈ rows (merged example_result) →
    r2 ∈ rows (merged example_result) →
    cell "item_number" r1 = cell "item_number" r2 →
    cell "chain" r1 = cell "chain" r2.
Proof. apply one_chain_check. vm_compute. reflexivity. Defined.

Lemma products_load_witness :
  (∃ c, customers_frame (merged example_result) = ([], inr c) ∧
        ∀ l' pk,
          to_sql "customer_id" TextKey c ≠ (l', inl (IntegrityError pk))) ∧
  (∃ p, products_frame (merged example_result) = ([], inr p) ∧
        to_sql "item_number" IntegerKey p
          ≠ ([], inl (IntegrityError "item_number"))) ∧
  (∃ p, products_frame shared_item_frame = ([], inr p) ∧
        length (rows p) = 2%nat ∧
        to_sql "item_number" IntegerKey p
          = ([], inl (IntegrityError "item_number"))).
Proof.
  split_and!.
  - set (m := customers_frame (merged example_result)).
    assert (m = ([], inr (result_of (merged example_result) m))) as Hc.
    { rewrite (returned_result (merged example_result) m) at 1
        by (vm_compute; reflexivity).
      f_equal; vm_compute; reflexivity. }
    exists (result_of (merged example_result) m). split; [exact Hc|].
    destruct (products_load (merged example_result)) as (Hcust & _ & _).
    apply (Hcust _ _ Hc). apply text_cells_check. vm_compute. reflexivity.
  - set (m := products_frame (merged example_result)).
    assert (m = ([], inr (result_of (merged example_result) m))) as Hp.
    { rewrite (returned_result (merged example_result) m) at 1
        by (vm_compute; reflexivity).
      f_equal; vm_compute; reflexivity. }
    exists (result_of (merged example_result) m). split; [exact Hp|].
    destruct (products_load (merged example_result)) as (_ & _ & Hprod).
    intros Hfail. apply (Hprod _ _ Hp) in Hfail.
    + destruct Hfail as (r1 & r2 & Hr1 & Hr2 & Hitem & Hchain).
      apply Hchain.
      exact (example_one_chain r1 r2 Hr1 Hr2 Hitem).
    + apply integer_cells_check. vm_compute. reflexivity.
    + apply storable_check. vm_compute. reflexivity.
  - set (m := products_frame shared_item_frame).
    assert (m = ([], inr (result_of shared_item_frame m))) as Hp.
    { rewrite (returned_result shared_item_frame m) at 1
        by (vm_compute; reflexivity).
      f_equal; vm_compute; reflexivity. }
    exists (result_of shared_item_frame m). split; [exact Hp|].
    split; [vm_compute; reflexivity|].
    destruct (products_load shared_item_frame) as (_ & _ & Hprod).
    apply (Hprod _ _ Hp).
    + apply integer_cells_check. vm_compute. reflexivity.
    + apply storable_check. vm_compute. reflexivity.
    + exists (nth_row 0 shared_item_frame), (nth_row 1 shared_item_frame).
      split; [apply nth_row_elem; vm_compute; reflexivity|].
      split; [apply nth_row_elem; vm_compute; reflexivity|].
      split; [vm_compute; reflexivity|].
      vm_compute. discriminate.
Defined.

Lemma loader_columns_provided_witness :
  pipeline abc_example xyz_example = (example_run.1, inr example_result) ∧
  ∀ l' missing,
    load_database (merged example_result) ≠ (l', inl (KeyError missing)).
Proof.
  split; [exact example_run_returned|].
  exact (loader_columns_provided abc_example xyz_example example_run.1
           example_result (merged example_result) example_run_returned
           eq_refl).
Defined.

End Loading.

(** ** The vocabulary of the merged data set, and the merge of the saved
    frames *)

Module Vocabulary.
Import Pandas Python CleanAndMerge LoadDatabase Examples RowView Conditions.
Import Cases.
Import Steps Rows Records Properties Progress Merged.

Lemma restrict_restrict cols (r : row) :
  restrict cols (restrict cols r) = restrict cols r.
Proof.
  unfold restrict. apply map_eq. intros c.
  destruct (filter (λ kv, kv.1 ∈ cols) r !! c) as [v|] eqn:Hc.
  - apply map_lookup_filter_Some. split; [done|].
    by apply map_lookup_filter_Some in Hc as [_ ?].
  - apply map_lookup_filter_None. by left.
Qed.

(** X19: merging the two frames that a merge has saved gives the same
    three frames and the same log line again. *)
Theorem unify_idempotent abc xyz l res :
  unify abc xyz = (l, inr res) →
  unify (abc_clean res) (xyz_clean res) = (l, inr res).
Proof.
  intros Hu. pose proof (unify_log _ _ _ _ Hu) as ->.
  apply unify_inr in Hu as (_ & _ & ->). cbn [abc_clean xyz_clean merged].
  destruct (unify_ok (Frame shared_cols (restrict shared_cols <$> rows abc))
              (Frame shared_cols (restrict shared_cols <$> rows xyz)))
    as [ev Hu']; [done|done|].
  cbn [rows] in Hu'. rewrite <- !list_fmap_compose in Hu'.
  assert (∀ rs : list row,
            (restrict shared_cols ∘ restrict shared_cols) <$> rs
            = restrict shared_cols <$> rs) as Hrr.
  { intros rs. apply list_fmap_ext. intros i r _. apply restrict_restrict. }
  rewrite !Hrr in Hu'.
  pose proof (unify_log _ _ _ _ Hu') as Hev. cbn [merged] in Hev.
  rewrite Hu'. f_equal. exact Hev.
Qed.

Lemma unify_idempotent_witness :
  ∃ l res,
    unify example_abc_cleaned example_xyz_cleaned = (l, inr res) ∧
    unify (abc_clean res) (xyz_clean res) = (l, inr res).
Proof.
  set (m := unify example_abc_cleaned example_xyz_cleaned).
  assert (m = (m.1, inr (result_of example_result m))) as Hu
    by (apply returned_result; vm_compute; reflexivity).
  exists m.1, (result_of example_result m). split; [exact Hu|].
  exact (unify_idempotent _ _ _ _ Hu).
Defined.

Section WithParsers.
Context `{Parsers}.

(** X20: when every raw category of ABC is a key of the vocabulary table
    of ABC, and every raw category of XYZ a key of the table of XYZ, every
    record of the merged data set has one of the seven categories of the
    data model. *)
Theorem merged_categories_canonical abc_raw xyz_raw l res :
  pipeline abc_raw xyz_raw = (l, inr res) →
  Forall (λ r, ∃ k, cell "item_category" r = VStr k ∧
                    is_Some (category_map_abc !! k)) (rows abc_raw) →
  Forall (λ r, ∃ k, cell "item_category" r = VStr k ∧
                    is_Some (category_map_xyz !! k)) (rows xyz_raw) →
  Forall (λ r', ∃ c, cell "item_category" r' = VStr c ∧
                     c ∈ [ "Appetizers"; "Beverages"; "Dessert"; "Pasta";
                           "Pizza"; "Salads"; "Sandwiches" ])
         (rows (merged res)).
Proof.
  intros (Ha & Hx & -> & _)%pipeline_inr Hka Hkx. apply Forall_app. split.
  - eapply Forall2_Forall_r; [exact Ha|exact Hka|].
    intros r r' Hrec%abc_record_cells (k & Hk & [c Hc]).
    destruct Hrec as (_ & _ & _ & _ & _ & _ & _ & _ & Hcat & _).
    exists c. rewrite Hcat, Hk, normalize_category_text, Hc. split; [done|].
    apply canonical_seven. exists k. by left.
  - eapply Forall2_Forall_r; [exact Hx|exact Hkx|].
    intros r r' Hrec%xyz_record_cells (k & Hk & [c Hc]).
    destruct Hrec as (_ & _ & _ & _ & _ & _ & _ & _ & Hcat & _).
    exists c. rewrite Hcat, Hk, normalize_category_text, Hc. split; [done|].
    apply canonical_seven. exists k. by right.
Qed.

End WithParsers.

Lemma merged_categories_canonical_witness :
  ∃ l res,
    pipeline abc_known xyz_known = (l, inr res) ∧
    Forall (λ r', ∃ c, cell "item_category" r' = VStr c ∧
                       c ∈ [ "Appetizers"; "Beverages"; "Dessert"; "Pasta";
                             "Pizza"; "Salads"; "Sandwiches" ])
           (rows (merged res)).
Proof.
  set (m := pipeline abc_known xyz_known).
  assert (m = (m.1, inr (result_of example_result m))) as Hrun
    by (apply returned_result; vm_compute; reflexivity).
  exists m.1, (result_of example_result m). split; [exact Hrun|].
  apply (merged_categories_canonical abc_known xyz_known m.1 _ Hrun).
  - unfold abc_known. cbn [rows].
    apply Forall_cons_2; [exists "salad"; split; [vm_compute; reflexivity|]|].
    { exists "Salads". vm_compute. reflexivity. }
    apply Forall_cons_2; [exists "Sandwich"; split; [vm_compute; reflexivity|]|].
    { exists "Sandwiches". vm_compute. reflexivity. }
    apply Forall_nil_2.
  - unfold xyz_known. cbn [rows].
    apply Forall_cons_2; [exists "Beverage"; split; [vm_compute; reflexivity|]|].
    { exists "Beverages". vm_compute. reflexivity. }
    apply Forall_nil_2.
Defined.

End Vocabulary.
